(** * Cloud component discovery and classification pipeline

    A shallow embedding of the Temenos component discovery pipeline:
    - [backend/app/services/azure_service.py]   ([AzureResource], the
      listing of resources, the messages of a failed connection),
    - [backend/app/services/aks_service.py]     ([AKSPod],
      [get_cluster_credentials], [get_pods_from_cluster] with its namespace
      relevance filter, [discover_pods_from_resources]),
    - [backend/app/services/temenos_service.py] (candidate check,
      classification, knowledge enrichment with its cache, batch analysis),
    - [backend/app/api/deployment.py]           (the analyze operation,
      [_deduplicate_components], and the operations that connect to a
      subscription, list resources, list namespaces and report health).

    Conventions of the embedding.
    - Python [str] values are [string]s (byte strings); the texts handled by
      the pipeline are taken to be ASCII, so [str.lower] maps [A-Z] to [a-z]
      and leaves every other byte alone.
    - Python dicts that are only read by key ([tags], [properties], the
      knowledge cache) are [gmap string _]; the grouping map of the
      deduplicator, whose insertion order is observable, is an association
      list.
    - A value that is falsy in Python ([None] or the empty string) is
      tested with [truthy].
    - Lists that are mutated in place and shared between objects (the
      [related_services] list of a component description) live in an
      explicit store and are referred to by location.
    - Calls to the outside world (knowledge service, subprocesses, the
      cluster) are taken from an environment given as a parameter. *)

From stdpp Require Import gmap strings list.
From Stdlib Require Import Ascii NArith Lia.

Local Open Scope string_scope.
Local Open Scope list_scope.

(** ** Python string operations *)

Module Str.

Definition is_upper (c : ascii) : bool :=
  let n := N_of_ascii c in ((65 <=? n) && (n <=? 90))%N.

Definition lower_ascii (c : ascii) : ascii :=
  if is_upper c then ascii_of_N (N_of_ascii c + 32) else c.

(** [s.lower()] *)
Fixpoint lower (s : string) : string :=
  match s with
  | EmptyString => EmptyString
  | String c t => String (lower_ascii c) (lower t)
  end.

(** [s.startswith(p)] *)
Definition startswith (p s : string) : bool := String.prefix p s.

(** [p in s] for strings: [p] occurs in [s] as a substring. *)
Fixpoint contains (p s : string) : bool :=
  String.prefix p s ||
  match s with
  | EmptyString => false
  | String _ t => contains p t
  end.

(** [any(p in s for p in ps)], also [any(re.search(p, s) for p in ps)]
    when every [p] is a literal without metacharacters. *)
Definition contains_any (ps : list string) (s : string) : bool :=
  existsb (fun p => contains p s) ps.

(** [bool(s)] for a string. *)
Definition nonempty (s : string) : bool :=
  match s with EmptyString => false | _ => true end.

(** [bool(d.get(k))] and the value it yields. *)
Definition truthy (o : option string) : bool :=
  match o with Some s => nonempty s | None => false end.

(** [a or b] on optional strings ([None] and [""] are falsy): the first
    truthy operand, else the last one. *)
Definition or_else (a b : option string) : option string :=
  if truthy a then a else b.

(** [s.split(sep)] for a one-character separator. *)
Fixpoint split (sep : ascii) (s : string) : list string :=
  match s with
  | EmptyString => [EmptyString]
  | String c t =>
      if Ascii.eqb c sep then EmptyString :: split sep t
      else match split sep t with
           | [] => [String c EmptyString]
           | w :: ws => String c w :: ws
           end
  end.

(** Characters removed by [str.strip()] (the ASCII ones). *)
Definition is_space (c : ascii) : bool :=
  let n := N_of_ascii c in
  ((n =? 32) || ((9 <=? n) && (n <=? 13)) || ((28 <=? n) && (n <=? 31)))%N.

Fixpoint lstrip (s : string) : string :=
  match s with
  | String c t => if is_space c then lstrip t else s
  | EmptyString => EmptyString
  end.

Fixpoint rstrip (s : string) : string :=
  match s with
  | EmptyString => EmptyString
  | String c t =>
      match rstrip t with
      | EmptyString => if is_space c then EmptyString else String c EmptyString
      | t' => String c t'
      end
  end.

(** [s.strip()] *)
Definition strip (s : string) : string := rstrip (lstrip s).

(** [\w] on ASCII: letters, digits and the underscore. *)
Definition is_word (c : ascii) : bool :=
  let n := N_of_ascii c in
  (((48 <=? n) && (n <=? 57)) || ((65 <=? n) && (n <=? 90)) ||
   ((97 <=? n) && (n <=? 122)) || (n =? 95))%N.

Definition is_digit (c : ascii) : bool :=
  let n := N_of_ascii c in ((48 <=? n) && (n <=? 57))%N.

(** [s[n:]] *)
Fixpoint drop (n : nat) (s : string) : string :=
  match n, s with
  | O, _ => s
  | S n', String _ t => drop n' t
  | S _, EmptyString => EmptyString
  end.

(** [re.sub(pat, "", s, flags=re.IGNORECASE)] for a lower-case literal
    [pat]: left to right, every non-overlapping occurrence is removed. *)
Fixpoint remove_ci_from (pat : string) (skip : nat) (s : string) : string :=
  match s with
  | EmptyString => EmptyString
  | String c t =>
      match skip with
      | S k => remove_ci_from pat k t
      | O =>
          if String.prefix pat (lower s)
          then remove_ci_from pat (String.length pat - 1) t
          else String c (remove_ci_from pat 0 t)
      end
  end.

Definition remove_ci (pat s : string) : string := remove_ci_from pat 0 s.

(** [re.search(r"\b" + w + r"\b", s)] for a word [w] of word characters:
    an occurrence of [w] with no word character right before or after. *)
Fixpoint word_search_from (w : string) (prev_is_word : bool) (s : string) : bool :=
  match s with
  | EmptyString => false
  | String c t =>
      (negb prev_is_word && String.prefix w s &&
       match drop (String.length w) s with
       | EmptyString => true
       | String d _ => negb (is_word d)
       end)
      || word_search_from w (is_word c) t
  end.

Definition word_search (w s : string) : bool := word_search_from w false s.

(** [s.split()]: the maximal runs of characters that are not white space.
    [word_and_rest s] is the run at the very start of [s] (empty when [s]
    starts with white space) and the runs after it. *)
Fixpoint word_and_rest (s : string) : string * list string :=
  match s with
  | EmptyString => (EmptyString, [])
  | String c t =>
      let '(w, ws) := word_and_rest t in
      if is_space c then (EmptyString, if nonempty w then w :: ws else ws)
      else (String c w, ws)
  end.

Definition fields (s : string) : list string :=
  let '(w, ws) := word_and_rest s in
  if nonempty w then w :: ws else ws.

End Str.

(** ** Resources ([azure_service.py], [aks_service.py]) *)

Module AzureResource.
(** [class AzureResource].  [properties] holds the string-valued entries
    of the Python dict, the only ones any stage reads. *)
Record t := mk {
  id : string;
  name : string;
  type : string;
  location : string;
  resource_group : string;
  tags : gmap string string;
  properties : gmap string string
}.
End AzureResource.

Module AKSPod.
(** [class AKSPod] *)
Record t := mk {
  name : string;
  namespace : string;
  cluster_name : string;
  cluster_resource_group : string;
  status : string;
  labels : gmap string string;
  containers : list string
}.

(** [AKSPod.to_azure_resource]: the tag dict is the labels overridden by
    the three fixed keys; the list-valued [containers] property is not a
    string entry and is left out of [properties]. *)
Definition to_azure_resource (self : t) : AzureResource.t :=
  AzureResource.mk
    ("/subscriptions/" +:+ cluster_resource_group self +:+
     "/resourceGroups/" +:+ cluster_resource_group self +:+
     "/providers/Microsoft.ContainerService/managedClusters/" +:+
     cluster_name self +:+ "/namespaces/" +:+ namespace self +:+
     "/pods/" +:+ name self)
    (namespace self +:+ "/" +:+ name self)
    "Microsoft.ContainerService/managedClusters/pods"
    ""
    (cluster_resource_group self)
    (<["cluster" := cluster_name self]>
       (<["pod_name" := name self]>
          (<["namespace" := namespace self]> (labels self))))
    (<["namespace" := namespace self]>
       (<["cluster" := cluster_name self]>
          (<["status" := status self]>
             (<["pod_name" := name self]>
                (<["namespace_name" := namespace self]> ∅))))).
End AKSPod.

(** [d.get(k)] followed by a truth test. *)
Definition has_truthy (d : gmap string string) (k : string) : bool :=
  Str.truthy (d !! k).

(** [d.get(k, "")] *)
Definition get_or_empty (d : gmap string string) (k : string) : string :=
  default "" (d !! k).

(** [ "managedclusters/pods" in service.type.lower() ] *)
Definition is_pod_type (service : AzureResource.t) : bool :=
  Str.contains "managedclusters/pods" (Str.lower (AzureResource.type service)).

(** ** Component classifier ([temenos_service.py]) *)

(** The deny-list of [_is_potential_temenos_component]. *)
Definition infrastructure_types : list string :=
  [ "microsoft.network/networksecuritygroups";
    "microsoft.network/virtualnetworks";
    "microsoft.network/privatednszones";
    "microsoft.network/networkinterfaces";
    "microsoft.network/publicipaddresses";
    "microsoft.network/loadbalancers";
    "microsoft.network/applicationgateways";
    "microsoft.network/privatelinkservices";
    "microsoft.network/privatendpoints";
    "microsoft.storage/storageaccounts";
    "microsoft.keyvault/vaults";
    "microsoft.insights/components";
    "microsoft.operationalinsights/workspaces" ].

Definition temenos_patterns : list string :=
  [ "transact"; "payments"; "wealth"; "digital"; "analytics";
    "datahub"; "modular"; "tap"; "adapter"; "genericconfig";
    "eventstore"; "stmtgen"; "notification"; "audit"; "file";
    "workflow"; "integration"; "temenos" ].

Definition relevant_types : list string :=
  [ "microsoft.containerservice/managedclusters";
    "microsoft.containerservice/managedclusters/pods";
    "microsoft.app/containerapps";
    "microsoft.sql/servers";
    "microsoft.sql/databases";
    "microsoft.documentdb/databaseaccounts";
    "microsoft.compute/virtualmachines";
    "microsoft.compute/virtualmachinescalesets" ].

Definition temenos_namespace_patterns : list string :=
  [ "eventstore"; "adapter"; "genericconfig"; "holdings"; "party";
    "transact"; "modular"; "temenos"; "tap"; "stmtgen"; "notification";
    "audit"; "file"; "workflow"; "deposits"; "lending"; "webingress";
    "ingress" ].

(** The resource type matches the deny-list. *)
Definition matches_infrastructure (service : AzureResource.t) : bool :=
  Str.contains_any infrastructure_types (Str.lower (AzureResource.type service)).

(** The tag test that opens both the candidate check and the classifier. *)
Definition has_component_tag (service : AzureResource.t) : bool :=
  has_truthy (AzureResource.tags service) "temenosComponent" ||
  has_truthy (AzureResource.tags service) "component".

(** [TemenosService._is_potential_temenos_component] *)
Definition _is_potential_temenos_component (service : AzureResource.t) : bool :=
  if has_component_tag service then true
  else
    let name := Str.lower (AzureResource.name service) in
    let resource_type := Str.lower (AzureResource.type service) in
    if Str.contains_any infrastructure_types resource_type then false
    else
      let has_temenos_name := Str.contains_any temenos_patterns name in
      let is_relevant_type := Str.contains_any relevant_types resource_type in
      if Str.contains "managedclusters/pods" (Str.lower resource_type) then
        let namespace := get_or_empty (AzureResource.properties service) "namespace" in
        if Str.nonempty namespace
           && Str.contains_any temenos_namespace_patterns (Str.lower namespace)
        then true
        else true
      else has_temenos_name || (is_relevant_type && has_temenos_name).

(** ** Component name extraction *)


(** A Python dict display [{k1: v1, k2: v2, ...}]: a later entry with the
    same key replaces an earlier one. *)
Definition dict_literal (items : list (string * string)) : gmap string string :=
  fold_left (fun m kv => <[kv.1 := kv.2]> m) items ∅.

(** [parts[-1]] and [parts[-2]] of a list of strings. *)
Definition last_part (parts : list string) : string := List.last parts "".

Definition second_last_part (parts : list string) : string :=
  match rev parts with
  | _ :: p :: _ => p
  | _ => ""
  end.

(** [TemenosService._normalize_component_name] *)
Definition _normalize_component_name (name : string) : string :=
  let normalized := Str.remove_ci "microsoft." name in
  let normalized := Str.remove_ci "azure" normalized in
  let normalized := Str.remove_ci "service" normalized in
  let normalized := Str.remove_ci "appinitapp" normalized in
  let normalized := Str.remove_ci "appinit" normalized in
  let normalized := Str.strip normalized in
  if Str.nonempty normalized then normalized else "Temenos Component".

(** [TemenosService._categorize_component] *)
Definition _categorize_component (name : string) : string :=
  let lower_name := Str.lower name in
  if Str.contains_any ["microservice"; "adapter"; "config"; "event"] lower_name
  then "microservice" else "core".

(** The dict returned by [_extract_component_name]. *)
Record extracted_info := mk_extracted {
  componentName : string;
  normalizedName : string;
  componentCategory : string
}.

(** The namespace table of [_extract_component_name], in source order. *)
Definition temenos_namespaces : gmap string string :=
  dict_literal
    [ ("eventstore", "Event Store Microservice");
      ("adapterservice", "Adapter Microservice");
      ("adapter-service", "Adapter Microservice");
      ("genericconfig", "Generic Config Microservice");
      ("generic-config", "Generic Config Microservice");
      ("holdings", "Holdings Microservice");
      ("partyv2", "Party V2 Microservice");
      ("party-v2", "Party V2 Microservice");
      ("transact", "Temenos Transact");
      ("modular-banking", "Modular Banking");
      ("modularbanking", "Modular Banking");
      ("webingress", "Web Ingress Microservice");
      ("deposits202507", "Deposits Microservice");
      ("ingress-nginx-deposits-202507", "Deposits Ingress Service");
      ("ingress-nginx-lending", "Lending Ingress Service");
      ("ingress-nginx-transact", "Transact Ingress Service");
      ("stmtgen", "Statement Generation Microservice");
      ("stmt-gen", "Statement Generation Microservice");
      ("notification", "Notification Microservice");
      ("audit", "Audit Microservice");
      ("file", "File Management Microservice");
      ("workflow", "Workflow Microservice");
      ("integration", "Integration Microservice");
      ("deposits", "Deposits Microservice");
      ("lending", "Lending Microservice");
      ("webingress", "Web Ingress Microservice");
      ("web-ingress", "Web Ingress Microservice");
      ("ingress", "Ingress Microservice");
      ("tap", "Temenos TAP");
      ("tap-service", "Temenos TAP Service");
      ("temenos", "Temenos Component");
      ("t24", "Temenos Transact");
      ("temenos-transact", "Temenos Transact") ].

(** The [if/elif] chain tried when the table has no exact entry. *)
Definition namespace_pattern_match (namespace_lower : string) : option string :=
  let has ps := Str.contains_any ps namespace_lower in
  if has ["eventstore"; "event-store"; "event"] then Some "Event Store Microservice"
  else if has ["adapter"; "adapt"] then Some "Adapter Microservice"
  else if has ["genericconfig"; "generic-config"; "config"] then Some "Generic Config Microservice"
  else if has ["holdings"; "holding"] then Some "Holdings Microservice"
  else if has ["party"; "partyv2"; "party-v2"] then Some "Party V2 Microservice"
  else if has ["transact"; "t24"; "temenos-transact"] then Some "Temenos Transact"
  else if has ["modular"; "modularbanking"; "modular-banking"] then Some "Modular Banking"
  else if has ["stmtgen"; "stmt-gen"; "statement"] then Some "Statement Generation Microservice"
  else if has ["notification"; "notify"] then Some "Notification Microservice"
  else if has ["audit"; "auditing"] then Some "Audit Microservice"
  else if has ["file"; "files"] then Some "File Management Microservice"
  else if has ["workflow"; "workflows"] then Some "Workflow Microservice"
  else if has ["integration"; "integrate"] then Some "Integration Microservice"
  else if has ["deposits"; "deposit"] then Some "Deposits Microservice"
  else if has ["lending"; "lend"] then Some "Lending Microservice"
  else if has ["webingress"; "web-ingress"] then Some "Web Ingress Microservice"
  else if Str.contains "ingress" namespace_lower && Str.contains "nginx" namespace_lower then
    if Str.contains "transact" namespace_lower then Some "Transact Ingress Service"
    else if Str.contains "deposits" namespace_lower then Some "Deposits Ingress Service"
    else if Str.contains "lending" namespace_lower then Some "Lending Ingress Service"
    else Some "Ingress Service"
  else if Str.contains "ingress" namespace_lower then Some "Ingress Microservice"
  else if has ["tap"; "tap-service"] then Some "Temenos TAP"
  else if has ["temenos"] then Some "Temenos Component"
  else None.

(** The regular expressions of the name-pattern tables are alternations
    of three kinds of items: a literal, a literal anchored at the start
    ([^w]) and a literal between word boundaries ([\bw\b]). *)
Inductive pattern_alt :=
| Lit (w : string)
| Anchored (w : string)
| WordBounded (w : string).

(** [re.search] of one alternative in [name]. *)
Definition alt_found (name : string) (a : pattern_alt) : bool :=
  match a with
  | Lit w => Str.contains w name
  | Anchored w => Str.startswith w name
  | WordBounded w => Str.word_search w name
  end.

(** A row of the tables: pattern, canonical name, category. *)
Record name_rule := mk_rule {
  rule_pattern : list pattern_alt;
  rule_name : string;
  rule_category : string
}.

Definition microservice_patterns : list name_rule :=
  [ mk_rule [Lit "holdings"] "Holdings Microservice" "microservice";
    mk_rule [Anchored "adapter"; Lit "adapter"] "Adapter Microservice" "microservice";
    mk_rule [Anchored "genericconfig"; Lit "genericconfig"] "Generic Config Microservice" "microservice";
    mk_rule [Lit "eventstore"; Lit "event-store"; Lit "eventstore"] "Event Store Microservice" "microservice";
    mk_rule [Anchored "stmtgen"; Lit "stmtgen"] "Statement Generation Microservice" "microservice";
    mk_rule [Anchored "notification"; Lit "notification"] "Notification Microservice" "microservice";
    mk_rule [Anchored "audit"; Lit "audit"] "Audit Microservice" "microservice";
    mk_rule [Anchored "file"; Lit "file"] "File Management Microservice" "microservice";
    mk_rule [Anchored "workflow"; Lit "workflow"] "Workflow Microservice" "microservice";
    mk_rule [Anchored "integration"; Lit "integration"] "Integration Microservice" "microservice" ].

Definition component_patterns : list name_rule :=
  [ mk_rule [Lit "transact"] "Temenos Transact" "core";
    mk_rule [Lit "payments"] "Temenos Payments" "core";
    mk_rule [Lit "wealth"] "Temenos Wealth" "core";
    mk_rule [Lit "digital"] "Temenos Digital" "core";
    mk_rule [Lit "analytics"] "Temenos Analytics" "core";
    mk_rule [Lit "datahub"] "Temenos Data Hub" "core";
    mk_rule [Lit "modular"] "Temenos Modular Banking" "core";
    mk_rule [WordBounded "tap"] "Temenos TAP" "core" ].

(** [re.search(pattern, name)] for the pattern of a rule. *)
Definition rule_fires (name : string) (r : name_rule) : bool :=
  existsb (alt_found name) (rule_pattern r).

(** First rule of a table that fires: the [for ... if re.search: return]
    loops. *)
Definition first_rule (table : list name_rule) (name : string) : option name_rule :=
  List.find (rule_fires name) table.

(** The namespace a pod resource is filed under and its bare pod name
    (the first part of the pod branch of [_extract_component_name]). *)
Definition pod_namespace_and_name (service : AzureResource.t) : string * string :=
  let namespace :=
    default ""
      (Str.or_else (AzureResource.properties service !! "namespace")
         (Str.or_else (AzureResource.properties service !! "namespace_name")
            (Str.or_else (AzureResource.tags service !! "namespace") (Some "")))) in
  let name := AzureResource.name service in
  if Str.contains "/" name then
    let parts := Str.split "/" name in
    let pod_name := last_part parts in
    let namespace :=
      if negb (Str.nonempty namespace) then second_last_part parts else namespace in
    (namespace, pod_name)
  else (namespace, name).

(** [TemenosService._extract_component_name] *)
Definition _extract_component_name (service : AzureResource.t) : option extracted_info :=
  let tags := AzureResource.tags service in
  if has_truthy tags "temenosComponent" then
    let tag_name := get_or_empty tags "temenosComponent" in
    Some (mk_extracted tag_name (_normalize_component_name tag_name)
            (_categorize_component tag_name))
  else if has_truthy tags "component" then
    let tag_name := get_or_empty tags "component" in
    Some (mk_extracted tag_name (_normalize_component_name tag_name)
            (_categorize_component tag_name))
  else
    let by_name (name : string) : option extracted_info :=
      match first_rule microservice_patterns name with
      | Some r =>
          Some (mk_extracted (AzureResource.name service) (rule_name r) (rule_category r))
      | None =>
          match first_rule component_patterns name with
          | Some r =>
              Some (mk_extracted (AzureResource.name service) (rule_name r) (rule_category r))
          | None =>
              let ty := Str.lower (AzureResource.type service) in
              if Str.contains "temenos" ty || Str.contains "transact" ty then
                Some (mk_extracted (AzureResource.name service)
                        (_normalize_component_name (AzureResource.type service)) "core")
              else None
          end
      end in
    if Str.contains "managedclusters/pods" (Str.lower (AzureResource.type service)) then
      let '(namespace, pod_name) := pod_namespace_and_name service in
      let normalized :=
        if Str.nonempty namespace then
          match temenos_namespaces !! Str.lower namespace with
          | Some n => if Str.nonempty n then Some n
                      else namespace_pattern_match (Str.lower namespace)
          | None => namespace_pattern_match (Str.lower namespace)
          end
        else None in
      match normalized with
      | Some n =>
          Some (mk_extracted pod_name n
                  (if Str.contains "Microservice" n then "microservice" else "core"))
      | None => by_name (Str.lower pod_name)
      end
    else by_name (Str.lower (AzureResource.name service)).


(** ** Knowledge enrichment ([temenos_service.py]) *)

(** [TemenosService._build_architectural_query] *)
Definition _build_architectural_query (component_name category : string) : string :=
  if String.eqb category "microservice" then
  "Provide a COMPLETE, COMPREHENSIVE, and DETAILED architectural overview of " +:+
  component_name +:+
  " in Temenos Transact. 

Include EVERYTHING you know about:
- Complete architecture and all design patterns used
- ALL architectural components and their detailed interactions
- Complete deployment architecture, configurations, and considerations
- ALL integration points with other Temenos components (list all)
- Complete technology stack, frameworks, libraries, and versions
- Detailed scalability and performance characteristics, metrics, benchmarks
- Complete security architecture, authentication, authorization, encryption
- Detailed data flow and processing patterns, data models, schemas
- Infrastructure requirements, resource needs, dependencies
- Monitoring, logging, observability patterns
- Error handling, resilience patterns, disaster recovery
- Any other architectural details available

Be EXTREMELY thorough and provide ALL available information. Do not summarize or truncate. Include every detail you have access to."
  else
  "Provide a COMPLETE, COMPREHENSIVE, and DETAILED architectural overview of " +:+
  component_name +:+
  ". 

Include EVERYTHING you know about:
- Complete architecture and all design patterns
- ALL components and their detailed interactions
- Complete deployment considerations and configurations
- ALL integration points and dependencies
- Complete technology stack and versions
- Detailed scalability and performance characteristics
- Complete security architecture
- Detailed data flow patterns and data models
- Infrastructure requirements and dependencies
- Monitoring and observability
- Error handling and resilience
- Any other architectural details

Be EXTREMELY thorough and provide ALL available information. Do not summarize or truncate. Include every detail you have access to.".

(** [TemenosService._build_functional_query] *)
Definition _build_functional_query (component_name category : string) : string :=
  if String.eqb category "microservice" then
  "Provide a COMPLETE, COMPREHENSIVE, and DETAILED functional overview of " +:+
  component_name +:+
  " in Temenos Transact. 

Include EVERYTHING you know about:
- ALL core functional capabilities and responsibilities (list all)
- ALL business functions and features it supports (complete list)
- ALL use cases and scenarios (detailed examples)
- ALL key business processes it handles (step-by-step)
- ALL data it manages and processes (data types, structures, volumes)
- ALL APIs and interfaces it exposes (endpoints, methods, parameters, responses)
- ALL business rules and validations (complete list)
- ALL workflow and process orchestration capabilities
- ALL reporting and analytics capabilities
- Configuration options and settings
- Feature flags and capabilities
- Business logic details
- Any other functional details available

Be EXTREMELY thorough and provide ALL available information. Do not summarize or truncate. Include every detail you have access to."
  else
  "Provide a COMPLETE, COMPREHENSIVE, and DETAILED functional overview of " +:+
  component_name +:+
  ". 

Include EVERYTHING you know about:
- ALL core functional capabilities (complete list)
- ALL business functions and features (complete list)
- ALL use cases and scenarios (detailed)
- ALL key business processes (detailed)
- ALL data management capabilities
- ALL APIs and interfaces (complete list)
- ALL business rules (complete list)
- ALL workflow capabilities
- ALL reporting features
- Configuration and settings
- Feature details
- Any other functional information

Be EXTREMELY thorough and provide ALL available information. Do not summarize or truncate. Include every detail you have access to.".

(** The paragraph that replaces an architectural answer that is not
    available. *)
Definition architectural_fallback (component_name : string) : string :=
  component_name +:+
  " is a Temenos microservice component deployed in Azure Kubernetes Service. 

Architecture:
- Deployed as containerized microservices in Azure Kubernetes Service (AKS)
- Follows microservices architecture patterns for scalability and resilience
- Integrates with other Temenos components through well-defined APIs
- Uses cloud-native technologies for deployment and orchestration

Key Components:
- Core service components handling business logic
- API endpoints for external and internal communication
- Data access layers for persistence
- Integration layers for component communication

Deployment:
- Containerized using Docker
- Orchestrated via Kubernetes
- Scalable and resilient architecture
- Cloud-native design patterns".

(** The paragraph that replaces a functional answer that is not available. *)
Definition functional_fallback (component_name : string) : string :=
  component_name +:+
  " provides core banking functionality as part of the Temenos Transact platform.

Functional Capabilities:
- Core banking operations and business logic processing
- Transaction processing and validation
- Business rule enforcement
- Data management and persistence

Business Functions:
- Handles critical banking operations
- Supports core banking workflows
- Manages business data and state
- Provides APIs for integration with other components

Integration:
- Integrates with other Temenos microservices
- Communicates via standard APIs and protocols
- Supports event-driven architectures
- Enables distributed system patterns".

(** *** Text helpers of the enrichment stage *)

Module Text.
(** [re.sub(cls{3,}, repl, s)]: every maximal run of at least three
    characters of the class is replaced by [repl]; [run] is the run read
    so far. *)
Definition flush_run (repl run : string) : string :=
  if (3 <=? String.length run)%nat then repl else run.

Fixpoint collapse_from (cls : ascii -> bool) (repl run s : string) : string :=
  match s with
  | EmptyString => flush_run repl run
  | String c t =>
      if cls c then collapse_from cls repl (run +:+ String c EmptyString) t
      else flush_run repl run +:+ String c (collapse_from cls repl EmptyString t)
  end.

Definition collapse (cls : ascii -> bool) (repl s : string) : string :=
  collapse_from cls repl EmptyString s.

Definition is_newline (c : ascii) : bool := (N_of_ascii c =? 10)%N.
Definition is_blank (c : ascii) : bool :=
  ((N_of_ascii c =? 32) || (N_of_ascii c =? 9))%N.

(** [re.split(cls+, s)]: split at every maximal run of separator
    characters; [in_run] tells that the previous character was one. *)
Fixpoint split_runs (sep : ascii -> bool) (in_run : bool) (s : string) : list string :=
  match s with
  | EmptyString => [EmptyString]
  | String c t =>
      if sep c then
        if in_run then split_runs sep true t
        else EmptyString :: split_runs sep true t
      else match split_runs sep false t with
           | [] => [String c EmptyString]
           | w :: ws => String c w :: ws
           end
  end.

(** [re.sub(r"^\W+", "", s)] *)
Fixpoint drop_leading_nonword (s : string) : string :=
  match s with
  | String c t => if Str.is_word c then s else drop_leading_nonword t
  | EmptyString => EmptyString
  end.
End Text.

Definition not_available : string := "Information not available".
Definition not_available_timeout : string := "Information not available - timeout".
Definition not_available_error : string := "Information not available - error".

(** [text in [a, b]] *)
Definition is_one_of (text : string) (l : list string) : bool :=
  existsb (String.eqb text) l.

(** [TemenosService._format_rag_response] *)
Definition _format_rag_response (text : string) : string :=
  if negb (Str.nonempty text) || is_one_of text [not_available_timeout; not_available]
  then text
  else
    let formatted := Text.collapse Text.is_newline (String "010"%char (String "010"%char EmptyString)) text in
    let formatted := Text.collapse Text.is_blank " " formatted in
    Str.strip formatted.

Definition capability_patterns : list string :=
  [ "supports"; "provides"; "enables"; "allows"; "can"; "handles";
    "manages"; "processes"; "facilitates"; "delivers"; "offers";
    "includes"; "features"; "capabilities"; "functions" ].

Definition is_sentence_end (c : ascii) : bool :=
  Ascii.eqb c "."%char || Ascii.eqb c "!"%char || Ascii.eqb c "?"%char.

(** [20 < len(clean) < 200] *)
Definition reasonable_length (clean : string) : bool :=
  (20 <? String.length clean)%nat && (String.length clean <? 200)%nat.

(** The sentence loop of [_extract_capabilities]. *)
Definition capability_of_sentence (sentence : string) : option string :=
  let sentence := Str.strip sentence in
  if (String.length sentence <? 20)%nat then None
  else if Str.contains_any capability_patterns (Str.lower sentence) then
    let clean := Str.strip (Text.drop_leading_nonword sentence) in
    if reasonable_length clean then Some clean else None
  else None.

(** [re.match(r'^[-*]\s+', line) or re.match(r'^\d+[.)]\s+', line)]; the
    non-ASCII bullet of the source pattern cannot occur in an ASCII
    text. *)
Fixpoint after_digits (s : string) : string :=
  match s with
  | String c t => if Str.is_digit c then after_digits t else s
  | EmptyString => EmptyString
  end.

Definition starts_with_space (s : string) : bool :=
  match s with String c _ => Str.is_space c | EmptyString => false end.

Definition is_list_item (line : string) : bool :=
  match line with
  | String c t =>
      ((Ascii.eqb c "-"%char || Ascii.eqb c "*"%char) && starts_with_space t)
      || (Str.is_digit c &&
          match after_digits t with
          | String d t' =>
              (Ascii.eqb d "."%char || Ascii.eqb d ")"%char) && starts_with_space t'
          | EmptyString => false
          end)
  | EmptyString => false
  end.

(** [re.sub(r'^[-*\d.)]\s+', '', line)]: one marker character followed by
    white space is removed from the start. *)
Definition strip_list_marker (line : string) : string :=
  match line with
  | String c t =>
      if (Ascii.eqb c "-"%char || Ascii.eqb c "*"%char || Str.is_digit c ||
          Ascii.eqb c "."%char || Ascii.eqb c ")"%char) && starts_with_space t
      then Str.lstrip t else line
  | EmptyString => EmptyString
  end.

Definition capability_of_line (line : string) : option string :=
  let line := Str.strip line in
  if is_list_item line then
    let clean := Str.strip (strip_list_marker line) in
    if reasonable_length clean then Some clean else None
  else None.

(** [TemenosService._extract_capabilities] *)
Definition _extract_capabilities (text : string) : list string :=
  if negb (Str.nonempty text) || is_one_of text [not_available; not_available_timeout]
  then []
  else
    let sentences : list string := Text.split_runs is_sentence_end false text in
    let capabilities : list string := omap capability_of_sentence sentences in
    if (length capabilities <? 3)%nat then
      let lines := Str.split "010"%char text in
      (capabilities ++ omap capability_of_line lines)%list
    else capabilities.

(** [TemenosService._determine_component_type] *)
Definition _determine_component_type (service : AzureResource.t) : string :=
  let resource_type := Str.lower (AzureResource.type service) in
  let name := Str.lower (AzureResource.name service) in
  let has w := Str.contains w resource_type in
  if has "microsoft.app/containerapps" || has "containerapp" then
    if Str.contains "api" name || Str.contains "apiapp" name
    then "Azure Container App (API Service)"
    else if Str.contains "ingester" name || Str.contains "ingest" name
    then "Azure Container App (Ingester)"
    else if Str.contains "initapp" name || (Str.contains "init" name && Str.contains "app" name)
    then "Azure Container App (Initializer)"
    else "Azure Container App"
  else if has "managedclusters/pods" then
    let namespace := get_or_empty (AzureResource.properties service) "namespace" in
    if Str.nonempty namespace then "AKS Pod (" +:+ namespace +:+ " namespace)"
    else "AKS Pod"
  else if has "microsoft.containerservice" || has "kubernetes" then
    "Azure Kubernetes Service (AKS)"
  else if has "database" || has "sql" then
    if has "cosmos" then "Azure Cosmos DB"
    else if has "postgresql" then "Azure Database for PostgreSQL"
    else if has "mysql" then "Azure Database for MySQL"
    else "Azure Database Service"
  else if has "storage" then "Azure Storage (Infrastructure)"
  else if has "eventhub" then "Azure Event Hub"
  else
    let parts := Str.split "/"%char (AzureResource.type service) in
    if (1 <? length parts)%nat then "Azure " +:+ last_part parts
    else "Azure Resource".

(** *** Exceptions *)

(** The Python exceptions the modelled code can raise. *)
Inductive exn :=
| TypeError
| AttributeError
| IndexError
| NameError (name : string)
| RuntimeError
| TimeoutExpired
| FileNotFoundError
| HTTPException (status_code : nat).

(** The outcome of running a piece of Python: a value, or an exception. *)
Inductive py (A : Type) :=
| Ret (a : A)
| Raise (e : exn).
Arguments Ret {A} a.
Arguments Raise {A} e.

(** *** Component descriptions, the store and the knowledge service *)

(** A location of the store: the identity of a Python list object. *)
Definition loc := nat.

(** [class ComponentRelationship] *)
Record ComponentRelationship := mk_relationship {
  target_component : string;
  relationship_type : string;
  description : string
}.

(** [class TemenosComponentInfo].  [related_services] is the list object
    the attribute refers to: two descriptions with the same location share
    one list. *)
Record TemenosComponentInfo := mk_info {
  component_name : string;
  component_type : string;
  architectural_overview : string;
  functional_overview : string;
  capabilities : list string;
  related_services : loc;
  relationships : list ComponentRelationship
}.

(** A request to the knowledge service (the arguments of [_query_rag]). *)
Record rag_query := mk_query {
  question : string;
  region : string;
  rag_model_id : string;
  context : string
}.

(** The value under ["answer"]: a text, or a JSON null, number or boolean
    (on which [len] raises [TypeError]). *)
Inductive answer_value :=
| Text (s : string)
| NonText.

(** What the adapter returns, as far as [identify_component] looks into
    it: a dict whose ["data"] entry is a dict with or without an
    ["answer"], or is no dict at all. *)
Inductive rag_reply :=
| WithAnswer (a : answer_value)
| NoAnswer
| DataNotDict.

(** How one awaited query ends: the adapter returns, [asyncio.wait_for]
    raises [TimeoutError] at the deadline, or the adapter raises. *)
Inductive rag_outcome :=
| Replied (r : rag_reply)
| TimedOut
| Failed.

(** The knowledge service: how the query ends that is issued after [n]
    earlier ones. *)
Definition rag_service := nat -> rag_query -> rag_outcome.

(** The mutable state of a run: the cache of the [TemenosService] instance,
    the store of [related_services] lists with its allocation counter, and
    the queries sent to the knowledge service so far (latest first). *)
Record state := mk_state {
  _component_cache : gmap string TemenosComponentInfo;
  heap : gmap loc (list string);
  next_loc : loc;
  rag_log : list rag_query
}.

(** A fresh [TemenosService()] in a fresh store. *)
Definition initial_state : state := mk_state ∅ ∅ 0 [].

(** The list stored at a location. *)
Definition read_list (h : gmap loc (list string)) (l : loc) : list string :=
  default [] (h !! l).

(** [related_services=[]]: a new, empty list object. *)
Definition alloc_list (st : state) : loc * state :=
  (next_loc st,
   mk_state (_component_cache st) (<[next_loc st := []]> (heap st))
            (S (next_loc st)) (rag_log st)).

Definition set_cache (c : gmap string TemenosComponentInfo) (st : state) : state :=
  mk_state c (heap st) (next_loc st) (rag_log st).

Definition rag_context : string :=
  "This is a Temenos microservice component in a core banking system deployment. Provide comprehensive, detailed, and thorough information.".

(** [class TemenosAnalysisResult] *)
Record TemenosAnalysisResult := mk_result {
  service : AzureResource.t;
  component_info : option TemenosComponentInfo;
  error : option string
}.

(** The slices [l[i:i + 3]] for [i] in [range(0, len(l), 3)]; [fuel] bounds
    the number of slices and [length l] is always enough. *)
Fixpoint batches {A : Type} (fuel : nat) (l : list A) : list (list A) :=
  match fuel with
  | O => []
  | S fuel' =>
      match l with
      | [] => []
      | _ => take 3 l :: batches fuel' (drop 3 l)
      end
  end.

Section Enrichment.

(** The knowledge service the instance talks to, and whether its adapter
    is usable ([rag_adapter is not None ... and jwt_token]). *)
Variable rag : rag_service.
Variable has_rag : bool.

(** [await asyncio.wait_for(self._query_rag(...), timeout=60.0)] *)
Definition query_rag (q : rag_query) (st : state) : rag_outcome * state :=
  (rag (length (rag_log st)) q,
   mk_state (_component_cache st) (heap st) (next_loc st) (q :: rag_log st)).

(** One [try ... except asyncio.TimeoutError ... except Exception] block
    around a query: the response the code goes on with.  A reply whose
    ["data"] is no dict makes the logging lines of the [try] body raise
    [AttributeError], which the second handler catches. *)
Definition guarded_response (o : rag_outcome) : rag_reply :=
  match o with
  | Replied DataNotDict => WithAnswer (Text not_available_error)
  | Replied r => r
  | TimedOut => WithAnswer (Text not_available_timeout)
  | Failed => WithAnswer (Text not_available_error)
  end.

(** [text = response.get("data", {}).get("answer", "Information not
    available")] followed by [len(text)]: the text, or the exception
    raised ([.get] on a ["data"] that is no dict, [len] of a non-text
    answer). *)
Definition answer_text (r : rag_reply) : py string :=
  match r with
  | WithAnswer (Text s) => Ret s
  | WithAnswer NonText => Raise TypeError
  | NoAnswer => Ret not_available
  | DataNotDict => Raise AttributeError
  end.

(** The prefix that marks a cached description as minimal. *)
Definition minimal_prefix (component_name : string) : string :=
  component_name +:+ " is a Temenos microservice component deployed".

Definition is_minimal (component_name : string) (cached_info : TemenosComponentInfo) : bool :=
  Str.startswith (minimal_prefix component_name) (architectural_overview cached_info)
  && (String.length (architectural_overview cached_info) <? 500)%nat.

(** The description built when the knowledge service is not usable. *)
Definition minimal_info (service : AzureResource.t) (component_name : string)
    (l : loc) : TemenosComponentInfo :=
  mk_info component_name (_determine_component_type service)
    (component_name +:+ " is a Temenos microservice component deployed in Azure Kubernetes Service.")
    (component_name +:+ " provides core banking functionality as part of the Temenos Transact platform.")
    ["Core " +:+ component_name +:+ " functionality"]
    l [].

(** The description built from the two answer texts. *)
Definition rag_info (service : AzureResource.t) (component_name : string)
    (architectural_text functional_text : string) (l : loc) : TemenosComponentInfo :=
  let arch_formatted := _format_rag_response architectural_text in
  let func_formatted := _format_rag_response functional_text in
  let arch_formatted :=
    if is_one_of arch_formatted [not_available; not_available_timeout]
    then architectural_fallback component_name else arch_formatted in
  let func_formatted :=
    if is_one_of func_formatted [not_available; not_available_timeout]
    then functional_fallback component_name else func_formatted in
  mk_info component_name (_determine_component_type service)
    arch_formatted func_formatted
    (if negb (String.eqb functional_text not_available)
     then _extract_capabilities functional_text
     else ["Core " +:+ component_name +:+ " functionality"])
    l [].

(** [if use_cache: self._component_cache[cache_key] = component_info] *)
Definition remember (use_cache : bool) (cache_key : string)
    (info : TemenosComponentInfo) (st : state) : state :=
  if use_cache then set_cache (<[cache_key := info]> (_component_cache st)) st
  else st.

(** The part of [identify_component] after the cache check: build a new
    description.  Both queries are awaited before either answer is looked
    at. *)
Definition fetch_component (service : AzureResource.t)
    (component_name component_category cache_key : string)
    (use_cache : bool) (st : state) : py TemenosComponentInfo * state :=
  if negb has_rag then
    let '(l, st) := alloc_list st in
    let component_info := minimal_info service component_name l in
    (Ret component_info, remember use_cache cache_key component_info st)
  else
    let architectural_query := _build_architectural_query component_name component_category in
    let functional_query := _build_functional_query component_name component_category in
    let '(o1, st) :=
      query_rag (mk_query architectural_query "global"
                   "ModularBanking, TechnologyOverview" rag_context) st in
    let architectural_response := guarded_response o1 in
    let '(o2, st) :=
      query_rag (mk_query functional_query "global"
                   "ModularBanking, FuncTransactGeneric" rag_context) st in
    let functional_response := guarded_response o2 in
    match answer_text architectural_response with
    | Raise e => (Raise e, st)
    | Ret architectural_text =>
        match answer_text functional_response with
        | Raise e => (Raise e, st)
        | Ret functional_text =>
            let '(l, st) := alloc_list st in
            let component_info :=
              rag_info service component_name architectural_text functional_text l in
            (Ret component_info, remember use_cache cache_key component_info st)
        end
    end.

(** The copy returned on a cache hit: everything is taken from the cached
    description, the [related_services] list object included, except the
    type label. *)
Definition cached_copy (service : AzureResource.t)
    (cached_info : TemenosComponentInfo) : TemenosComponentInfo :=
  mk_info (component_name cached_info) (_determine_component_type service)
    (architectural_overview cached_info) (functional_overview cached_info)
    (capabilities cached_info) (related_services cached_info)
    (relationships cached_info).

(** The body of the [try] block of [identify_component]. *)
Definition identify_component_body (service : AzureResource.t)
    (use_cache force_refresh : bool) (st : state)
    : py (option TemenosComponentInfo) * state :=
  if negb (_is_potential_temenos_component service) then (Ret None, st)
  else
    match _extract_component_name service with
    | None => (Ret None, st)
    | Some extracted_info =>
        let component_name := normalizedName extracted_info in
        let component_category := componentCategory extracted_info in
        let cache_key := Str.lower component_name in
        let fetch st :=
          match fetch_component service component_name component_category
                  cache_key use_cache st with
          | (Ret component_info, st) => (Ret (Some component_info), st)
          | (Raise e, st) => (Raise e, st)
          end in
        match (if use_cache && negb force_refresh
               then _component_cache st !! cache_key else None) with
        | Some cached_info =>
            if is_minimal component_name cached_info && has_rag then
              fetch (set_cache (delete cache_key (_component_cache st)) st)
            else (Ret (Some (cached_copy service cached_info)), st)
        | None => fetch st
        end
    end.

(** [TemenosService.identify_component]: the body under
    [except Exception: return None]. *)
Definition identify_component (service : AzureResource.t)
    (use_cache force_refresh : bool) (st : state)
    : option TemenosComponentInfo * state :=
  match identify_component_body service use_cache force_refresh st with
  | (Ret r, st) => (r, st)
  | (Raise _, st) => (None, st)
  end.

(** *** Batch analysis *)

Section Batch.
Variables use_cache force_refresh : bool.

(** One turn of the inner loop of [analyze_services] (no callbacks are
    passed by the analyze operation).  [identify_component] handles
    every exception itself, so the [except] branch of the loop is never
    taken. *)
Definition analyze_one (service : AzureResource.t) (st : state)
    : TemenosAnalysisResult * state :=
  let '(component_info, st) :=
    identify_component service use_cache force_refresh st in
  (mk_result service component_info
     (match component_info with
      | Some _ => None
      | None => Some "Could not identify Temenos component"
      end), st).

(** [for idx, service in enumerate(batch)] *)
Fixpoint analyze_batch (batch : list AzureResource.t) (st : state)
    : list TemenosAnalysisResult * state :=
  match batch with
  | [] => ([], st)
  | service :: rest =>
      let '(r, st) := analyze_one service st in
      let '(rs, st) := analyze_batch rest st in
      (r :: rs, st)
  end.

(** [for i in range(0, len(potential_services), batch_size)] *)
Fixpoint analyze_batches (bs : list (list AzureResource.t)) (st : state)
    : list TemenosAnalysisResult * state :=
  match bs with
  | [] => ([], st)
  | batch :: rest =>
      let '(rs, st) := analyze_batch batch st in
      let '(rs', st) := analyze_batches rest st in
      (rs ++ rs', st)
  end.

(** [TemenosService.analyze_services].  Resources are compared by
    identity, so [s not in potential_services] holds exactly for the
    resources the candidate check rejected. *)
Definition analyze_services (services : list AzureResource.t) (st : state)
    : list TemenosAnalysisResult * state :=
  let potential_services := filter (fun s => _is_potential_temenos_component s = true) services in
  match potential_services with
  | [] => ([], st)
  | _ =>
      let '(results, st) :=
        analyze_batches (batches (length potential_services) potential_services) st in
      let skipped_services :=
        filter (fun s => _is_potential_temenos_component s = false) services in
      (results ++ map (fun skipped => mk_result skipped None None) skipped_services, st)
  end.
End Batch.

End Enrichment.

(** ** Aggregator ([deployment.py]) *)

(** The two infrastructure lists of [_deduplicate_components]: the one
    applied to classified resources that are not pods, and the one applied
    to the unidentified results. *)
Definition aggregator_infrastructure : list string :=
  [ "microsoft.storage"; "microsoft.keyvault"; "microsoft.network";
    "microsoft.insights"; "microsoft.operationalinsights" ].

Definition aggregator_noise : list string :=
  [ "microsoft.storage"; "microsoft.keyvault"; "microsoft.network";
    "microsoft.insights"; "microsoft.operationalinsights";
    "microsoft.compute/virtualmachines";
    "microsoft.compute/virtualmachinescalesets" ].

(** The grouping key of a classified result, [None] when the result is set
    aside as infrastructure. *)
Definition grouping_key (result : TemenosAnalysisResult)
    (info : TemenosComponentInfo) : option string :=
  let normalized_name := component_name info in
  let ty := Str.lower (AzureResource.type (service result)) in
  if Str.contains "managedclusters/pods" ty then
    let namespace := get_or_empty (AzureResource.properties (service result)) "namespace" in
    if Str.nonempty namespace then Some (Str.lower namespace)
    else Some normalized_name
  else if Str.contains_any aggregator_infrastructure ty then None
  else Some normalized_name.

(** [component_map.get(grouping_key)] on the insertion-ordered map. *)
Fixpoint map_get (m : list (string * TemenosAnalysisResult)) (k : string)
    : option TemenosAnalysisResult :=
  match m with
  | [] => None
  | (k', r) :: m' => if String.eqb k' k then Some r else map_get m' k
  end.

(** [if name not in l: l.append(name)] on the list object at [l]. *)
Definition append_if_absent (l : loc) (name : string)
    (h : gmap loc (list string)) : gmap loc (list string) :=
  if existsb (String.eqb name) (read_list h l) then h
  else <[l := read_list h l ++ [name]]> h.

(** The loop variables of [_deduplicate_components]. *)
Record dedup_state := mk_dedup {
  component_map : list (string * TemenosAnalysisResult);
  unidentified : list TemenosAnalysisResult;
  dedup_heap : gmap loc (list string)
}.

(** One turn of the first loop of [_deduplicate_components]. *)
Definition dedup_step (d : dedup_state) (result : TemenosAnalysisResult) : dedup_state :=
  match component_info result with
  | None => mk_dedup (component_map d) (unidentified d ++ [result]) (dedup_heap d)
  | Some info =>
      match grouping_key result info with
      | None => mk_dedup (component_map d) (unidentified d ++ [result]) (dedup_heap d)
      | Some key =>
          match map_get (component_map d) key with
          | None =>
              mk_dedup (component_map d ++ [(key, result)]) (unidentified d) (dedup_heap d)
          | Some existing =>
              (* only results with a description enter the map *)
              match component_info existing with
              | Some existing_info =>
                  mk_dedup (component_map d) (unidentified d)
                    (append_if_absent (related_services existing_info)
                       (AzureResource.name (service result)) (dedup_heap d))
              | None => d
              end
          end
      end
  end.

(** The second loop: infrastructure is dropped from the unidentified. *)
Definition is_noise (result : TemenosAnalysisResult) : bool :=
  Str.contains_any aggregator_noise (Str.lower (AzureResource.type (service result))).

(** [_deduplicate_components]: the deduplicated list and the store after
    the merges. *)
Definition _deduplicate_components (results : list TemenosAnalysisResult)
    (h : gmap loc (list string)) : list TemenosAnalysisResult * gmap loc (list string) :=
  let d := fold_left dedup_step results (mk_dedup [] [] h) in
  let filtered_unidentified := filter (fun r => is_noise r = false) (unidentified d) in
  let identified := map snd (component_map d) in
  (identified ++ filtered_unidentified, dedup_heap d).

(** ** Cluster topology ([aks_service.py]) *)

(** *** The namespace relevance filter of [get_pods_from_cluster] *)

Definition system_namespaces : list string :=
  [ "kube-system"; "kube-public"; "kube-node-lease"; "default" ].

Definition discovery_patterns : list string :=
  [ "transact"; "eventstore"; "adapter"; "genericconfig";
    "holdings"; "party"; "modular"; "temenos"; "tap";
    "stmtgen"; "notification"; "audit"; "file"; "workflow";
    "deposits"; "lending"; "webingress"; "ingress"; "payment";
    "card"; "account"; "transaction"; "core"; "banking";
    "integration"; "api"; "gateway"; "service"; "microservice" ].

Definition system_prefixes : list string := [ "kube-"; "system-"; "default" ].

(** The body of the loop over the namespaces of the cluster: is [ns_name]
    appended to [namespaces]?  [temenos_namespaces] is the optional
    explicit filter ([None] and the empty list are both falsy). *)
Definition namespace_is_relevant (temenos_namespaces : option (list string))
    (ns_name : string) : bool :=
  if is_one_of ns_name system_namespaces then false
  else
    match temenos_namespaces with
    | Some (tns :: rest) =>
        existsb (fun tns => Str.contains (Str.lower tns) (Str.lower ns_name)) (tns :: rest)
    | _ =>
        if Str.contains_any discovery_patterns (Str.lower ns_name) then true
        else negb (existsb (fun p => Str.startswith p ns_name) system_prefixes)
    end.

(** The list [namespaces] built by the loop. *)
Definition relevant_namespaces (temenos_namespaces : option (list string))
    (names : list string) : list string :=
  filter (fun ns_name => namespace_is_relevant temenos_namespaces ns_name = true) names.

(** *** Credential resolution: [AKSService.get_cluster_credentials] *)

(** A [subprocess.CompletedProcess]. *)
Record completed_process := mk_completed {
  returncode : Z;
  stdout : string;
  stderr : string
}.

(** The machine the resolver runs on: the outcome of each external
    command, and which files exist. *)
Record credential_env := mk_credential_env {
  temp_dir : string;
  default_kubeconfig : string;
  run_az_get_credentials : py completed_process;
  kubeconfig_created : bool;
  default_kubeconfig_exists : bool;
  run_kubectl_get_contexts : py completed_process;
  run_kubectl_version : py completed_process
}.

(** The dict returned by [get_cluster_credentials]. *)
Record credentials := mk_credentials {
  kubeconfig_path : string;
  cluster_name : string;
  use_default : bool
}.

(** Names bound in each scope that the nested functions of
    [get_cluster_credentials] can see (Python resolves a free name in the
    function itself, then in the enclosing function, then in the module,
    then among the builtins, none of which is called [shutil]). *)
Module Scope.
Definition _get_credentials : list string := [ "shutil"; "az_cmd"; "cmd" ].
Definition _check_default_config : list string := [].
Definition _check_kubectl : list string := [ "shutil"; "os"; "kubectl_cmd"; "env" ].
Definition get_cluster_credentials : list string :=
  [ "self"; "resource_group"; "cluster_name"; "tempfile"; "os"; "asyncio";
    "temp_dir"; "kubeconfig_path"; "loop"; "_get_credentials"; "result";
    "kubeconfig_exists"; "error_output"; "default_kubeconfig";
    "_check_default_config"; "check_result"; "_check_kubectl";
    "kubectl_result"; "e"; "error_msg" ].
Definition aks_service_module : list string :=
  [ "List"; "Optional"; "Dict"; "Any"; "DefaultAzureCredential";
    "AzureCliCredential"; "ContainerServiceClient"; "AzureError";
    "get_logger"; "AzureResource"; "base64"; "subprocess"; "json"; "re";
    "tempfile"; "os"; "k8s_client"; "k8s_config"; "ApiException";
    "KUBERNETES_AVAILABLE"; "logger"; "AKSPod"; "AKSService" ].

(** Name lookup along a chain of scopes, innermost first. *)
Definition resolves (name : string) (chain : list (list string)) : bool :=
  existsb (fun scope => existsb (String.eqb name) scope) chain.

(** Running a function body that uses [shutil]: [NameError] unless the
    name resolves. *)
Definition using_shutil {A : Type} (chain : list (list string)) (body : py A) : py A :=
  if resolves "shutil" chain then body else Raise (NameError "shutil").
End Scope.

Section Credentials.
Variable env : credential_env.

(** The nested function [_get_credentials]. *)
Definition _get_credentials : py completed_process :=
  Scope.using_shutil
    [Scope._get_credentials; Scope.get_cluster_credentials; Scope.aks_service_module]
    (run_az_get_credentials env).

(** The nested function [_check_default_config]. *)
Definition _check_default_config : py completed_process :=
  Scope.using_shutil
    [Scope._check_default_config; Scope.get_cluster_credentials; Scope.aks_service_module]
    (run_kubectl_get_contexts env).

(** The nested function [_check_kubectl]. *)
Definition _check_kubectl : py completed_process :=
  Scope.using_shutil
    [Scope._check_kubectl; Scope.get_cluster_credentials; Scope.aks_service_module]
    (run_kubectl_version env).

(** The [try] body of [get_cluster_credentials]. *)
Definition get_cluster_credentials_body (resource_group cluster : string)
    : py (option credentials) :=
  let kubeconfig := temp_dir env +:+ "/" +:+ cluster +:+ "_kubeconfig.yaml" in
  match _get_credentials with
  | Raise e => Raise e
  | Ret result =>
      let kubeconfig_exists := kubeconfig_created env in
      if negb (returncode result =? 0)%Z && negb kubeconfig_exists then
        if default_kubeconfig_exists env then
          match _check_default_config with
          | Raise e => Raise e
          | Ret check_result =>
              if (returncode check_result =? 0)%Z
                 && Str.contains cluster (stdout check_result)
              then Ret (Some (mk_credentials (default_kubeconfig env) cluster true))
              else Ret None
          end
        else Ret None
      else
        let path :=
          if kubeconfig_exists then Some kubeconfig
          else if default_kubeconfig_exists env then Some (default_kubeconfig env)
          else None in
        match path with
        | None => Ret None
        | Some kubeconfig =>
            match _check_kubectl with
            | Raise e => Raise e
            | Ret kubectl_result =>
                if (returncode kubectl_result =? 0)%Z
                then Ret (Some (mk_credentials kubeconfig cluster false))
                else Ret None
            end
        end
  end.

(** [AKSService.get_cluster_credentials]: the body under
    [except Exception: ... return None]. *)
Definition get_cluster_credentials (resource_group cluster : string)
    : option credentials :=
  match get_cluster_credentials_body resource_group cluster with
  | Ret r => r
  | Raise _ => None
  end.
End Credentials.

(** *** Pod discovery: [AKSService.discover_pods_from_resources] *)

(** [AKSService._is_aks_cluster] *)
Definition _is_aks_cluster (resource : AzureResource.t) : bool :=
  String.eqb (Str.lower (AzureResource.type resource))
    "microsoft.containerservice/managedclusters".

Section Discovery.
(** [AKSService.get_pods_from_cluster], which talks to the cluster: the
    pods it returns for a cluster and an optional namespace filter, or
    the exception it raises. *)
Variable get_pods_from_cluster :
  AzureResource.t -> option (list string) -> py (list AKSPod.t).

Definition discover_pods_from_resources (resources : list AzureResource.t)
    (temenos_namespaces : option (list string)) : list AzureResource.t :=
  let aks_clusters := filter (fun r => _is_aks_cluster r = true) resources in
  flat_map
    (fun cluster =>
       match get_pods_from_cluster cluster temenos_namespaces with
       | Ret pods => map AKSPod.to_azure_resource pods
       | Raise _ => []
       end)
    aks_clusters.
End Discovery.

(** *** Pods of a cluster: [AKSService.get_pods_from_cluster] *)

(** [parts[parts.index(marker) + 1] if marker in parts else fallback] *)
Fixpoint part_after (marker : string) (parts : list string) (fallback : string)
    : py string :=
  match parts with
  | [] => Ret fallback
  | p :: rest =>
      if String.eqb p marker then
        match rest with
        | [] => Raise IndexError
        | x :: _ => Ret x
        end
      else part_after marker rest fallback
  end.

(** What the code reads of the documents that [kubectl ... -o json]
    prints.  The documents follow the Kubernetes API: [items] is a list of
    objects, [metadata], [spec] and [status] are objects, names and phases
    are strings, labels map strings to strings.  A key that may be missing
    is an [option]; a missing [metadata], [spec] or [status] leaves the keys
    below it missing. *)
Module K8s.
(** An item of a namespace list: [metadata.name]. *)
Record namespace := mk_namespace {
  namespace_name : option string
}.

(** An item of a pod list: [metadata.name], [metadata.labels], the [name]
    of every entry of [spec.containers], and [status.phase]. *)
Record pod := mk_pod {
  pod_name : option string;
  pod_labels : option (gmap string string);
  pod_containers : list (option string);
  pod_phase : option string
}.
End K8s.

(** The machine [kubectl] runs on: the machine of the credential
    resolver, the outcome of [kubectl config use-context] for a cluster
    name, of [kubectl get namespaces -o json] under a kubeconfig, of
    [kubectl get pods -o json] and of [kubectl get pods] under a kubeconfig
    for a namespace, and what [json.loads] makes of a text ([None] for
    [JSONDecodeError], else the list under [items], empty when the key is
    missing). *)
Record kubectl_env := mk_kubectl_env {
  machine : credential_env;
  run_kubectl_use_context : string -> py completed_process;
  run_kubectl_get_namespaces : string -> py completed_process;
  run_kubectl_get_pods_json : string -> string -> py completed_process;
  run_kubectl_get_pods_table : string -> string -> py completed_process;
  loads_namespaces : string -> option (list K8s.namespace);
  loads_pods : string -> option (list K8s.pod)
}.

(** [json.loads(stdout if stdout else "{}").get("items", [])] *)
Definition loads_items {A : Type} (loads : string -> option (list A)) (stdout : string)
    : option (list A) :=
  if Str.nonempty stdout then loads stdout else Some [].

(** The pods appended for the items of a pod list. *)
Definition pods_of_items (namespace cluster_name resource_group : string)
    (items : list K8s.pod) : list AKSPod.t :=
  map (fun pod =>
         AKSPod.mk (default "" (K8s.pod_name pod)) namespace cluster_name resource_group
           (default "Unknown" (K8s.pod_phase pod))
           (default ∅ (K8s.pod_labels pod))
           (map (default "") (K8s.pod_containers pod)))
      items.

(** One line of the table after the header. *)
Definition pod_of_table_line (namespace cluster_name resource_group line : string)
    : option AKSPod.t :=
  match Str.fields line with
  | [] => None
  | first :: columns =>
      let pod_name := Str.strip first in
      if Str.nonempty pod_name then
        let pod_status :=
          match columns with
          | _ :: status :: _ => status
          | _ => "Unknown"
          end in
        Some (AKSPod.mk pod_name namespace cluster_name resource_group pod_status ∅ [])
      else None
  end.

(** The pods appended for the output of [kubectl get pods] in table
    format. *)
Definition pods_of_table (namespace cluster_name resource_group stdout : string)
    : list AKSPod.t :=
  let lines := Str.split "010"%char (Str.strip stdout) in
  if (1 <? length lines)%nat
  then omap (pod_of_table_line namespace cluster_name resource_group) (tail lines)
  else [].

Section Pods.
Variable env : kubectl_env.

(** One turn of the loop over the namespaces: the pods appended to
    [pods].  The table is asked for when the JSON command exits with an
    error or prints no JSON; an exception of either command ends the
    turn. *)
Definition pods_of_namespace (kubeconfig_path cluster_name resource_group namespace : string)
    : list AKSPod.t :=
  match run_kubectl_get_pods_json env kubeconfig_path namespace with
  | Raise _ => []
  | Ret result =>
      let parsed :=
        if (returncode result =? 0)%Z then loads_items (loads_pods env) (stdout result)
        else None in
      match parsed with
      | Some items => pods_of_items namespace cluster_name resource_group items
      | None =>
          match run_kubectl_get_pods_table env kubeconfig_path namespace with
          | Raise _ => []
          | Ret result_table =>
              if (returncode result_table =? 0)%Z && Str.nonempty (stdout result_table)
              then pods_of_table namespace cluster_name resource_group (stdout result_table)
              else []
          end
      end
  end.

(** The kubeconfig the commands run with, [None] when the function returns
    early for want of one. *)
Definition kubeconfig_for (resource_group cluster_name : string) : py (option string) :=
  match get_cluster_credentials (machine env) resource_group cluster_name with
  | None =>
      if default_kubeconfig_exists (machine env) then
        match run_kubectl_use_context env cluster_name with
        | Raise e => Raise e
        | Ret _ => Ret (Some (default_kubeconfig (machine env)))
        end
      else Ret None
  | Some creds =>
      if Str.nonempty (kubeconfig_path creds) then Ret (Some (kubeconfig_path creds))
      else if default_kubeconfig_exists (machine env)
              && Str.nonempty (default_kubeconfig (machine env))
      then Ret (Some (default_kubeconfig (machine env)))
      else Ret None
  end.

(** The outer [try] body of [get_pods_from_cluster]; whenever it raises,
    [pods] is still empty. *)
Definition get_pods_from_cluster_body (cluster : AzureResource.t)
    (temenos_namespaces : option (list string)) : py (list AKSPod.t) :=
  let id_parts := Str.split "/"%char (AzureResource.id cluster) in
  match part_after "resourceGroups" id_parts (AzureResource.resource_group cluster) with
  | Raise e => Raise e
  | Ret resource_group =>
      let cluster_name := AzureResource.name cluster in
      match kubeconfig_for resource_group cluster_name with
      | Raise e => Raise e
      | Ret None => Ret []
      | Ret (Some kubeconfig_path) =>
          match run_kubectl_get_namespaces env kubeconfig_path with
          | Raise _ => Ret []
          | Ret result =>
              if negb (returncode result =? 0)%Z then Ret []
              else
                match loads_items (loads_namespaces env) (stdout result) with
                | None => Ret []
                | Some items =>
                    let namespaces :=
                      relevant_namespaces temenos_namespaces
                        (map (fun ns => default "" (K8s.namespace_name ns)) items) in
                    Ret (flat_map
                           (pods_of_namespace kubeconfig_path cluster_name resource_group)
                           namespaces)
                end
          end
      end
  end.

(** [AKSService.get_pods_from_cluster]: the body under
    [except Exception: ... return pods]. *)
Definition get_pods_from_cluster (cluster : AzureResource.t)
    (temenos_namespaces : option (list string)) : list AKSPod.t :=
  match get_pods_from_cluster_body cluster temenos_namespaces with
  | Ret pods => pods
  | Raise _ => []
  end.
End Pods.

(** ** The analyze operation ([deployment.py]) *)

(** [class AnalyzeRequest]; [services] holds the resources built from the
    dicts of the request. *)
Record AnalyzeRequest := mk_request {
  services : list AzureResource.t;
  analysis_id : option string;
  selected_namespaces : option (list string);
  force_refresh : option bool
}.

(** What [to_dict] sends back. *)
Module Json.
Record component := mk_component {
  componentName : string;
  componentType : string;
  architecturalOverview : string;
  functionalOverview : string;
  capabilities : list string;
  relatedServices : list string;
  relationships : list ComponentRelationship
}.

Record result := mk_result {
  service : AzureResource.t;
  componentInfo : option component;
  error : option string
}.

(** The identifier of a run: the one of the request, or one made from
    the clock. *)
Inductive analysis_id :=
| Given (s : string)
| FromClock (ms : N).

Record response := mk_response {
  status : string;
  data : list result;
  count : nat;
  processed : nat;
  analysisId : analysis_id
}.
End Json.

(** [TemenosComponentInfo.to_dict] reads the shared list. *)
Definition component_to_dict (h : gmap loc (list string))
    (info : TemenosComponentInfo) : Json.component :=
  Json.mk_component (component_name info) (component_type info)
    (architectural_overview info) (functional_overview info)
    (capabilities info) (read_list h (related_services info))
    (relationships info).

(** [TemenosAnalysisResult.to_dict] *)
Definition result_to_dict (h : gmap loc (list string))
    (r : TemenosAnalysisResult) : Json.result :=
  Json.mk_result (service r)
    (option_map (component_to_dict h) (component_info r))
    (if Str.truthy (error r) then error r else None).

(** The log lines of the analyze operation that mention the namespace
    selection. *)
Inductive log_event :=
| SelectedNamespacesMatch (selected : list string) (matching : gset string).

(** The surroundings of one call of the analyze operation. *)
Record analyze_env := mk_analyze_env {
  clock_ms : N;
  aks_service_init : string -> py unit;
  pods_of_cluster : AzureResource.t -> option (list string) -> py (list AKSPod.t);
  knowledge_service : rag_service;
  knowledge_service_usable : bool
}.

(** [id_parts[id_parts.index("subscriptions") + 1]] *)
Fixpoint after_subscriptions (id_parts : list string) : py (option string) :=
  match id_parts with
  | [] => Ret None
  | p :: rest =>
      if String.eqb p "subscriptions" then
        match rest with
        | [] => Raise IndexError
        | sub :: _ => Ret (Some sub)
        end
      else after_subscriptions rest
  end.

(** The subscription the first resource belongs to. *)
Definition subscription_of (services : list AzureResource.t) : py (option string) :=
  match services with
  | first :: _ =>
      if Str.nonempty (AzureResource.id first)
      then after_subscriptions (Str.split "/"%char (AzureResource.id first))
      else Ret None
  | [] => Ret None
  end.

Section Analyze.
Variable env : analyze_env.

(** The inner [try] of [_analyze_services_impl]: the pods to add to the
    resources, and what is logged about the selection. *)
Definition discover_for_analysis (subscription_id : string)
    (services : list AzureResource.t) (selected_namespaces : option (list string))
    : list AzureResource.t * list log_event :=
  let aks_clusters :=
    filter (fun s => Str.contains "microsoft.containerservice/managedclusters"
                       (Str.lower (AzureResource.type s)) = true) services in
  match aks_clusters with
  | [] => ([], [])
  | _ =>
      match aks_service_init env subscription_id with
      | Raise _ => ([], [])
      | Ret _ =>
          let aks_pods := discover_pods_from_resources (pods_of_cluster env) services None in
          match aks_pods with
          | [] => ([], [])
          | _ =>
              let all_pod_namespaces : gset string :=
                list_to_set (map (fun p => default "unknown"
                                   (AzureResource.properties p !! "namespace")) aks_pods) in
              (aks_pods,
               match selected_namespaces with
               | Some (ns :: rest) =>
                   [SelectedNamespacesMatch (ns :: rest)
                      (filter (fun n => n ∈ ns :: rest) all_pod_namespaces)]
               | _ => []
               end)
          end
      end
  end.

(** The last part of [_analyze_services_impl]: a fresh [TemenosService],
    the batch analysis with caching, the deduplication and the response
    dict. *)
Definition respond (request : AnalyzeRequest) (services : list AzureResource.t)
    : Json.response :=
  let analysis_id :=
    match analysis_id request with
    | Some s => if Str.nonempty s then Json.Given s else Json.FromClock (clock_ms env)
    | None => Json.FromClock (clock_ms env)
    end in
  let force_refresh := default false (force_refresh request) in
  let '(results, st) :=
    analyze_services (knowledge_service env) (knowledge_service_usable env)
      true force_refresh services initial_state in
  let '(deduplicated_results, h) := _deduplicate_components results (heap st) in
  Json.mk_response "success"
    (map (result_to_dict h) deduplicated_results)
    (length deduplicated_results)
    (length services)
    analysis_id.

(** The [try] body of [_analyze_services_impl]: the response or the
    exception, and the selection log. *)
Definition _analyze_services_body (request : AnalyzeRequest)
    : py Json.response * list log_event :=
  let services_data := services request in
  match services_data with
  | [] => (Raise (HTTPException 400), [])
  | _ =>
      let selected_namespaces :=
        match selected_namespaces request with
        | Some (ns :: rest) => Some (ns :: rest)
        | _ => None
        end in
      match subscription_of services_data with
      | Raise e => (Raise e, [])
      | Ret subscription_id =>
          let discovered :=
            match subscription_id with
            | Some sub =>
                if Str.nonempty sub
                then discover_for_analysis sub services_data selected_namespaces
                else ([], [])
            | None => ([], [])
            end in
          (Ret (respond request (services_data ++ fst discovered)), snd discovered)
      end
  end.

(** [_analyze_services_impl]: any exception of the body, the 400 for an
    empty request included, is answered with status 500. *)
Definition _analyze_services_impl (request : AnalyzeRequest)
    : py Json.response * list log_event :=
  match _analyze_services_body request with
  | (Ret r, log) => (Ret r, log)
  | (Raise _, log) => (Raise (HTTPException 500), log)
  end.
End Analyze.

(** ** Listing resources ([azure_service.py], [deployment.py]) *)

(** A resource as the Azure SDK hands it over: every attribute may be
    [None]. *)
Record sdk_resource := mk_sdk_resource {
  sdk_id : option string;
  sdk_name : option string;
  sdk_type : option string;
  sdk_location : option string;
  sdk_tags : option (gmap string string);
  sdk_properties : option (gmap string string)
}.

(** What [get_resources] sends back. *)
Record ResourcesResponse := mk_resources_response {
  resources_status : string;
  resources_data : list AzureResource.t;
  resources_count : nat
}.

Section Resources.
(** [self.client.resources.list_by_resource_group], read to the end. *)
Variable list_by_resource_group : string -> py (list sdk_resource).

(** [AzureService.get_resources_by_resource_groups]: a group whose listing
    fails is skipped.  (The outer handler of the method is reached only
    when the event loop cannot be obtained, which is left out here.) *)
Definition get_resources_by_resource_groups (resource_group_names : list string)
    : list AzureResource.t :=
  flat_map
    (fun rg_name =>
       match list_by_resource_group rg_name with
       | Ret resource_list =>
           map (fun resource =>
                  AzureResource.mk
                    (default "" (sdk_id resource))
                    (default "" (sdk_name resource))
                    (default "" (sdk_type resource))
                    (default "" (sdk_location resource))
                    rg_name
                    (default ∅ (sdk_tags resource))
                    (default ∅ (sdk_properties resource)))
               resource_list
       | Raise _ => []
       end)
    resource_group_names.

(** [get_azure_service]: creating the client of a subscription may raise. *)
Variable get_azure_service : string -> py unit.
Variable env : analyze_env.

(** The [try] body of [get_resources]. *)
Definition get_resources_body (subscription_id : string)
    (resource_group_names : list string) : py ResourcesResponse :=
  if negb (Str.nonempty subscription_id) then Raise (HTTPException 400)
  else
    match resource_group_names with
    | [] => Raise (HTTPException 400)
    | _ =>
        match get_azure_service subscription_id with
        | Raise e => Raise e
        | Ret _ =>
            let resources := get_resources_by_resource_groups resource_group_names in
            let aks_pods :=
              match aks_service_init env subscription_id with
              | Raise _ => []
              | Ret _ => discover_pods_from_resources (pods_of_cluster env) resources None
              end in
            let resources := resources ++ aks_pods in
            Ret (mk_resources_response "success" resources (length resources))
        end
    end.

(** [get_resources]: any exception of the body, the 400 included, is
    answered with status 500. *)
Definition get_resources (subscription_id : string)
    (resource_group_names : list string) : py ResourcesResponse :=
  match get_resources_body subscription_id resource_group_names with
  | Ret r => Ret r
  | Raise _ => Raise (HTTPException 500)
  end.
End Resources.

(** ** Namespaces by cluster ([deployment.py]) *)

(** [d[k] = v] on a dict that keeps insertion order: the value of an
    existing key is replaced in place, a new key goes to the end. *)
Fixpoint dict_set {V : Type} (k : string) (v : V) (d : list (string * V))
    : list (string * V) :=
  match d with
  | [] => [(k, v)]
  | (k', v') :: d' =>
      if String.eqb k' k then (k, v) :: d' else (k', v') :: dict_set k v d'
  end.

(** An entry of [cluster_namespaces]. *)
Record ClusterNamespaces := mk_cluster_namespaces {
  entry_cluster_name : string;
  entry_resource_group : string;
  entry_namespaces : list string;
  entry_error : option string
}.

(** What [get_aks_namespaces] sends back; the success dict has a
    [message] when no cluster was found and a [count] otherwise. *)
Record NamespacesResponse := mk_namespaces_response {
  namespaces_status : string;
  namespaces_data : list ClusterNamespaces;
  namespaces_count : option nat;
  namespaces_message : option string
}.

Section Namespaces.
Variable list_by_resource_group : string -> py (list sdk_resource).
Variable get_azure_service : string -> py unit.
Variable aks_service_init : string -> py unit.
(** [AKSService.list_cluster_namespaces], and [str(e)] for what it may
    raise. *)
Variable list_cluster_namespaces : AzureResource.t -> py (list string).
Variable str_of_exception : exn -> string.

(** One turn of the loop over the clusters: the entry stored under the
    name of the cluster. *)
Definition namespaces_entry (cluster : AzureResource.t) : ClusterNamespaces :=
  match list_cluster_namespaces cluster with
  | Ret namespaces =>
      mk_cluster_namespaces (AzureResource.name cluster)
        (AzureResource.resource_group cluster) namespaces None
  | Raise e =>
      mk_cluster_namespaces (AzureResource.name cluster)
        (AzureResource.resource_group cluster) []
        (Some ("Failed to retrieve namespaces: " +:+ str_of_exception e))
  end.

(** The [try] body of [get_aks_namespaces]. *)
Definition get_aks_namespaces_body (subscription_id : string)
    (resource_group_names : list string) : py NamespacesResponse :=
  if negb (Str.nonempty subscription_id) then Raise (HTTPException 400)
  else
    match resource_group_names with
    | [] => Raise (HTTPException 400)
    | _ =>
        match get_azure_service subscription_id with
        | Raise e => Raise e
        | Ret _ =>
            let resources :=
              get_resources_by_resource_groups list_by_resource_group
                resource_group_names in
            let aks_clusters :=
              filter (fun r => Str.contains "microsoft.containerservice/managedclusters"
                                 (Str.lower (AzureResource.type r)) = true) resources in
            match aks_clusters with
            | [] =>
                Ret (mk_namespaces_response "success" [] None
                       (Some "No AKS clusters found in selected resource groups"))
            | _ =>
                match aks_service_init subscription_id with
                | Raise e => Raise e
                | Ret _ =>
                    let cluster_namespaces :=
                      fold_left
                        (fun d cluster =>
                           dict_set (AzureResource.name cluster) (namespaces_entry cluster) d)
                        aks_clusters [] in
                    Ret (mk_namespaces_response "success"
                           (map snd cluster_namespaces)
                           (Some (length cluster_namespaces)) None)
                end
            end
        end
    end.

(** [get_aks_namespaces] *)
Definition get_aks_namespaces (subscription_id : string)
    (resource_group_names : list string) : py NamespacesResponse :=
  match get_aks_namespaces_body subscription_id resource_group_names with
  | Ret r => Ret r
  | Raise _ => Raise (HTTPException 500)
  end.
End Namespaces.

(** ** Connecting to a subscription ([azure_service.py], [deployment.py]) *)

(** An exception of the Azure SDK as the handlers look at it: its
    [status_code] attribute if it has one, [str(e)] and
    [type(e).__name__]. *)
Record azure_error := mk_azure_error {
  error_status_code : option Z;
  error_msg : string;
  error_type : string
}.

(** The message of the [RuntimeError] that [AzureService.__init__] raises
    when the client cannot be created. *)
Definition azure_init_error (is_azure_app_service : bool) (subscription_id : string)
    (e : azure_error) : string :=
  let error_msg := error_msg e in
  let error_type := error_type e in
  let no_credential :=
    Str.contains "CredentialUnavailableError" error_type
    || Str.contains "credential" (Str.lower error_msg) in
  if is_azure_app_service then
    if no_credential then
      "Azure authentication failed in Azure App Service. Please ensure:
1. Managed Identity is enabled for the App Service
2. OR configure Service Principal credentials via App Settings:
   - AZURE_CLIENT_ID
   - AZURE_CLIENT_SECRET
   - AZURE_TENANT_ID
3. Verify subscription ID '" +:+ subscription_id +:+ "' is correct
4. Ensure the identity has 'Reader' role on the subscription"
    else
      "Failed to initialize Azure client in Azure App Service: " +:+ error_msg +:+ "
Error type: " +:+ error_type +:+ "

Please check:
1. Managed Identity is enabled and has proper permissions
2. Service Principal credentials are configured (if using)
3. Subscription ID '" +:+ subscription_id +:+ "' is correct"
  else
    if no_credential then
      "Azure authentication failed. Please ensure:
1. Azure CLI is installed: https://aka.ms/installazurecliwindows
2. For interactive login: Run 'az login'
3. For non-interactive environments: Run 'az login --use-device-code'
4. OR configure service principal credentials via environment variables:
   - AZURE_CLIENT_ID
   - AZURE_CLIENT_SECRET
   - AZURE_TENANT_ID
5. Verify subscription ID '" +:+ subscription_id +:+ "' is correct"
    else
      "Failed to initialize Azure client: " +:+ error_msg +:+ "
Error type: " +:+ error_type +:+ "

Please ensure:
1. Azure CLI is installed: https://aka.ms/installazurecliwindows
2. For interactive login: Run 'az login'
3. For non-interactive environments: Run 'az login --use-device-code'".

(** The message of the [RuntimeError] that [AzureService.test_connection]
    raises when listing the resource groups fails with [e]. *)
Definition test_connection_error (is_azure_app_service : bool) (subscription_id : string)
    (e : azure_error) : string :=
  let error_msg := error_msg e in
  let error_type := error_type e in
  let status_is (code : Z) : bool :=
    match error_status_code e with
    | Some status_code => (status_code =? code)%Z
    | None => false
    end in
  let mentions (w : string) : bool := Str.contains w (Str.lower error_msg) in
  if status_is 401%Z then
    "Azure authentication failed (401 Unauthorized). Please ensure:
1. Azure CLI is installed: https://aka.ms/installazurecliwindows
2. For interactive login: Run 'az login'
3. For non-interactive environments (CI/CD, remote servers): Run 'az login --use-device-code'
4. Verify your account: Run 'az account show'
5. Set the correct subscription: Run 'az account set --subscription <subscription-id>'
6. For Azure App Service: Configure Managed Identity or Service Principal credentials
7. Verify subscription ID '" +:+ subscription_id +:+ "' is correct"
  else if status_is 403%Z then
    "Insufficient permissions (403 Forbidden). Please ensure your Azure account has 'Reader' role on the subscription. Check Azure Portal → Subscriptions → Access control (IAM)"
  else if status_is 404%Z then
    "Subscription '" +:+ subscription_id +:+ "' not found (404). Please verify:
1. The subscription ID is correct
2. You have access to this subscription
3. The subscription is active (not disabled)"
  else if mentions "credential" || mentions "authentication" || mentions "unauthorized" then
    if is_azure_app_service then
      "Azure authentication failed in Azure App Service. Please ensure:
1. Managed Identity is enabled for the App Service
2. The Managed Identity has 'Reader' role on the subscription
3. OR configure Service Principal credentials via App Settings:
   - AZURE_CLIENT_ID
   - AZURE_CLIENT_SECRET
   - AZURE_TENANT_ID
4. Verify subscription ID is correct"
    else
      "Azure authentication failed. Please ensure:
1. Azure CLI is installed: https://aka.ms/installazurecliwindows
2. For interactive login: Run 'az login'
3. For non-interactive environments: Run 'az login --use-device-code'
4. Verify subscription ID is correct
5. Run: az account set --subscription <subscription-id>"
  else if mentions "permission" || mentions "authorization" || mentions "forbidden" then
    "Insufficient permissions. Please ensure your Azure account has 'Reader' role on the subscription."
  else if mentions "not found" || mentions "subscription" || mentions "does not exist" then
    "Subscription '" +:+ subscription_id +:+ "' not found or you don't have access to it. Please verify:
1. The subscription ID is correct
2. You have access to this subscription
3. The subscription is active (not disabled)"
  else
    "Failed to connect to Azure: " +:+ error_msg +:+ "
Error type: " +:+ error_type +:+ "
Subscription ID: " +:+ subscription_id +:+ "

Please check:
1. Azure CLI is installed and logged in (run: az login)
2. Subscription ID is correct
3. You have access to the subscription".

(** What [connect_azure_subscription] answers: the success dict, or the
    status code and the detail of the [HTTPException] it raises. *)
Inductive connect_response :=
| Connected (subscriptionId : string)
| ConnectFailed (status_code : nat) (error errorType : string)
    (recoverySteps : list string).

(** The handler for [RuntimeError] of [connect_azure_subscription]. *)
Definition connect_runtime_error (is_azure_app_service : bool)
    (subscription_id error_msg : string) : connect_response :=
  let mentions (w : string) : bool := Str.contains w (Str.lower error_msg) in
  if mentions "authentication" || mentions "credential" then
    ConnectFailed 500 error_msg "authentication"
      (if is_azure_app_service then
         [ "Enable Managed Identity for the App Service in Azure Portal";
           "Grant the Managed Identity 'Reader' role on the subscription";
           "OR configure Service Principal credentials in App Settings:";
           "  - AZURE_CLIENT_ID";
           "  - AZURE_CLIENT_SECRET";
           "  - AZURE_TENANT_ID";
           "Restart the App Service after configuration" ]
       else
         [ "Check if Azure CLI is installed: Run `az --version`";
           "Login to Azure: Run `az login`";
           "Verify your login: Run `az account show`";
           "Set the correct subscription: Run `az account set --subscription <subscription-id>`";
           "After logging in, restart the backend server" ])
  else if mentions "permission" || mentions "authorization" then
    ConnectFailed 500 error_msg "permission"
      [ "Verify subscription access in Azure Portal";
        "Ensure your account has at least 'Reader' role on the subscription";
        "Check Azure RBAC settings";
        "Contact your Azure administrator to grant permissions" ]
  else if mentions "not found" || mentions "subscription" then
    ConnectFailed 500 error_msg "subscription"
      [ "Verify subscription ID '" +:+ subscription_id +:+ "' is correct";
        "Check Azure Portal → Subscriptions to confirm the subscription exists";
        "Ensure the subscription is active" ]
  else
    ConnectFailed 500 error_msg "unknown"
      [ "Check backend server logs for detailed error information";
        "Verify Azure CLI is installed and logged in";
        "Try restarting the backend server" ].

(** The handler for every other exception, of type name [error_type] and
    text [error_msg]. *)
Definition connect_other_error (subscription_id error_msg error_type : string)
    : connect_response :=
  let recovery_steps :=
    [ "Check backend server logs for detailed error information";
      "Verify Azure CLI is installed and logged in (run: az login)";
      "Verify subscription ID '" +:+ subscription_id +:+ "' is correct";
      "Run: az account set --subscription <subscription-id>";
      "Try restarting the backend server" ] in
  ConnectFailed 500 error_msg error_type
    (if Str.contains "azure" (Str.lower error_msg)
        || Str.contains "subscription" (Str.lower error_msg)
     then ("Verify you have access to subscription '" +:+ subscription_id
           +:+ "' in Azure Portal") :: recovery_steps
     else recovery_steps).

(** The surroundings of a connection attempt: whether the backend runs in
    Azure App Service, the exception (if any) met while creating the
    client for a subscription that has none yet, the exception (if any)
    met while listing the resource groups, and the text of the
    [HTTPException] for a missing subscription id. *)
Record connect_env := mk_connect_env {
  is_azure_app_service : bool;
  client_failure : option azure_error;
  listing_failure : option azure_error;
  str_of_bad_request : string
}.

(** [connect_azure_subscription] *)
Definition connect_azure_subscription (env : connect_env) (subscription_id : string)
    : connect_response :=
  if negb (Str.nonempty subscription_id) then
    connect_other_error subscription_id (str_of_bad_request env) "HTTPException"
  else
    match client_failure env with
    | Some e =>
        connect_runtime_error (is_azure_app_service env) subscription_id
          (azure_init_error (is_azure_app_service env) subscription_id e)
    | None =>
        match listing_failure env with
        | Some e =>
            connect_runtime_error (is_azure_app_service env) subscription_id
              (test_connection_error (is_azure_app_service env) subscription_id e)
        | None => Connected subscription_id
        end
    end.

(** ** Health of the knowledge service ([deployment.py]) *)

(** The attributes of a [TemenosService] instance: those [__init__] sets
    and the methods of the class. *)
Definition temenos_service_attributes : list string :=
  [ "rag_adapter"; "_component_cache"; "_rag_was_available";
    "_is_potential_temenos_component"; "_extract_component_name";
    "_normalize_component_name"; "_categorize_component";
    "_build_architectural_query"; "_build_functional_query";
    "query_rag"; "_query_rag"; "_format_rag_response"; "_extract_capabilities";
    "_determine_component_type"; "identify_component"; "analyze_services" ].

(** [obj.name] on an object with the given attributes, [value] being what
    the attribute holds if it is there. *)
Definition getattr {A : Type} (attributes : list string) (name : string) (value : A)
    : py A :=
  if existsb (String.eqb name) attributes then Ret value else Raise AttributeError.

(** The [try] body of [temenos_health]; [jwt_token] is the token of the
    settings. *)
Definition temenos_health_body (jwt_token : string) : py (string * string) :=
  match getattr temenos_service_attributes "jwt_token" jwt_token with
  | Raise e => Raise e
  | Ret token =>
      if negb (Str.nonempty token) then Raise (HTTPException 500)
      else Ret ("success", "Temenos service is available")
  end.

(** [temenos_health] *)
Definition temenos_health (jwt_token : string) : py (string * string) :=
  match temenos_health_body jwt_token with
  | Ret r => Ret r
  | Raise _ => Raise (HTTPException 500)
  end.

(** ** The aggregator in the words of its description *)

(** The grouping key of a result together with the list object of its
    description; [None] for a result that is not grouped (it has no
    description, or it is classified infrastructure that is not a pod). *)
Definition key_and_list (r : TemenosAnalysisResult) : option (string * loc) :=
  match component_info r with
  | Some info =>
      match grouping_key r info with
      | Some k => Some (k, related_services info)
      | None => None
      end
  | None => None
  end.

Definition key_of (r : TemenosAnalysisResult) : option string :=
  option_map fst (key_and_list r).

(** [k in seen] *)
Definition key_seen (seen : list string) (k : string) : bool :=
  existsb (String.eqb k) seen.

(** The first result of every key, in order of appearance, with its key;
    [seen] are the keys that already have a representative. *)
Fixpoint representative_entries (seen : list string)
    (results : list TemenosAnalysisResult) : list (string * TemenosAnalysisResult) :=
  match results with
  | [] => []
  | r :: rest =>
      match key_of r with
      | Some k =>
          if key_seen seen k then representative_entries seen rest
          else (k, r) :: representative_entries (seen ++ [k]) rest
      | None => representative_entries seen rest
      end
  end.

Definition representatives (results : list TemenosAnalysisResult)
    : list TemenosAnalysisResult :=
  map snd (representative_entries [] results).

(** The results that are not grouped, and those of them that are
    reported. *)
Definition set_aside (results : list TemenosAnalysisResult) : list TemenosAnalysisResult :=
  filter (fun r => key_of r = None) results.

Definition reported_set_aside (results : list TemenosAnalysisResult)
    : list TemenosAnalysisResult :=
  filter (fun r => is_noise r = false) (set_aside results).

(** Appending a name unless it is already there. *)
Definition add_if_absent (names : list string) (x : string) : list string :=
  if existsb (String.eqb x) names then names else names ++ [x].

(** The list object a key is merged into. *)
Fixpoint list_of_key (reps : list (string * loc)) (k : string) : option loc :=
  match reps with
  | [] => None
  | (k', l) :: reps' => if String.eqb k' k then Some l else list_of_key reps' k
  end.

(** The display names offered to the list object [l], in order: the names
    of the later results of a key whose representative's description
    refers to [l].  [reps] gives the list object of every key that
    already has a representative. *)
Fixpoint merged_names (reps : list (string * loc)) (l : loc)
    (results : list TemenosAnalysisResult) : list string :=
  match results with
  | [] => []
  | r :: rest =>
      match key_and_list r with
      | None => merged_names reps l rest
      | Some (k, lr) =>
          match list_of_key reps k with
          | None => merged_names (reps ++ [(k, lr)]) l rest
          | Some l0 =>
              if Nat.eqb l0 l
              then AzureResource.name (service r) :: merged_names reps l rest
              else merged_names reps l rest
          end
      end
  end.

(** Every entry of the grouping map is filed under its own key. *)
Definition map_wf (m : list (string * TemenosAnalysisResult)) : Prop :=
  Forall (fun kr => key_of (snd kr) = Some (fst kr)) m.

(** The list object behind every entry of the grouping map. *)
Definition entry_lists (m : list (string * TemenosAnalysisResult)) : list (string * loc) :=
  omap (fun kr => key_and_list (snd kr)) m.

(** ** Auxiliary notions for the cache *)

(** A text that [identify_component] takes for the minimal description of
    [name]: the test [is_minimal] on the architectural text. *)
Definition looks_minimal (name text : string) : bool :=
  Str.startswith (minimal_prefix name) text && (String.length text <? 500)%nat.

(** No architectural answer of the knowledge service reads like a minimal
    description. *)
Definition never_looks_minimal (rag : rag_service) : Prop :=
  forall n q s name,
    rag_model_id q = "ModularBanking, TechnologyOverview" ->
    rag n q = Replied (WithAnswer (Text s)) ->
    looks_minimal name (_format_rag_response s) = false.

(** Every cache entry sits under the lower-cased name of its description
    and is never dropped as stale. *)
Definition cache_ok (has_rag : bool) (st : state) : Prop :=
  forall key cached, _component_cache st !! key = Some cached ->
    Str.lower (component_name cached) = key
    /\ forall name, is_minimal name cached && has_rag = false.

(** Every description handed out shares its list with the cache entry of
    its name. *)
Definition results_ok (st : state) (rs : list TemenosAnalysisResult) : Prop :=
  forall r info, In r rs -> component_info r = Some info ->
    exists cached,
      _component_cache st !! Str.lower (component_name info) = Some cached
      /\ related_services cached = related_services info.

(** The knowledge service answers with text whenever it answers. *)
Definition answers_are_text (rag : rag_service) : Prop :=
  forall n q, rag n q <> Replied (WithAnswer NonText).

(** The cache entry of the canonical name [name], if any, carries that
    very name. *)
Definition cache_names (name : string) (st : state) : Prop :=
  forall cached, _component_cache st !! Str.lower name = Some cached ->
    component_name cached = name.

(** ** Auxiliary notions for tables *)

(** Every character of [s] satisfies [p]. *)
Fixpoint all_chars (p : ascii -> bool) (s : string) : bool :=
  match s with
  | EmptyString => true
  | String c t => p c && all_chars p t
  end.

(** A field of a table: a non-empty string without white space. *)
Definition is_field (s : string) : bool :=
  Str.nonempty s && all_chars (fun c => negb (Str.is_space c)) s.

(** ** Sample inputs *)

(** *** Resources *)

(** The pod [pod] of namespace [adapterservice], as the pod adapter hands
    it to the pipeline. *)
Definition adapter_pod (pod : string) : AzureResource.t :=
  AKSPod.to_azure_resource
    (AKSPod.mk pod "adapterservice" "aks-temenos" "rg-temenos" "Running" ∅ []).

(** A pod of the namespace [adapter-service], which the classifier maps to
    the same canonical name as [adapterservice]. *)
Definition adapter_dash_pod (pod : string) : AzureResource.t :=
  AKSPod.to_azure_resource
    (AKSPod.mk pod "adapter-service" "aks-temenos" "rg-temenos" "Running" ∅ []).

(** A pod resource written by hand, with the bare pod name as display
    name. *)
Definition bare_adapter_pod (pod : string) : AzureResource.t :=
  AzureResource.mk
    ("/subscriptions/rg-temenos/resourceGroups/rg-temenos/providers/Microsoft.ContainerService/managedClusters/aks-temenos/namespaces/adapterservice/pods/" +:+ pod)
    pod "Microsoft.ContainerService/managedClusters/pods" "" "rg-temenos"
    ∅ (<["namespace" := "adapterservice"]> ∅).

(** The three pods of the namespace [adapterservice]. *)
Definition three_adapter_pods : list AzureResource.t :=
  [ adapter_pod "pod-a"; adapter_pod "pod-b"; adapter_pod "pod-c" ].

(** Two pods in each of the two adapter namespaces. *)
Definition two_adapter_namespaces : list AzureResource.t :=
  [ adapter_pod "pod-a"; adapter_pod "pod-b";
    adapter_dash_pod "pod-c"; adapter_dash_pod "pod-d" ].

(** A storage account. *)
Definition storage_account : AzureResource.t :=
  AzureResource.mk
    "/subscriptions/sub-1/resourceGroups/rg-temenos/providers/Microsoft.Storage/storageAccounts/stlogs"
    "stlogs" "Microsoft.Storage/storageAccounts" "westeurope" "rg-temenos" ∅ ∅.

(** The storage account with a component tag. *)
Definition tagged_storage_account : AzureResource.t :=
  AzureResource.mk
    "/subscriptions/sub-1/resourceGroups/rg-temenos/providers/Microsoft.Storage/storageAccounts/stlogs"
    "stlogs" "Microsoft.Storage/storageAccounts" "westeurope" "rg-temenos"
    (<["component" := "Transact"]> ∅) ∅.

(** A resource with a component tag whose type string holds both a
    deny-listed type and the pod type. *)
Definition tagged_storage_pod : AzureResource.t :=
  AzureResource.mk
    "/subscriptions/sub-1/resourceGroups/rg-temenos/providers/Microsoft.Storage/storageAccounts/stlogs/managedClusters/pods/p"
    "stlogs/p" "Microsoft.Storage/storageAccounts/managedClusters/pods" ""
    "rg-temenos" (<["component" := "Transact"]> ∅) ∅.

(** A virtual machine whose name says nothing. *)
Definition build_vm : AzureResource.t :=
  AzureResource.mk
    "/subscriptions/sub-1/resourceGroups/rg-temenos/providers/Microsoft.Compute/virtualMachines/vm1"
    "vm1" "Microsoft.Compute/virtualMachines" "westeurope" "rg-temenos" ∅ ∅.

(** A cluster. *)
Definition cluster_resource : AzureResource.t :=
  AzureResource.mk
    "/subscriptions/sub-1/resourceGroups/rg-temenos/providers/Microsoft.ContainerService/managedClusters/aks-temenos"
    "aks-temenos" "Microsoft.ContainerService/managedClusters" "westeurope"
    "rg-temenos" ∅ ∅.

(** *** Knowledge services *)

(** A knowledge service that never answers in time. *)
Definition rag_times_out : rag_service := fun _ _ => TimedOut.

(** A knowledge service whose architectural query fails in transport and
    whose functional query is answered. *)
Definition rag_architecture_fails : rag_service :=
  fun n _ =>
    match n with
    | O => Failed
    | _ => Replied (WithAnswer (Text "The adapter connects Transact with external systems."))
    end.

(** A knowledge service whose answers read like the minimal description. *)
Definition rag_minimal_looking : rag_service :=
  fun _ _ =>
    Replied (WithAnswer
      (Text "Adapter Microservice is a Temenos microservice component deployed on AKS.")).

(** *** Classifications, descriptions and results *)

(** What the classifier extracts from a pod of namespace
    [adapterservice]. *)
Definition adapter_extracted (pod : string) : extracted_info :=
  mk_extracted pod "Adapter Microservice" "microservice".

(** A description as the enrichment stage builds it, with its list object
    at location 0. *)
Definition transact_info : TemenosComponentInfo :=
  mk_info "Transact" "Azure storageAccounts"
    "Transact is a Temenos microservice component deployed in Azure Kubernetes Service."
    "Transact provides core banking functionality as part of the Temenos Transact platform."
    ["Core Transact functionality"] 0 [].

(** The description of the adapter built from two timed-out queries, with
    its list at location 0. *)
Definition timed_out_adapter_info : TemenosComponentInfo :=
  rag_info (adapter_pod "pod-a") "Adapter Microservice"
    not_available_timeout not_available_timeout 0.

(** The description of the adapter built when the architectural query
    fails and the functional one is answered, with its list at
    location 0. *)
Definition failed_adapter_info : TemenosComponentInfo :=
  rag_info (adapter_pod "pod-a") "Adapter Microservice"
    not_available_error "The adapter connects Transact with external systems." 0.

(** The result of the first pod of [two_adapter_namespaces] in a run with
    [rag_architecture_fails]: it carries the description that is built. *)
Definition adapter_representative : TemenosAnalysisResult :=
  mk_result (adapter_pod "pod-a") (Some failed_adapter_info) None.

(** The result of the third pod in that run: it carries a cached copy. *)
Definition adapter_dash_representative : TemenosAnalysisResult :=
  mk_result (adapter_dash_pod "pod-c")
    (Some (cached_copy (adapter_dash_pod "pod-c") failed_adapter_info)) None.

(** *** Environments *)

(** A deployment without a usable knowledge service; the cluster client
    starts and finds no pods. *)
Definition offline_env : analyze_env :=
  mk_analyze_env 1700000000000%N (fun _ => Ret tt) (fun _ _ => Ret [])
    rag_times_out false.

(** The same deployment with a knowledge service that fails on the first
    query and answers the others. *)
Definition online_env : analyze_env :=
  mk_analyze_env 1700000000000%N (fun _ => Ret tt) (fun _ _ => Ret [])
    rag_architecture_fails true.

(** A deployment whose cluster runs one pod of the namespace
    [eventstore]. *)
Definition cluster_env : analyze_env :=
  mk_analyze_env 1700000000000%N (fun _ => Ret tt)
    (fun _ _ => Ret [AKSPod.mk "eventstore-0" "eventstore" "aks-temenos" "rg-temenos"
                       "Running" ∅ []])
    rag_times_out false.

(** A machine on which [az aks get-credentials] exits with an error and
    leaves no file, while the default kubeconfig lists the cluster. *)
Definition az_fails_default_has_cluster : credential_env :=
  mk_credential_env "/tmp" "/home/app/.kube/config"
    (Ret (mk_completed 1 "" "ERROR: please run az login"))
    false true
    (Ret (mk_completed 0 "CURRENT   NAME          CLUSTER
*         aks-temenos   aks-temenos" ""))
    (Ret (mk_completed 0 "Client Version: v1.29.0" "")).

(** *** Requests and views of the response *)

(** The request [request] with the namespace selection replaced. *)
Definition with_selection (sel : option (list string)) (request : AnalyzeRequest)
    : AnalyzeRequest :=
  mk_request (services request) (analysis_id request) sel (force_refresh request).

(** What a reader of the response sees of a result: the display name of
    the resource, and the canonical name and related services of its
    description. *)
Definition summary (r : Json.result) : string * option (string * list string) :=
  (AzureResource.name (Json.service r),
   option_map (fun c => (Json.componentName c, Json.relatedServices c))
     (Json.componentInfo r)).

(** The deduplicated list of a run on a fresh service instance, as it is
    serialised. *)
Definition aggregated (rag : rag_service) (has_rag force_refresh : bool)
    (services : list AzureResource.t) : list Json.result :=
  let run := analyze_services rag has_rag true force_refresh services initial_state in
  let out := _deduplicate_components (fst run) (heap (snd run)) in
  map (result_to_dict (snd out)) (fst out).

(** *** Clusters, tables and connections *)

(** The pod that [cluster_env] reports. *)
Definition eventstore_pod : AKSPod.t :=
  AKSPod.mk "eventstore-0" "eventstore" "aks-temenos" "rg-temenos" "Running" ∅ [].


(** A request for the three adapter pods. *)
Definition adapter_request : AnalyzeRequest :=
  mk_request three_adapter_pods None None None.

(** What [kubectl get pods] prints for the namespace [eventstore]. *)
Definition eventstore_table : string :=
  "NAME           READY   STATUS    RESTARTS   AGE
eventstore-0   1/1     Running   0          5d".

(** A workstation with Rancher Desktop: the Azure CLI writes the
    kubeconfig, [kubectl] lists the namespaces as JSON (the document is
    abridged here) but refuses [-o json] for pods and prints the table. *)
Definition rancher_desktop : kubectl_env :=
  mk_kubectl_env
    (mk_credential_env "/tmp" "/home/app/.kube/config"
       (Ret (mk_completed 0 "Merged aks-temenos as current context" ""))
       true false
       (Ret (mk_completed 0 "" ""))
       (Ret (mk_completed 0 "Client Version: v1.29.0" "")))
    (fun _ => Ret (mk_completed 0 "" ""))
    (fun _ => Ret (mk_completed 0 "{ items: [ kube-system, eventstore ] }" ""))
    (fun _ _ => Ret (mk_completed 1 "" "Error: unknown shorthand flag: 'o' in -o"))
    (fun _ _ => Ret (mk_completed 0 eventstore_table ""))
    (fun _ => Some [K8s.mk_namespace (Some "kube-system");
                    K8s.mk_namespace (Some "eventstore")])
    (fun _ => None).

(** A connection attempt that the subscription answers with 403. *)
Definition forbidden_env : connect_env :=
  mk_connect_env false None
    (Some (mk_azure_error (Some 403%Z) "(AuthorizationFailed) The client does not have authorization"
             "HttpResponseError"))
    "400: Subscription ID is required".

(** The cluster as the Azure SDK lists it. *)
Definition sdk_cluster : sdk_resource :=
  mk_sdk_resource
    (Some "/subscriptions/sub-1/resourceGroups/rg-temenos/providers/Microsoft.ContainerService/managedClusters/aks-temenos")
    (Some "aks-temenos") (Some "Microsoft.ContainerService/managedClusters")
    (Some "westeurope") None None.

(** What [get_resources] answers for the group of the cluster in
    [cluster_env]: the cluster and its pod. *)
Definition cluster_and_pod : ResourcesResponse :=
  mk_resources_response "success"
    [cluster_resource; AKSPod.to_azure_resource eventstore_pod] 2.

(** What [get_aks_namespaces] answers for the group of the cluster when
    the cluster has the namespace [eventstore]. *)
Definition cluster_with_eventstore : NamespacesResponse :=
  mk_namespaces_response "success"
    [mk_cluster_namespaces "aks-temenos" "rg-temenos" ["eventstore"] None]
    (Some 1) None.

(** * Properties *)

(** ** Namespace relevance filter *)

(** C8: without an explicit namespace filter (absent or empty), the
    relevance filter applied to kube-system, eventstore, deposits202507 and
    randomteam keeps the last three and drops kube-system: the first is a
    fixed system namespace, the next two match a platform pattern, and
    randomteam matches none but has no system prefix. *)
Theorem relevance_filter_example :
  relevant_namespaces None ["kube-system"; "eventstore"; "deposits202507"; "randomteam"]
    = ["eventstore"; "deposits202507"; "randomteam"]
  /\ relevant_namespaces (Some []) ["kube-system"; "eventstore"; "deposits202507"; "randomteam"]
    = ["eventstore"; "deposits202507"; "randomteam"]
  /\ is_one_of "kube-system" system_namespaces = true
  /\ Str.contains_any discovery_patterns "eventstore" = true
  /\ Str.contains_any discovery_patterns "deposits202507" = true
  /\ Str.contains_any discovery_patterns "randomteam" = false
  /\ existsb (fun p => Str.startswith p "randomteam") system_prefixes = false.
Proof. repeat split; vm_compute; reflexivity. Qed.

(** ** Credential resolution *)

Lemma check_default_config_raises env :
  _check_default_config env = Raise (NameError "shutil").
Proof. reflexivity. Qed.

(** C7: when the CLI call exits non-zero and leaves no credential file
    while the default file exists and lists the cluster, the resolver
    reaches the check of the default file, and that check raises
    [NameError] ([shutil] is imported only inside two sibling functions);
    the handler of the resolver turns it into [None], so no bundle is
    returned. *)
Theorem default_kubeconfig_fallback_returns_none
    (env : credential_env) (resource_group cluster : string)
    (result check_result : completed_process)
    (Haz : run_az_get_credentials env = Ret result)
    (Hcode : returncode result <> 0%Z)
    (Hnofile : kubeconfig_created env = false)
    (Hdefault : default_kubeconfig_exists env = true)
    (Hcheck : run_kubectl_get_contexts env = Ret check_result)
    (Hcheck0 : returncode check_result = 0%Z)
    (Hlisted : Str.contains cluster (stdout check_result) = true) :
  get_cluster_credentials env resource_group cluster = None.
Proof.
  unfold get_cluster_credentials, get_cluster_credentials_body.
  assert (Hget : _get_credentials env = Ret result) by (rewrite <- Haz; reflexivity).
  rewrite Hget, Hnofile, Hdefault, check_default_config_raises.
  destruct (returncode result =? 0)%Z eqn:E; [apply Z.eqb_eq in E; contradiction|].
  reflexivity.
Qed.

Lemma default_kubeconfig_fallback_witness :
  get_cluster_credentials az_fails_default_has_cluster "rg-temenos" "aks-temenos" = None.
Proof.
  apply (default_kubeconfig_fallback_returns_none az_fails_default_has_cluster
           "rg-temenos" "aks-temenos"
           (mk_completed 1 "" "ERROR: please run az login")
           (mk_completed 0 "CURRENT   NAME          CLUSTER
*         aks-temenos   aks-temenos" "")).
  - reflexivity.
  - simpl. lia.
  - reflexivity.
  - reflexivity.
  - reflexivity.
  - reflexivity.
  - vm_compute. reflexivity.
Defined.

(** ** The analyze operation and the namespace selection *)

Lemma discover_for_analysis_pods env sub svcs sel :
  fst (discover_for_analysis env sub svcs sel) = []
  \/ fst (discover_for_analysis env sub svcs sel)
     = discover_pods_from_resources (pods_of_cluster env) svcs None.
Proof.
  unfold discover_for_analysis.
  destruct (filter _ svcs); [left; reflexivity|].
  destruct (aks_service_init env sub); [|left; reflexivity].
  destruct (discover_pods_from_resources (pods_of_cluster env) svcs None) eqn:E;
    [left; reflexivity | right; reflexivity].
Qed.

Lemma discover_for_analysis_selection env sub svcs sel sel' :
  fst (discover_for_analysis env sub svcs sel)
  = fst (discover_for_analysis env sub svcs sel').
Proof.
  unfold discover_for_analysis.
  destruct (filter _ svcs); [reflexivity|].
  destruct (aks_service_init env sub); [|reflexivity].
  destruct (discover_pods_from_resources (pods_of_cluster env) svcs None);
    reflexivity.
Qed.

Lemma respond_ext env request request' svcs :
  analysis_id request = analysis_id request' ->
  force_refresh request = force_refresh request' ->
  respond env request svcs = respond env request' svcs.
Proof. intros H1 H2. unfold respond. rewrite H1, H2. reflexivity. Qed.

Lemma analyze_body_selection env request sel sel' :
  fst (_analyze_services_body env (with_selection sel request))
  = fst (_analyze_services_body env (with_selection sel' request)).
Proof.
  unfold _analyze_services_body.
  change (services (with_selection sel request)) with (services request).
  change (services (with_selection sel' request)) with (services request).
  destruct (services request) as [|s0 rest]; [reflexivity|].
  destruct (subscription_of (s0 :: rest)) as [sub|e]; [|reflexivity].
  cbn [fst]. f_equal.
  rewrite (respond_ext env (with_selection sel request) (with_selection sel' request))
    by reflexivity.
  f_equal. f_equal.
  destruct sub as [sub0|]; [destruct (Str.nonempty sub0)|]; try reflexivity.
  apply discover_for_analysis_selection.
Qed.

(** C9: the response of the analyze operation does not depend on the
    namespace selection of the request: two requests that differ only in
    [selected_namespaces] (absent, empty or any list) get the same response
    (or the same error), for every resource list, force-refresh flag and
    environment; the selection can only change what is logged.  Pod
    discovery, when it runs, is called without a namespace filter. *)
Theorem analyze_independent_of_selection
    (env : analyze_env) (request : AnalyzeRequest) (sel sel' : option (list string)) :
  fst (_analyze_services_impl env (with_selection sel request))
  = fst (_analyze_services_impl env (with_selection sel' request))
  /\ forall sub,
      fst (discover_for_analysis env sub (services request) sel) = []
      \/ fst (discover_for_analysis env sub (services request) sel)
         = discover_pods_from_resources (pods_of_cluster env) (services request) None.
Proof.
  split.
  - unfold _analyze_services_impl.
    pose proof (analyze_body_selection env request sel sel') as H.
    destruct (_analyze_services_body env (with_selection sel request)) as [[r|e] l];
      destruct (_analyze_services_body env (with_selection sel' request)) as [[r'|e'] l'];
      simpl in *; congruence.
  - intros sub. apply discover_for_analysis_pods.
Qed.

(** The selection does show in the log. *)
Example selection_is_logged :
  snd (_analyze_services_impl cluster_env
         (mk_request [cluster_resource] None (Some ["eventstore"]) None))
  = [SelectedNamespacesMatch ["eventstore"] {[ "eventstore" ]}]
  /\ snd (_analyze_services_impl cluster_env
            (mk_request [cluster_resource] None None None)) = [].
Proof. split; vm_compute; reflexivity. Qed.

(** ** Batch analysis *)

Section BatchFacts.
Variable rag : rag_service.
Variables has_rag use_cache force_refresh : bool.

Lemma analyze_batch_app l1 l2 st :
analyze_batch rag has_rag use_cache force_refresh (l1 ++ l2) st =
let '(rs1, st1) := analyze_batch rag has_rag use_cache force_refresh l1 st in
let '(rs2, st2) := analyze_batch rag has_rag use_cache force_refresh l2 st1 in
(rs1 ++ rs2, st2).
Proof.
revert st. induction l1 as [|s l1 IH]; intros st; simpl.
- destruct (analyze_batch _ _ _ _ l2 st); reflexivity.
- destruct (analyze_one _ _ _ _ s st) as [r st1].
  rewrite IH.
  destruct (analyze_batch _ _ _ _ l1 st1) as [rs1 st2].
  destruct (analyze_batch _ _ _ _ l2 st2) as [rs2 st3]. reflexivity.
Qed.

(** Slicing into batches does not change what is processed, nor the
  order. *)
Lemma analyze_batches_flat fuel l st :
length l <= fuel ->
analyze_batches rag has_rag use_cache force_refresh (batches fuel l) st
= analyze_batch rag has_rag use_cache force_refresh l st.
Proof.
revert l st. induction fuel as [|fuel IH]; intros l st Hlen.
- destruct l; [reflexivity | simpl in Hlen; lia].
- destruct l as [|a l]; [reflexivity|].
  assert (Hsplit : analyze_batch rag has_rag use_cache force_refresh (a :: l) st
                   = analyze_batch rag has_rag use_cache force_refresh
                       (take 3 (a :: l) ++ drop 3 (a :: l)) st)
    by (rewrite take_drop; reflexivity).
  rewrite Hsplit, analyze_batch_app.
  cbn [batches analyze_batches].
  destruct (analyze_batch _ _ _ _ (take 3 (a :: l)) st) as [rs1 st1].
  rewrite IH; [reflexivity|].
  rewrite length_drop. simpl in *. lia.
Qed.

Lemma analyze_batch_services l st :
map service (fst (analyze_batch rag has_rag use_cache force_refresh l st)) = l.
Proof.
revert st. induction l as [|s l IH]; intros st; [reflexivity|].
simpl. unfold analyze_one.
destruct (identify_component rag has_rag s use_cache force_refresh st) as [ci st1].
specialize (IH st1).
destruct (analyze_batch _ _ _ _ l st1) as [rs st2].
simpl in *. congruence.
Qed.

Lemma filter_all_false (l : list AzureResource.t) :
(forall s, In s l -> _is_potential_temenos_component s = false) ->
filter (fun s => _is_potential_temenos_component s = true) l = [].
Proof.
induction l as [|a l IH]; intros H; [reflexivity|].
rewrite filter_cons_False.
- apply IH. intros s Hs. apply H. right. exact Hs.
- rewrite (H a); [discriminate | left; reflexivity].
Qed.

(** C6: when no resource of the input passes the candidate check,
  [analyze_services] returns at its early [return []]: the result is
  the empty list, not one unclassified entry per resource, and the
  aggregator receives nothing. *)
Theorem analyze_services_drops_all_when_no_candidate
  (services : list AzureResource.t) (st : state)
  (Hnone : forall s, In s services -> _is_potential_temenos_component s = false) :
analyze_services rag has_rag use_cache force_refresh services st = ([], st).
Proof.
unfold analyze_services. rewrite (filter_all_false services Hnone).
reflexivity.
Qed.

(** With at least one candidate the result is complete: the candidates
  in order, then the rejected resources in order. *)
Lemma analyze_services_complete services st :
filter (fun s => _is_potential_temenos_component s = true) services <> [] ->
map service (fst (analyze_services rag has_rag use_cache force_refresh services st))
= filter (fun s => _is_potential_temenos_component s = true) services
  ++ filter (fun s => _is_potential_temenos_component s = false) services.
Proof.
intros Hne. unfold analyze_services.
destruct (filter (fun s => _is_potential_temenos_component s = true) services)
  as [|p ps] eqn:E; [contradiction|].
rewrite analyze_batches_flat by lia.
pose proof (analyze_batch_services (p :: ps) st) as Hs.
destruct (analyze_batch _ _ _ _ (p :: ps) st) as [rs st1]. simpl in Hs.
cbn [fst]. rewrite map_app, Hs, map_map. simpl. rewrite map_id. reflexivity.
Qed.
End BatchFacts.

Lemma analyze_services_no_candidate_witness :
  analyze_services rag_architecture_fails true true false
    [storage_account; build_vm] initial_state = ([], initial_state).
Proof.
  apply (analyze_services_drops_all_when_no_candidate rag_architecture_fails true true false
           [storage_account; build_vm] initial_state).
  intros s [<-|[<-|[]]]; vm_compute; reflexivity.
Defined.

(** ** Enrichment under failing queries *)

(** The fixed texts have the lengths they have in the source: the fallback
    paragraphs 728 and 626 characters besides the name, the queries for a
    microservice 1009 and 937. *)
Example template_lengths :
  String.length (architectural_fallback "") = 728
  /\ String.length (functional_fallback "") = 626
  /\ String.length (_build_architectural_query "" "microservice") = 1009
  /\ String.length (_build_architectural_query "" "core") = 759
  /\ String.length (_build_functional_query "" "microservice") = 937
  /\ String.length (_build_functional_query "" "core") = 677.
Proof. repeat split; vm_compute; reflexivity. Qed.

(** A query that times out is replaced by the fallback paragraph. *)
Example timed_out_half_gets_fallback_paragraph :
  option_map architectural_overview
    (fst (identify_component rag_times_out true (adapter_pod "pod-a")
            true false initial_state))
  = Some (architectural_fallback "Adapter Microservice")
  /\ option_map functional_overview
    (fst (identify_component rag_times_out true (adapter_pod "pod-a")
            true false initial_state))
  = Some (functional_fallback "Adapter Microservice").
Proof. split; vm_compute; reflexivity. Qed.

(** C5: when the architectural query fails with a transport error (and
    the functional query is answered), [identify_component] returns a
    description and raises nothing, but the architectural half is the bare
    string "Information not available - error": only the timeout string
    and the missing-answer string are replaced by the fallback paragraph. *)
Theorem transport_error_leaves_bare_placeholder :
  option_map architectural_overview
    (fst (identify_component rag_architecture_fails true (adapter_pod "pod-a")
            true false initial_state))
  = Some "Information not available - error"
  /\ option_map component_name
    (fst (identify_component rag_architecture_fails true (adapter_pod "pod-a")
            true false initial_state))
  = Some "Adapter Microservice"
  /\ "Information not available - error" <> architectural_fallback "Adapter Microservice".
Proof.
  split; [vm_compute; reflexivity|].
  split; [vm_compute; reflexivity|].
  vm_compute. discriminate.
Qed.

(** ** Substrings *)

Lemma append_nil_l (b : string) : "" +:+ b = b.
Proof. reflexivity. Qed.

Lemma append_cons (c : ascii) (a b : string) : String c a +:+ b = String c (a +:+ b).
Proof. reflexivity. Qed.

Lemma append_assoc (a b c : string) : (a +:+ b) +:+ c = a +:+ (b +:+ c).
Proof.
  induction a as [|x a IH]; [reflexivity|].
  rewrite !append_cons, IH. reflexivity.
Qed.

Lemma prefix_iff (p s : string) :
  String.prefix p s = true <-> exists t, s = p +:+ t.
Proof.
  revert s. induction p as [|c p IH]; intros s.
  - split; [intros _; exists s; reflexivity | intros _; destruct s; reflexivity].
  - destruct s as [|d s]; cbn [String.prefix].
    + split; [discriminate | intros [t Ht]; discriminate].
    + destruct (Ascii.ascii_dec c d) as [->|Hne].
      * rewrite IH. split; intros [t Ht]; exists t.
        -- rewrite append_cons, Ht. reflexivity.
        -- rewrite append_cons in Ht. congruence.
      * split; [discriminate | intros [t Ht]; rewrite append_cons in Ht; congruence].
Qed.

Lemma contains_iff (p s : string) :
  Str.contains p s = true <-> exists a b, s = a +:+ p +:+ b.
Proof.
  induction s as [|c s IH]; cbn [Str.contains].
  - rewrite orb_false_r, prefix_iff. split.
    + intros [t Ht]. exists "", t. exact Ht.
    + intros [a [b H]]. destruct a; [exists b; exact H | discriminate].
  - rewrite orb_true_iff, prefix_iff, IH. split.
    + intros [[t Ht]|[a [b H]]].
      * exists "", t. exact Ht.
      * exists (String c a), b. rewrite append_cons, H. reflexivity.
    + intros [a [b H]]. destruct a as [|d a].
      * left. exists b. exact H.
      * right. rewrite append_cons in H. exists a, b. congruence.
Qed.

(** What occurs in a substring occurs in the string. *)
Lemma contains_trans (a b c : string) :
  Str.contains a b = true -> Str.contains b c = true -> Str.contains a c = true.
Proof.
  rewrite !contains_iff. intros [x [y ->]] [u [v ->]].
  exists (u +:+ x), (y +:+ v). rewrite !append_assoc. reflexivity.
Qed.

(** A list of patterns that all contain a pattern of another list finds
    nothing the other list does not find. *)
Lemma contains_any_covered (ps qs : list string) (s : string) :
  forallb (fun p => Str.contains_any qs p) ps = true ->
  Str.contains_any ps s = true -> Str.contains_any qs s = true.
Proof.
  unfold Str.contains_any. rewrite forallb_forall, !existsb_exists.
  intros Hcov [p [Hp Hps]]. specialize (Hcov p Hp).
  apply existsb_exists in Hcov. destruct Hcov as [q [Hq Hqp]].
  exists q. split; [exact Hq | eapply contains_trans; eassumption].
Qed.

Lemma infrastructure_is_aggregator_infrastructure (s : AzureResource.t) :
  matches_infrastructure s = true ->
  Str.contains_any aggregator_infrastructure (Str.lower (AzureResource.type s)) = true.
Proof. apply contains_any_covered. vm_compute. reflexivity. Qed.

Lemma aggregator_infrastructure_is_noise (ty : string) :
  Str.contains_any aggregator_infrastructure ty = true ->
  Str.contains_any aggregator_noise ty = true.
Proof. apply contains_any_covered. vm_compute. reflexivity. Qed.

(** ** The aggregator *)

Lemma key_of_Some r k :
  key_of r = Some k <-> exists l, key_and_list r = Some (k, l).
Proof.
  unfold key_of. destruct (key_and_list r) as [[k' l]|]; simpl; split.
  - intros [= <-]. exists l. reflexivity.
  - intros [l' [= <- _]]. reflexivity.
  - discriminate.
  - intros [l' H]. discriminate.
Qed.

Lemma key_of_None r : key_of r = None <-> key_and_list r = None.
Proof. unfold key_of. destruct (key_and_list r); simpl; split; congruence. Qed.

Lemma key_and_list_info r k l :
  key_and_list r = Some (k, l) ->
  exists info, component_info r = Some info /\ related_services info = l.
Proof.
  unfold key_and_list. destruct (component_info r) as [info|]; [|discriminate].
  destruct (grouping_key r info); [|discriminate].
  intros [= _ <-]. exists info. split; reflexivity.
Qed.

(** One turn of the loop, read off the key of the result. *)
Lemma dedup_step_alt d r :
  dedup_step d r =
  match key_and_list r with
  | None => mk_dedup (component_map d) (unidentified d ++ [r]) (dedup_heap d)
  | Some (k, _) =>
      match map_get (component_map d) k with
      | None => mk_dedup (component_map d ++ [(k, r)]) (unidentified d) (dedup_heap d)
      | Some existing =>
          match component_info existing with
          | Some existing_info =>
              mk_dedup (component_map d) (unidentified d)
                (append_if_absent (related_services existing_info)
                   (AzureResource.name (service r)) (dedup_heap d))
          | None => d
          end
      end
  end.
Proof.
  unfold dedup_step, key_and_list.
  destruct (component_info r) as [info|]; [|reflexivity].
  destruct (grouping_key r info); reflexivity.
Qed.

Lemma read_append_if_absent l0 x h l :
  read_list (append_if_absent l0 x h) l
  = if Nat.eqb l0 l then add_if_absent (read_list h l) x else read_list h l.
Proof.
  unfold append_if_absent, add_if_absent.
  destruct (Nat.eqb_spec l0 l) as [->|Hne].
  - destruct (existsb (String.eqb x) (read_list h l)); [reflexivity|].
    unfold read_list at 1. rewrite lookup_insert_eq. reflexivity.
  - destruct (existsb (String.eqb x) (read_list h l0)); [reflexivity|].
    unfold read_list at 1 3. rewrite lookup_insert_ne by exact Hne. reflexivity.
Qed.

Lemma key_seen_app seen k k' :
  key_seen (seen ++ [k]) k' = key_seen seen k' || String.eqb k' k.
Proof. unfold key_seen. rewrite existsb_app. simpl. rewrite orb_false_r. reflexivity. Qed.

Lemma map_get_seen m k :
  map_get m k = None <-> key_seen (map fst m) k = false.
Proof.
  induction m as [|[k' r] m IH]; simpl; [tauto|].
  rewrite (String.eqb_sym k k').
  destruct (String.eqb k' k); simpl; [split; intros H; discriminate H | exact IH].
Qed.

Lemma map_get_list m k :
  map_wf m ->
  match map_get m k with
  | None => list_of_key (entry_lists m) k = None
  | Some existing =>
      exists info, component_info existing = Some info
                   /\ list_of_key (entry_lists m) k = Some (related_services info)
  end.
Proof.
  induction 1 as [|[k' r] m Hk Hwf IH]; simpl; [reflexivity|].
  simpl in Hk. apply key_of_Some in Hk. destruct Hk as [l Hl].
  unfold entry_lists in *. simpl. rewrite Hl. simpl.
  destruct (String.eqb k' k); [|exact IH].
  apply key_and_list_info in Hl. destruct Hl as [info [Hi <-]].
  exists info. split; [exact Hi | reflexivity].
Qed.

Lemma entry_lists_snoc m k r l :
  key_and_list r = Some (k, l) -> entry_lists (m ++ [(k, r)]) = entry_lists m ++ [(k, l)].
Proof. intros H. unfold entry_lists. rewrite omap_app. simpl. rewrite H. reflexivity. Qed.

(** The loop of the aggregator computes the representatives, the results
    set aside and the merges, whatever grouping map it starts from. *)
Lemma dedup_fold_spec results :
  forall d, map_wf (component_map d) ->
    component_map (fold_left dedup_step results d)
    = component_map d ++ representative_entries (map fst (component_map d)) results
    /\ unidentified (fold_left dedup_step results d)
      = unidentified d ++ set_aside results
    /\ forall l,
        read_list (dedup_heap (fold_left dedup_step results d)) l
        = fold_left add_if_absent
            (merged_names (entry_lists (component_map d)) l results)
            (read_list (dedup_heap d) l).
Proof.
  induction results as [|r rest IH]; intros d Hwf.
  - simpl. rewrite !app_nil_r. auto.
  - cbn [fold_left]. rewrite dedup_step_alt.
    cbn [representative_entries merged_names]. unfold set_aside.
    destruct (key_and_list r) as [[k lr]|] eqn:Hkl.
    + assert (Hk : key_of r = Some k) by (apply key_of_Some; eauto).
      rewrite Hk, filter_cons_False by (rewrite Hk; intros [=]).
      pose proof (map_get_list (component_map d) k Hwf) as Hget.
      pose proof (map_get_seen (component_map d) k) as Hseen.
      destruct (map_get (component_map d) k) as [existing|].
      * destruct Hget as [info [Hinfo Hlist]]. rewrite Hinfo, Hlist.
        assert (Hs : key_seen (map fst (component_map d)) k = true).
        { destruct (key_seen (map fst (component_map d)) k); [reflexivity|].
          destruct Hseen as [_ Hseen]. discriminate (Hseen eq_refl). }
        rewrite Hs.
        destruct (IH (mk_dedup (component_map d) (unidentified d)
                        (append_if_absent (related_services info)
                           (AzureResource.name (service r)) (dedup_heap d))) Hwf)
          as [Hmap [Hun Hheap]].
        simpl in Hmap, Hun, Hheap.
        split; [exact Hmap|]. split; [exact Hun|].
        intros l. rewrite Hheap, read_append_if_absent.
        destruct (Nat.eqb (related_services info) l); reflexivity.
      * rewrite Hget. destruct Hseen as [Hseen _]. rewrite (Hseen eq_refl).
        assert (Hwf' : map_wf (component_map d ++ [(k, r)])).
        { apply Forall_app. split; [exact Hwf|]. constructor; [exact Hk | constructor]. }
        destruct (IH (mk_dedup (component_map d ++ [(k, r)]) (unidentified d)
                        (dedup_heap d)) Hwf') as [Hmap [Hun Hheap]].
        simpl in Hmap, Hun, Hheap.
        rewrite map_app in Hmap. simpl in Hmap.
        rewrite (entry_lists_snoc _ _ _ _ Hkl) in Hheap.
        split; [rewrite Hmap, <- app_assoc; reflexivity|].
        split; [exact Hun | exact Hheap].
    + assert (Hk : key_of r = None) by (apply key_of_None; exact Hkl).
      rewrite Hk, filter_cons_True by exact Hk.
      destruct (IH (mk_dedup (component_map d) (unidentified d ++ [r]) (dedup_heap d)) Hwf)
        as [Hmap [Hun Hheap]].
      simpl in Hmap, Hun, Hheap.
      split; [exact Hmap|]. split; [|exact Hheap].
      rewrite Hun, <- app_assoc. reflexivity.
Qed.

Lemma key_seen_true seen k : key_seen seen k = true <-> In k seen.
Proof.
  unfold key_seen. rewrite existsb_exists. split.
  - intros [x [Hx He]]. apply String.eqb_eq in He. subst. exact Hx.
  - intros H. exists k. split; [exact H | apply String.eqb_refl].
Qed.

Lemma key_seen_false seen k : key_seen seen k = false <-> ~ In k seen.
Proof.
  rewrite <- key_seen_true. destruct (key_seen seen k); split; congruence.
Qed.

(** Every representative entry is a result filed under its own key, and
    its key had no representative before. *)
Lemma representative_entries_sound results :
  forall seen k r, In (k, r) (representative_entries seen results) ->
    In r results /\ key_of r = Some k /\ ~ In k seen.
Proof.
  induction results as [|r0 rest IH]; intros seen k r Hin; [destruct Hin|].
  cbn [representative_entries] in Hin.
  destruct (key_of r0) as [k0|] eqn:Hk0.
  - destruct (key_seen seen k0) eqn:Hs.
    + destruct (IH _ _ _ Hin) as [H1 [H2 H3]]. split; [right; exact H1 | auto].
    + destruct Hin as [[= <- <-]|Hin].
      * split; [left; reflexivity|]. split; [exact Hk0 | apply key_seen_false; exact Hs].
      * destruct (IH _ _ _ Hin) as [H1 [H2 H3]].
        split; [right; exact H1|]. split; [exact H2|].
        intros Hc. apply H3. apply in_or_app. left. exact Hc.
  - destruct (IH _ _ _ Hin) as [H1 [H2 H3]]. split; [right; exact H1 | auto].
Qed.

(** No key has two representatives. *)
Lemma representative_entries_nodup results :
  forall seen, List.NoDup (map fst (representative_entries seen results)).
Proof.
  induction results as [|r0 rest IH]; intros seen; [constructor|].
  cbn [representative_entries].
  destruct (key_of r0) as [k0|]; [|apply IH].
  destruct (key_seen seen k0); [apply IH|].
  simpl. constructor; [|apply IH].
  intros Hin. apply in_map_iff in Hin. destruct Hin as [[k r] [Hk Hin]].
  simpl in Hk. subst k.
  destruct (representative_entries_sound _ _ _ _ Hin) as [_ [_ Hns]].
  apply Hns. apply in_or_app. right. left. reflexivity.
Qed.

(** Every key that occurs has a representative. *)
Lemma representative_entries_complete results :
  forall seen r k, In r results -> key_of r = Some k ->
    In k seen \/ In k (map fst (representative_entries seen results)).
Proof.
  induction results as [|r0 rest IH]; intros seen r k Hin Hk; [destruct Hin|].
  cbn [representative_entries].
  destruct Hin as [<-|Hin].
  - rewrite Hk. destruct (key_seen seen k) eqn:Hs.
    + left. apply key_seen_true. exact Hs.
    + right. left. reflexivity.
  - destruct (key_of r0) as [k0|] eqn:Hk0; [|eapply IH; eassumption].
    destruct (key_seen seen k0) eqn:Hs; [eapply IH; eassumption|].
    destruct (IH (seen ++ [k0]) r k Hin Hk) as [H|H].
    + apply in_app_or in H. destruct H as [H|[<-|[]]].
      * left. exact H.
      * right. left. reflexivity.
    + right. right. exact H.
Qed.

(** The first result of a key is its representative. *)
Lemma representative_entries_first results :
  forall seen pre r post k,
    results = pre ++ r :: post -> key_of r = Some k -> ~ In k seen ->
    (forall r', In r' pre -> key_of r' <> Some k) ->
    In (k, r) (representative_entries seen results).
Proof.
  induction results as [|r0 rest IH]; intros seen pre r post k Heq Hk Hns Hpre.
  - destruct pre; discriminate.
  - cbn [representative_entries]. destruct pre as [|p pre].
    + simpl in Heq. injection Heq as <- <-. rewrite Hk.
      apply key_seen_false in Hns. rewrite Hns. left. reflexivity.
    + simpl in Heq. injection Heq as <- ->.
      assert (Hrest : forall seen', ~ In k seen' ->
                In (k, r) (representative_entries seen' (pre ++ r :: post))).
      { intros seen' Hns'. eapply IH; [reflexivity | exact Hk | exact Hns' |].
        intros r' Hr'. apply Hpre. right. exact Hr'. }
      destruct (key_of r0) as [k0|] eqn:Hk0; [|apply Hrest; exact Hns].
      destruct (key_seen seen k0); [apply Hrest; exact Hns|].
      right. apply Hrest. intros Hc. apply in_app_or in Hc.
      destruct Hc as [Hc|[<-|[]]]; [exact (Hns Hc)|].
      apply (Hpre r0); [left; reflexivity | exact Hk0].
Qed.

(** The representatives keep the order of the input. *)
Lemma representative_entries_sublist results :
  forall seen, sublist (map snd (representative_entries seen results)) results.
Proof.
  induction results as [|r0 rest IH]; intros seen; [constructor|].
  cbn [representative_entries].
  destruct (key_of r0) as [k0|]; [|apply sublist_cons; apply IH].
  destruct (key_seen seen k0); [apply sublist_cons; apply IH|].
  simpl. apply sublist_skip. apply IH.
Qed.

Lemma add_if_absent_nodup names x :
  List.NoDup names -> List.NoDup (add_if_absent names x).
Proof.
  intros Hnd. unfold add_if_absent.
  destruct (existsb (String.eqb x) names) eqn:E; [exact Hnd|].
  apply NoDup_ListNoDup. apply NoDup_app. repeat split.
  - apply NoDup_ListNoDup. exact Hnd.
  - intros y Hy Hy'. apply list_elem_of_In in Hy, Hy'.
    destruct Hy' as [<-|[]].
    assert (existsb (String.eqb x) names = true); [|congruence].
    apply existsb_exists. exists x. split; [exact Hy | apply String.eqb_refl].
  - apply NoDup_ListNoDup. constructor; [intros []| constructor].
Qed.

Lemma fold_add_if_absent_nodup xs :
  forall names, List.NoDup names -> List.NoDup (fold_left add_if_absent xs names).
Proof.
  induction xs as [|x xs IH]; intros names Hnd; [exact Hnd|].
  simpl. apply IH. apply add_if_absent_nodup. exact Hnd.
Qed.

Lemma deduplicate_components_eq results h :
  _deduplicate_components results h
  = (representatives results ++ reported_set_aside results,
     dedup_heap (fold_left dedup_step results (mk_dedup [] [] h))).
Proof.
  unfold _deduplicate_components, representatives, reported_set_aside.
  destruct (dedup_fold_spec results (mk_dedup [] [] h)) as [Hmap [Hun _]];
    [constructor|].
  simpl in Hmap, Hun. rewrite Hmap, Hun. reflexivity.
Qed.

(** What the merges leave in every list object. *)
Lemma deduplicate_components_store results h l :
  read_list (snd (_deduplicate_components results h)) l
  = fold_left add_if_absent (merged_names [] l results) (read_list h l).
Proof.
  rewrite deduplicate_components_eq. cbn [snd].
  destruct (dedup_fold_spec results (mk_dedup [] [] h)) as [_ [_ Hh]];
    [constructor | apply Hh].
Qed.

(** C3 (in the form that holds): for every list of results and every store,
    [_deduplicate_components] returns the representatives followed by the
    reported results that were set aside, where
    - a result is grouped when it has a description and is a pod or has a
      type outside the aggregator's own infrastructure list; its key is the
      lower-cased namespace for a pod with a namespace and the canonical
      name otherwise;
    - the representatives are results of the input with pairwise different
      keys, every key that occurs has one, it is the first result of its
      key, and the representatives come in input order;
    - the results set aside (no description, or classified infrastructure
      that is no pod) are reported, in input order, unless their type
      matches the aggregator's noise list (storage, key vault, network,
      insights, operational insights, virtual machines, scale sets);
    - every list object ends up as its old contents to which the display
      names of the later results of the keys merged into it were added in
      order, each only if not yet present, so a list without duplicates
      stays without duplicates. *)
Theorem deduplicate_components_characterised
    (results : list TemenosAnalysisResult) (h : gmap loc (list string)) :
  fst (_deduplicate_components results h)
    = representatives results
      ++ filter (fun r => is_noise r = false) (filter (fun r => key_of r = None) results)
  /\ List.NoDup (map key_of (representatives results))
  /\ (forall r, In r (representatives results) -> In r results /\ key_of r <> None)
  /\ (forall r k, In r results -> key_of r = Some k ->
        exists rep, In rep (representatives results) /\ key_of rep = Some k)
  /\ (forall pre r post k, results = pre ++ r :: post -> key_of r = Some k ->
        (forall r', In r' pre -> key_of r' <> Some k) ->
        In r (representatives results))
  /\ sublist (representatives results) results
  /\ (forall l, read_list (snd (_deduplicate_components results h)) l
               = fold_left add_if_absent (merged_names [] l results) (read_list h l))
  /\ (forall l, List.NoDup (read_list h l) ->
               List.NoDup (read_list (snd (_deduplicate_components results h)) l)).
Proof.
  pose proof (deduplicate_components_store results h) as Hheap.
  rewrite deduplicate_components_eq in *. cbn [fst snd] in *.
  assert (Hkeys : map key_of (representatives results)
                  = map Some (map fst (representative_entries [] results))).
  { unfold representatives. rewrite !map_map. apply map_ext_in.
    intros [k r] Hin. simpl.
    destruct (representative_entries_sound _ _ _ _ Hin) as [_ [Hk _]]. exact Hk. }
  split; [reflexivity|].
  split.
  { rewrite Hkeys. apply Finite.Injective_map_NoDup.
    - intros x y [= ->]. reflexivity.
    - apply representative_entries_nodup. }
  split.
  { intros r Hin. unfold representatives in Hin. apply in_map_iff in Hin.
    destruct Hin as [[k r'] [<- Hin]].
    destruct (representative_entries_sound _ _ _ _ Hin) as [H1 [H2 _]].
    simpl. split; [exact H1 | congruence]. }
  split.
  { intros r k Hin Hk.
    destruct (representative_entries_complete results [] r k Hin Hk) as [[]|Hk'].
    apply in_map_iff in Hk'. destruct Hk' as [[k' rep] [Hkk Hrep]]. simpl in Hkk. subst k'.
    exists rep. split.
    - unfold representatives. apply in_map_iff. exists (k, rep). split; [reflexivity | exact Hrep].
    - destruct (representative_entries_sound _ _ _ _ Hrep) as [_ [H2 _]]. exact H2. }
  split.
  { intros pre r post k Heq Hk Hpre. unfold representatives.
    apply in_map_iff. exists (k, r). split; [reflexivity|].
    eapply representative_entries_first; eauto. }
  split; [apply representative_entries_sublist|].
  split; [exact Hheap|].
  intros l Hnd. rewrite Hheap. apply fold_add_if_absent_nodup. exact Hnd.
Qed.

(** The claim about the unclassified results fails as stated: a virtual
    machine that no stage classified does not match the deny-list of the
    candidate check, yet the aggregator drops it; and a storage account
    classified through its tag gets no representative. *)
Lemma aggregator_uses_its_own_lists :
  matches_infrastructure build_vm = false
  /\ fst (_deduplicate_components [mk_result build_vm None None] ∅) = []
  /\ fst (_deduplicate_components
            [mk_result tagged_storage_account (Some transact_info) None] (<[0 := []]> ∅)) = [].
Proof. repeat split; vm_compute; reflexivity. Qed.

(** ** Infrastructure resources *)

Lemma analyze_batch_potential rag has_rag use_cache force_refresh l st r :
  In r (fst (analyze_batch rag has_rag use_cache force_refresh l st)) -> In (service r) l.
Proof.
  intros Hin. rewrite <- (analyze_batch_services rag has_rag use_cache force_refresh l st).
  apply in_map. exact Hin.
Qed.

(** Only resources that passed the candidate check get a description. *)
Lemma analyze_services_classified rag has_rag use_cache force_refresh services st r :
  In r (fst (analyze_services rag has_rag use_cache force_refresh services st)) ->
  component_info r <> None ->
  _is_potential_temenos_component (service r) = true.
Proof.
  unfold analyze_services.
  destruct (filter (fun s => _is_potential_temenos_component s = true) services)
    as [|p ps] eqn:E; [intros []|].
  rewrite analyze_batches_flat by lia.
  destruct (analyze_batch rag has_rag use_cache force_refresh (p :: ps) st) as [rs st1] eqn:Eb.
  cbn [fst]. intros Hin Hci. apply in_app_or in Hin. destruct Hin as [Hin|Hin].
  - assert (Hs : In (service r) (p :: ps)).
    { apply (analyze_batch_potential rag has_rag use_cache force_refresh _ st).
      rewrite Eb. exact Hin. }
    rewrite <- E in Hs. apply list_elem_of_In, list_elem_of_filter in Hs. apply Hs.
  - apply in_map_iff in Hin. destruct Hin as [x [<- _]]. simpl in Hci. congruence.
Qed.

Lemma is_potential_infrastructure s :
  matches_infrastructure s = true ->
  _is_potential_temenos_component s = has_component_tag s.
Proof.
  unfold matches_infrastructure, _is_potential_temenos_component. intros H.
  destruct (has_component_tag s); [reflexivity|]. rewrite H. reflexivity.
Qed.

(** C1 (in the form that holds): for a resource whose type matches the deny-list, the
    candidate check answers what the tag test answers: false without a
    truthy [temenosComponent] or [component] tag, true with one, whatever
    the name; and whatever is analysed, the aggregated output holds an
    entry for such a resource only if it carries such a tag, its type is
    also a pod type and it was given a description.  In particular a
    deny-listed resource without a component tag, or one that is no pod, is
    never reported, neither as a component nor among the other
    resources. *)
Theorem infrastructure_reported_only_when_tagged_pod
    (s : AzureResource.t) (Hinfra : matches_infrastructure s = true) :
  _is_potential_temenos_component s = has_component_tag s
  /\ forall rag has_rag use_cache force_refresh services st r,
      In r (fst (_deduplicate_components
                   (fst (analyze_services rag has_rag use_cache force_refresh services st))
                   (heap (snd (analyze_services rag has_rag use_cache force_refresh services st))))) ->
      service r = s ->
      has_component_tag s = true /\ is_pod_type s = true /\ component_info r <> None.
Proof.
  split; [apply is_potential_infrastructure; exact Hinfra|].
  intros rag has_rag use_cache force_refresh services st r Hin Hs.
  rewrite deduplicate_components_eq in Hin. cbn [fst] in Hin.
  pose proof (infrastructure_is_aggregator_infrastructure s Hinfra) as Hagg.
  apply in_app_or in Hin. destruct Hin as [Hin|Hin].
  - unfold representatives in Hin. apply in_map_iff in Hin.
    destruct Hin as [[k r'] [Hr Hin]]. simpl in Hr. subst r'.
    destruct (representative_entries_sound _ _ _ _ Hin) as [Hres [Hk _]].
    apply key_of_Some in Hk. destruct Hk as [l Hkl].
    pose proof Hkl as Hkl'. apply key_and_list_info in Hkl'.
    destruct Hkl' as [info [Hci _]].
    assert (Hpod : is_pod_type s = true).
    { unfold key_and_list in Hkl. rewrite Hci in Hkl. unfold grouping_key in Hkl.
      rewrite Hs in Hkl. unfold is_pod_type.
      destruct (Str.contains "managedclusters/pods" (Str.lower (AzureResource.type s)));
        [reflexivity|].
      rewrite Hagg in Hkl. discriminate. }
    assert (Hne : component_info r <> None) by congruence.
    pose proof (analyze_services_classified _ _ _ _ _ _ _ Hres Hne) as Hpot.
    rewrite Hs, (is_potential_infrastructure s Hinfra) in Hpot.
    auto.
  - unfold reported_set_aside in Hin.
    apply list_elem_of_In, list_elem_of_filter in Hin. destruct Hin as [Hnoise _].
    unfold is_noise in Hnoise. rewrite Hs in Hnoise.
    rewrite (aggregator_infrastructure_is_noise _ Hagg) in Hnoise. discriminate.
Qed.

Lemma infrastructure_reported_only_when_tagged_pod_witness :
  _is_potential_temenos_component storage_account = has_component_tag storage_account
  /\ forall rag has_rag use_cache force_refresh services st r,
      In r (fst (_deduplicate_components
                   (fst (analyze_services rag has_rag use_cache force_refresh services st))
                   (heap (snd (analyze_services rag has_rag use_cache force_refresh services st))))) ->
      service r = storage_account ->
      has_component_tag storage_account = true /\ is_pod_type storage_account = true
      /\ component_info r <> None.
Proof.
  apply (infrastructure_reported_only_when_tagged_pod storage_account).
  vm_compute. reflexivity.
Defined.

(** The candidate check does not reject every deny-listed resource: a
    storage account with a [component] tag passes, because the tag test
    comes first. *)
Lemma tagged_storage_account_is_candidate :
  matches_infrastructure tagged_storage_account = true
  /\ _is_potential_temenos_component tagged_storage_account = true.
Proof. split; vm_compute; reflexivity. Qed.

(** ** Enrichment and its cache *)

Section EnrichmentFacts.
Variable rag : rag_service.
Variable has_rag : bool.

(** What building a new description does to the state: at most the two
    queries are issued; the store changes only at the fresh location; a
    description that is returned has the requested name, owns the fresh,
    empty list and, with caching, is the cache entry of the key; when an
    exception is raised the cache is left as it was. *)
Lemma fetch_component_effect service name category key use_cache st res st' :
  fetch_component rag has_rag service name category key use_cache st = (res, st') ->
  length (rag_log st') <= length (rag_log st) + 2
  /\ (has_rag = false -> rag_log st' = rag_log st)
  /\ next_loc st <= next_loc st'
  /\ (forall l, l < next_loc st -> heap st' !! l = heap st !! l)
  /\ match res with
     | Ret info =>
         component_name info = name
         /\ related_services info = next_loc st
         /\ heap st' !! next_loc st = Some []
         /\ next_loc st' = S (next_loc st)
         /\ _component_cache st'
            = (if use_cache then <[key := info]> (_component_cache st)
               else _component_cache st)
     | Raise _ => _component_cache st' = _component_cache st /\ has_rag = true
     end.
Proof.
  unfold fetch_component. destruct has_rag.
  - cbn [negb query_rag rag_log _component_cache heap next_loc].
    set (o1 := rag (length (rag_log st)) _).
    set (o2 := rag (length (_ :: rag_log st)) _).
    destruct (answer_text (guarded_response o1)) as [t1|e1].
    + destruct (answer_text (guarded_response o2)) as [t2|e2].
      * intros [= <- <-]. unfold remember, set_cache, alloc_list.
        destruct use_cache; simpl; repeat split; try lia; try discriminate;
          try (intros l Hl; apply lookup_insert_ne; lia);
          try apply lookup_insert_eq.
      * intros [= <- <-]. simpl. repeat split; try lia; try discriminate; auto.
    + intros [= <- <-]. simpl. repeat split; try lia; try discriminate; auto.
  - cbn [negb]. intros [= <- <-]. unfold remember, set_cache, alloc_list.
    destruct use_cache; simpl; repeat split; try lia;
      try (intros l Hl; apply lookup_insert_ne; lia);
      try apply lookup_insert_eq.
Qed.

(** How [identify_component] goes for a candidate with a canonical name,
    with caching and without forced refresh. *)
Lemma identify_component_cached service extracted st :
  _is_potential_temenos_component service = true ->
  _extract_component_name service = Some extracted ->
  identify_component rag has_rag service true false st =
  let name := normalizedName extracted in
  let key := Str.lower name in
  let fetch st0 :=
    match fetch_component rag has_rag service name (componentCategory extracted)
            key true st0 with
    | (Ret info, st1) => (Some info, st1)
    | (Raise _, st1) => (None, st1)
    end in
  match _component_cache st !! key with
  | Some cached =>
      if is_minimal name cached && has_rag
      then fetch (set_cache (delete key (_component_cache st)) st)
      else (Some (cached_copy service cached), st)
  | None => fetch st
  end.
Proof.
  intros Hpot Hex. unfold identify_component, identify_component_body.
  rewrite Hpot, Hex. cbn [negb andb].
  destruct (_component_cache st !! Str.lower (normalizedName extracted)) as [cached|].
  - destruct (is_minimal (normalizedName extracted) cached && has_rag); [|reflexivity].
    destruct (fetch_component _ _ _ _ _ _ _ _) as [[info|e] st1]; reflexivity.
  - destruct (fetch_component _ _ _ _ _ _ _ _) as [[info|e] st1]; reflexivity.
Qed.

(** A description comes only from a candidate that has a canonical name. *)
Lemma identify_component_some service use_cache force_refresh st info st' :
  identify_component rag has_rag service use_cache force_refresh st = (Some info, st') ->
  _is_potential_temenos_component service = true
  /\ exists extracted, _extract_component_name service = Some extracted.
Proof.
  unfold identify_component, identify_component_body.
  destruct (_is_potential_temenos_component service); [|discriminate].
  destruct (_extract_component_name service) as [e|]; [|discriminate].
  intros _. split; [reflexivity | exists e; reflexivity].
Qed.

(** C4 (in the form that holds): two resources with the same canonical name up to
    case, identified one after the other on the same instance with caching
    and without forced refresh.  If the first call yields a description
    and that description is not taken for a stale minimal one (its
    architectural text does not start with the minimal sentence for the
    second name, or has 500 characters or more, or the knowledge service is
    not usable), then the second call sends no query and changes nothing:
    it returns the copy of the cache entry, which shares the list of the
    first description, and both calls together send at most one pair of
    queries. *)
Theorem second_identification_is_cached
    (s1 s2 : AzureResource.t) (e1 e2 : extracted_info) (st : state)
    (info1 : TemenosComponentInfo)
    (Hex1 : _extract_component_name s1 = Some e1)
    (Hpot2 : _is_potential_temenos_component s2 = true)
    (Hex2 : _extract_component_name s2 = Some e2)
    (Hname : Str.lower (normalizedName e1) = Str.lower (normalizedName e2))
    (Hfirst : fst (identify_component rag has_rag s1 true false st) = Some info1)
    (Hfresh : is_minimal (normalizedName e2) info1 && has_rag = false) :
  let st1 := snd (identify_component rag has_rag s1 true false st) in
  snd (identify_component rag has_rag s2 true false st1) = st1
  /\ length (rag_log (snd (identify_component rag has_rag s2 true false st1)))
     <= length (rag_log st) + 2
  /\ exists cached,
      _component_cache st1 !! Str.lower (normalizedName e2) = Some cached
      /\ fst (identify_component rag has_rag s2 true false st1)
         = Some (cached_copy s2 cached)
      /\ related_services cached = related_services info1
      /\ architectural_overview cached = architectural_overview info1
      /\ functional_overview cached = functional_overview info1.
Proof.
  intros st1.
  destruct (identify_component rag has_rag s1 true false st) as [r1 st1'] eqn:E1.
  simpl in Hfirst. subst r1. subst st1. cbn [snd].
  destruct (identify_component_some _ _ _ _ _ _ E1) as [Hpot1 _].
  rewrite (identify_component_cached s1 e1 st Hpot1 Hex1) in E1. cbn zeta in E1.
  assert (Hhit : forall cached,
    _component_cache st1' !! Str.lower (normalizedName e2) = Some cached ->
    architectural_overview cached = architectural_overview info1 ->
    identify_component rag has_rag s2 true false st1' = (Some (cached_copy s2 cached), st1')).
  { intros cached Hc Harch.
    rewrite (identify_component_cached s2 e2 st1' Hpot2 Hex2). cbn zeta.
    rewrite Hc.
    assert (Hm : is_minimal (normalizedName e2) cached = is_minimal (normalizedName e2) info1)
      by (unfold is_minimal; rewrite Harch; reflexivity).
    rewrite Hm, Hfresh. reflexivity. }
  assert (Hfetch : forall st0,
    rag_log st0 = rag_log st ->
    match fetch_component rag has_rag s1 (normalizedName e1) (componentCategory e1)
            (Str.lower (normalizedName e1)) true st0 with
    | (Ret info, st2) => (Some info, st2)
    | (Raise _, st2) => (None, st2)
    end = (Some info1, st1') ->
    _component_cache st1' !! Str.lower (normalizedName e2) = Some info1
    /\ length (rag_log st1') <= length (rag_log st) + 2).
  { intros st0 Hlog Hf.
    destruct (fetch_component rag has_rag s1 _ _ _ true st0) as [[info|e] st2] eqn:Ef;
      [|discriminate].
    injection Hf as -> ->.
    destruct (fetch_component_effect _ _ _ _ _ _ _ _ Ef) as [Hlen [_ [_ [_ Hres]]]].
    destruct Hres as [_ [_ [_ [_ Hcache]]]].
    rewrite Hcache, <- Hname, lookup_insert_eq, <- Hlog. auto. }
  destruct (_component_cache st !! Str.lower (normalizedName e1)) as [cached|] eqn:Ec.
  - destruct (is_minimal (normalizedName e1) cached && has_rag).
    + destruct (Hfetch (set_cache (delete (Str.lower (normalizedName e1))
                                     (_component_cache st)) st) eq_refl E1)
        as [Hc Hlen].
      rewrite (Hhit info1 Hc eq_refl). cbn [fst snd].
      split; [reflexivity|]. split; [exact Hlen|].
      exists info1. auto.
    + injection E1 as <- <-.
      rewrite Hname in Ec.
      rewrite (Hhit cached Ec eq_refl). cbn [fst snd].
      split; [reflexivity|]. split; [lia|].
      exists cached. auto.
  - destruct (Hfetch st eq_refl E1) as [Hc Hlen].
    rewrite (Hhit info1 Hc eq_refl). cbn [fst snd].
    split; [reflexivity|]. split; [exact Hlen|].
    exists info1. auto.
Qed.
End EnrichmentFacts.

Lemma second_identification_is_cached_witness :
  let st1 := snd (identify_component rag_times_out true (adapter_pod "pod-a")
                    true false initial_state) in
  snd (identify_component rag_times_out true (adapter_pod "pod-b") true false st1) = st1
  /\ length (rag_log (snd (identify_component rag_times_out true (adapter_pod "pod-b")
                             true false st1)))
     <= length (rag_log initial_state) + 2
  /\ exists cached,
      _component_cache st1 !! Str.lower (normalizedName (adapter_extracted "pod-b"))
        = Some cached
      /\ fst (identify_component rag_times_out true (adapter_pod "pod-b") true false st1)
         = Some (cached_copy (adapter_pod "pod-b") cached)
      /\ related_services cached = related_services timed_out_adapter_info
      /\ architectural_overview cached = architectural_overview timed_out_adapter_info
      /\ functional_overview cached = functional_overview timed_out_adapter_info.
Proof.
  apply (second_identification_is_cached rag_times_out true
           (adapter_pod "pod-a") (adapter_pod "pod-b")
           (adapter_extracted "pod-a") (adapter_extracted "pod-b")
           initial_state timed_out_adapter_info);
    vm_compute; reflexivity.
Defined.

(** The claim fails as stated: when the architectural answer cached by the
    first call reads like the minimal description (it starts with the
    minimal sentence and is shorter than 500 characters) and the knowledge
    service is usable, the second call drops the entry and sends its own
    pair of queries, four queries in all. *)
Lemma minimal_looking_answer_is_fetched_again :
  let first := identify_component rag_minimal_looking true (adapter_pod "pod-a")
                 true false initial_state in
  let second := identify_component rag_minimal_looking true (adapter_pod "pod-b")
                  true false (snd first) in
  option_map normalizedName (_extract_component_name (adapter_pod "pod-a"))
    = option_map normalizedName (_extract_component_name (adapter_pod "pod-b"))
  /\ option_map component_name (fst first) = Some "Adapter Microservice"
  /\ length (rag_log (snd first)) = 2
  /\ length (rag_log (snd second)) = 4.
Proof. repeat split; vm_compute; reflexivity. Qed.

(** ** Sharing of the related-services list *)

Lemma length_append (a b : string) :
  String.length (a +:+ b) = String.length a + String.length b.
Proof.
  induction a as [|c a IH]; [reflexivity|].
  rewrite append_cons. simpl. rewrite IH. reflexivity.
Qed.

Lemma startswith_length p t :
  Str.startswith p t = true -> String.length p <= String.length t.
Proof.
  unfold Str.startswith. rewrite prefix_iff. intros [r ->].
  rewrite length_append. lia.
Qed.

Lemma looks_minimal_long name text :
  500 <= String.length text -> looks_minimal name text = false.
Proof.
  intros H. unfold looks_minimal.
  destruct (Nat.ltb_spec (String.length text) 500); [lia|].
  apply andb_false_r.
Qed.

Lemma looks_minimal_short name text :
  String.length text < 45 -> looks_minimal name text = false.
Proof.
  intros H. unfold looks_minimal.
  destruct (Str.startswith (minimal_prefix name) text) eqn:E; [|reflexivity].
  apply startswith_length in E. unfold minimal_prefix in E.
  rewrite length_append in E. simpl in E. lia.
Qed.

Lemma looks_minimal_fallback name component :
  looks_minimal name (architectural_fallback component) = false.
Proof.
  apply looks_minimal_long. unfold architectural_fallback.
  rewrite length_append.
  match goal with |- _ <= _ + String.length ?lit =>
    let n := eval vm_compute in (String.length lit) in
    change (String.length lit) with n
  end. lia.
Qed.

Lemma is_minimal_looks name info :
  is_minimal name info = looks_minimal name (architectural_overview info).
Proof. reflexivity. Qed.

Section Sharing.
Variable rag : rag_service.
Variable has_rag : bool.
Hypothesis Hkeep : has_rag = false \/ never_looks_minimal rag.

(** A description that was just built is never taken for a stale one. *)
Lemma fetched_is_not_minimal service name category key use_cache st info st' :
  fetch_component rag has_rag service name category key use_cache st = (Ret info, st') ->
  forall name', is_minimal name' info && has_rag = false.
Proof.
  intros Hf name'. destruct Hkeep as [->|Hnever]; [apply andb_false_r|].
  destruct has_rag; [|apply andb_false_r]. rewrite andb_true_r.
  unfold fetch_component in Hf.
  cbn [negb query_rag rag_log _component_cache heap next_loc] in Hf.
  set (q1 := mk_query (_build_architectural_query name category) "global"
               "ModularBanking, TechnologyOverview" rag_context) in Hf.
  destruct (rag (length (rag_log st)) q1) as [[[s1|]| |]| |] eqn:Eo;
    cbn [guarded_response answer_text] in Hf;
    try discriminate;
    (destruct (answer_text _) as [t2|e2] in Hf; [|discriminate]);
    injection Hf as <- _; rewrite is_minimal_looks;
    cbn [rag_info architectural_overview].
  - destruct (is_one_of (_format_rag_response s1) [not_available; not_available_timeout]).
    + apply looks_minimal_fallback.
    + apply (Hnever (length (rag_log st)) q1); [reflexivity | exact Eo].
  - apply looks_minimal_fallback.
  - apply looks_minimal_short. vm_compute. lia.
  - apply looks_minimal_fallback.
  - apply looks_minimal_short. vm_compute. lia.
Qed.

(** One identification keeps the cache in order, keeps its entries, and
    hands out a description that shares its list with the cache. *)
Lemma identify_component_keeps_cache service st r st' :
  cache_ok has_rag st ->
  identify_component rag has_rag service true false st = (r, st') ->
  cache_ok has_rag st'
  /\ (forall key cached, _component_cache st !! key = Some cached ->
                         _component_cache st' !! key = Some cached)
  /\ forall info, r = Some info ->
       exists cached,
         _component_cache st' !! Str.lower (component_name info) = Some cached
         /\ related_services cached = related_services info.
Proof.
  intros Hok Hid.
  destruct (_is_potential_temenos_component service) eqn:Hpot.
  2:{ unfold identify_component, identify_component_body in Hid. rewrite Hpot in Hid.
      injection Hid as <- <-. split; [exact Hok|]. split; [auto | discriminate]. }
  destruct (_extract_component_name service) as [e|] eqn:Hex.
  2:{ unfold identify_component, identify_component_body in Hid. rewrite Hpot, Hex in Hid.
      injection Hid as <- <-. split; [exact Hok|]. split; [auto | discriminate]. }
  rewrite (identify_component_cached rag has_rag service e st Hpot Hex) in Hid.
  cbn zeta in Hid.
  destruct (_component_cache st !! Str.lower (normalizedName e)) as [cached|] eqn:Ec.
  - destruct (Hok _ _ Ec) as [Hkey Hmin]. rewrite Hmin in Hid.
    injection Hid as <- <-. split; [exact Hok|]. split; [auto|].
    intros info [= <-]. exists cached. cbn [cached_copy component_name related_services].
    rewrite Hkey. auto.
  - destruct (fetch_component rag has_rag service (normalizedName e) (componentCategory e)
                (Str.lower (normalizedName e)) true st) as [[info|ex] st1] eqn:Ef;
      injection Hid as <- <-;
      destruct (fetch_component_effect _ _ _ _ _ _ _ _ _ _ Ef) as [_ [_ [_ [_ Hres]]]].
    + destruct Hres as [Hname [_ [_ [_ Hcache]]]].
      split.
      { intros key c. rewrite Hcache, lookup_insert.
        destruct (decide (Str.lower (normalizedName e) = key)) as [<-|Hne].
        - intros [= <-]. split; [rewrite Hname; reflexivity|].
          eapply fetched_is_not_minimal; exact Ef.
        - apply Hok. }
      split.
      { intros key c Hc. rewrite Hcache, lookup_insert_ne; [exact Hc|].
        intros <-. congruence. }
      intros info' [= <-]. exists info. rewrite Hcache, Hname, lookup_insert_eq. auto.
    + destruct Hres as [Hcache _].
      split; [intros key c; rewrite Hcache; apply Hok|].
      split; [intros key c; rewrite Hcache; auto | discriminate].
Qed.

Lemma analyze_batch_keeps_cache l :
  forall st rs st',
    cache_ok has_rag st ->
    analyze_batch rag has_rag true false l st = (rs, st') ->
    cache_ok has_rag st'
    /\ (forall key cached, _component_cache st !! key = Some cached ->
                           _component_cache st' !! key = Some cached)
    /\ results_ok st' rs.
Proof.
  induction l as [|s l IH]; intros st rs st' Hok Hb.
  - injection Hb as <- <-. split; [exact Hok|]. split; [auto|]. intros r info [].
  - cbn [analyze_batch] in Hb. unfold analyze_one in Hb.
    destruct (identify_component rag has_rag s true false st) as [ci st1] eqn:Eid.
    destruct (analyze_batch rag has_rag true false l st1) as [rs1 st2] eqn:Eb.
    injection Hb as <- <-.
    destruct (identify_component_keeps_cache _ _ _ _ Hok Eid) as [Hok1 [Hmono1 Hshare]].
    destruct (IH _ _ _ Hok1 Eb) as [Hok2 [Hmono2 Hres]].
    split; [exact Hok2|]. split; [auto|].
    intros r info [<-|Hin] Hci.
    + simpl in Hci. destruct (Hshare info Hci) as [c [Hc Hl]].
      exists c. split; [apply Hmono2; exact Hc | exact Hl].
    + eapply Hres; eassumption.
Qed.

Lemma analyze_services_share services :
  results_ok (snd (analyze_services rag has_rag true false services initial_state))
    (fst (analyze_services rag has_rag true false services initial_state)).
Proof.
  unfold analyze_services.
  destruct (filter (fun s => _is_potential_temenos_component s = true) services)
    as [|p ps] eqn:E; [intros r info []|].
  rewrite analyze_batches_flat by lia.
  destruct (analyze_batch rag has_rag true false (p :: ps) initial_state) as [rs st1] eqn:Eb.
  assert (Hinit : cache_ok has_rag initial_state).
  { intros key c Hc. simpl in Hc. rewrite lookup_empty in Hc. discriminate. }
  destruct (analyze_batch_keeps_cache _ _ _ _ Hinit Eb) as [_ [_ Hres]].
  cbn [fst snd]. intros r info Hin Hci. apply in_app_or in Hin.
  destruct Hin as [Hin|Hin]; [eapply Hres; eassumption|].
  apply in_map_iff in Hin. destruct Hin as [x [<- _]]. discriminate.
Qed.
End Sharing.

(** The aggregator only returns results it was given. *)
Lemma deduplicate_components_subset results h r :
  In r (fst (_deduplicate_components results h)) -> In r results.
Proof.
  rewrite deduplicate_components_eq. cbn [fst]. intros Hin.
  apply in_app_or in Hin. destruct Hin as [Hin|Hin].
  - unfold representatives in Hin. apply in_map_iff in Hin.
    destruct Hin as [[k r'] [<- Hin]].
    destruct (representative_entries_sound _ _ _ _ Hin) as [H _]. exact H.
  - unfold reported_set_aside, set_aside in Hin.
    apply list_elem_of_In, list_elem_of_filter in Hin. destruct Hin as [_ Hin].
    apply list_elem_of_filter in Hin. destruct Hin as [_ Hin].
    apply list_elem_of_In. exact Hin.
Qed.

(** C10 (in the form that holds): in a run with caching and without forced refresh,
    provided no cache entry is dropped as stale (the knowledge service is
    not usable, or none of its architectural answers reads like the
    minimal description), any two results of the aggregated output whose
    descriptions have the same canonical name up to case refer to one and
    the same related-services list, whatever their grouping keys are; so
    they are sent back with equal related-services contents, and a name
    merged under either key shows in both. *)
Theorem cache_hits_share_related_services
    (rag : rag_service) (has_rag : bool) (services : list AzureResource.t)
    (Hkeep : has_rag = false \/ never_looks_minimal rag)
    (r1 r2 : TemenosAnalysisResult) (info1 info2 : TemenosComponentInfo) :
  let run := analyze_services rag has_rag true false services initial_state in
  let out := _deduplicate_components (fst run) (heap (snd run)) in
  In r1 (fst out) -> In r2 (fst out) ->
  component_info r1 = Some info1 -> component_info r2 = Some info2 ->
  Str.lower (component_name info1) = Str.lower (component_name info2) ->
  related_services info1 = related_services info2
  /\ Json.relatedServices (component_to_dict (snd out) info1)
     = Json.relatedServices (component_to_dict (snd out) info2).
Proof.
  intros run out Hin1 Hin2 Hci1 Hci2 Hname.
  apply deduplicate_components_subset in Hin1, Hin2.
  destruct (analyze_services_share rag has_rag Hkeep services r1 info1 Hin1 Hci1)
    as [c1 [Hc1 Hl1]].
  destruct (analyze_services_share rag has_rag Hkeep services r2 info2 Hin2 Hci2)
    as [c2 [Hc2 Hl2]].
  rewrite Hname in Hc1. rewrite Hc1 in Hc2. injection Hc2 as <-.
  assert (Heq : related_services info1 = related_services info2) by congruence.
  split; [exact Heq|]. cbn [component_to_dict Json.relatedServices]. rewrite Heq. reflexivity.
Qed.

Lemma looks_minimal_without_sentence name text :
  Str.contains " is a Temenos microservice component deployed" text = false ->
  looks_minimal name text = false.
Proof.
  intros Hno. unfold looks_minimal.
  destruct (Str.startswith (minimal_prefix name) text) eqn:E; [|reflexivity].
  assert (Hc : Str.contains " is a Temenos microservice component deployed" text = true);
    [|congruence].
  apply (contains_trans _ (minimal_prefix name)).
  - apply contains_iff. exists name, "". unfold minimal_prefix.
    reflexivity.
  - apply contains_iff. unfold Str.startswith in E. apply prefix_iff in E.
    destruct E as [r ->]. exists "", r. reflexivity.
Qed.

Lemma rag_architecture_fails_never_looks_minimal :
  never_looks_minimal rag_architecture_fails.
Proof.
  intros n q s name _ H. destruct n as [|n]; [discriminate H|].
  injection H as <-. apply looks_minimal_without_sentence. vm_compute. reflexivity.
Qed.

Lemma cache_hits_share_related_services_witness :
  related_services failed_adapter_info
  = related_services (cached_copy (adapter_dash_pod "pod-c") failed_adapter_info)
  /\ Json.relatedServices
       (component_to_dict
          (snd (_deduplicate_components
                  (fst (analyze_services rag_architecture_fails true true false
                          two_adapter_namespaces initial_state))
                  (heap (snd (analyze_services rag_architecture_fails true true false
                                two_adapter_namespaces initial_state)))))
          failed_adapter_info)
     = Json.relatedServices
         (component_to_dict
            (snd (_deduplicate_components
                    (fst (analyze_services rag_architecture_fails true true false
                            two_adapter_namespaces initial_state))
                    (heap (snd (analyze_services rag_architecture_fails true true false
                                  two_adapter_namespaces initial_state)))))
            (cached_copy (adapter_dash_pod "pod-c") failed_adapter_info)).
Proof.
  apply (cache_hits_share_related_services rag_architecture_fails true
           two_adapter_namespaces
           (or_intror rag_architecture_fails_never_looks_minimal)
           adapter_representative adapter_dash_representative
           failed_adapter_info
           (cached_copy (adapter_dash_pod "pod-c") failed_adapter_info)).
  - vm_compute. left. reflexivity.
  - vm_compute. right. left. reflexivity.
  - reflexivity.
  - reflexivity.
  - reflexivity.
Defined.

(** With cache hits the two namespaces of the adapter show the same list,
    which holds the later pods of both. *)
Example adapter_namespaces_share_their_list :
  map summary (aggregated rag_times_out true false two_adapter_namespaces)
  = [ ("adapterservice/pod-a",
       Some ("Adapter Microservice", ["adapterservice/pod-b"; "adapter-service/pod-d"]));
      ("adapter-service/pod-c",
       Some ("Adapter Microservice", ["adapterservice/pod-b"; "adapter-service/pod-d"])) ].
Proof. vm_compute. reflexivity. Qed.

(** The claim fails as stated: with caching on and no forced refresh, when
    the architectural answers read like the minimal description every
    call drops the cache entry and builds a new description with a list of
    its own, and the representatives of the two namespaces, though they
    have the same canonical name, carry different related services. *)
Lemma stale_entries_do_not_share :
  map summary (aggregated rag_minimal_looking true false two_adapter_namespaces)
  = [ ("adapterservice/pod-a", Some ("Adapter Microservice", ["adapterservice/pod-b"]));
      ("adapter-service/pod-c", Some ("Adapter Microservice", ["adapter-service/pod-d"])) ].
Proof. vm_compute. reflexivity. Qed.

(** ** Three pods of one namespace *)

Section TextAnswers.
Variable rag : rag_service.
Variable has_rag : bool.
Hypothesis Htext : has_rag = false \/ answers_are_text rag.

Lemma guarded_answer_is_text n q :
  answers_are_text rag -> exists t, answer_text (guarded_response (rag n q)) = Ret t.
Proof.
  intros H. specialize (H n q).
  destruct (rag n q) as [[[t|]| |]| |]; cbn; eauto. contradiction.
Qed.

(** With text answers a description is always built. *)
Lemma fetch_component_returns service name category key use_cache st :
  exists info st',
    fetch_component rag has_rag service name category key use_cache st = (Ret info, st').
Proof.
  unfold fetch_component. destruct Htext as [->|Ht]; [cbn; eauto|].
  destruct has_rag; [|cbn; eauto].
  cbn [negb query_rag rag_log _component_cache heap next_loc].
  destruct (guarded_answer_is_text (length (rag_log st))
              (mk_query (_build_architectural_query name category) "global"
                 "ModularBanking, TechnologyOverview" rag_context) Ht) as [t1 ->].
  destruct (guarded_answer_is_text
              (length (mk_query (_build_architectural_query name category) "global"
                         "ModularBanking, TechnologyOverview" rag_context :: rag_log st))
              (mk_query (_build_functional_query name category) "global"
                 "ModularBanking, FuncTransactGeneric" rag_context) Ht) as [t2 ->].
  cbn. eauto.
Qed.

(** Identification of a candidate with canonical name [name], with
    caching: a description with that name is returned, the store below the
    allocation counter is left alone, and when the cache is not consulted
    or has no entry the description owns a fresh, empty list. *)
Lemma identify_component_named service extracted name force_refresh st :
  _is_potential_temenos_component service = true ->
  _extract_component_name service = Some extracted ->
  normalizedName extracted = name ->
  cache_names name st ->
  exists info st',
    identify_component rag has_rag service true force_refresh st = (Some info, st')
    /\ component_name info = name
    /\ cache_names name st'
    /\ next_loc st <= next_loc st'
    /\ (forall l, l < next_loc st -> heap st' !! l = heap st !! l)
    /\ (_component_cache st !! Str.lower name = None ->
        related_services info = next_loc st
        /\ heap st' !! next_loc st = Some []
        /\ next_loc st' = S (next_loc st)).
Proof.
  intros Hpot Hex Hname Hinv.
  unfold identify_component, identify_component_body.
  rewrite Hpot, Hex, Hname. cbn [negb andb].
  assert (Hfetch : forall st0,
    heap st0 = heap st -> next_loc st0 = next_loc st ->
    exists info st',
      match (let (p, st1) := fetch_component rag has_rag service name
                               (componentCategory extracted) (Str.lower name) true st0 in
             match p with
             | Ret component_info => (Ret (Some component_info), st1)
             | Raise e => (Raise e, st1)
             end) with
      | (Ret r, st1) => (r, st1)
      | (Raise _, st1) => (None, st1)
      end = (Some info, st')
      /\ component_name info = name
      /\ cache_names name st'
      /\ next_loc st <= next_loc st'
      /\ (forall l, l < next_loc st -> heap st' !! l = heap st !! l)
      /\ related_services info = next_loc st
      /\ heap st' !! next_loc st = Some []
      /\ next_loc st' = S (next_loc st)).
  { intros st0 Hh Hn.
    destruct (fetch_component_returns service name (componentCategory extracted)
                (Str.lower name) true st0) as [info [st' Ef]].
    rewrite Ef. exists info, st'.
    destruct (fetch_component_effect _ _ _ _ _ _ _ _ _ _ Ef)
      as [_ [_ [Hle [Hheap [Hn' [Hl [Hfresh [Hnext Hcache]]]]]]]].
    rewrite Hh, Hn in *.
    split; [reflexivity|]. split; [exact Hn'|].
    split.
    { intros c. rewrite Hcache, lookup_insert_eq. intros [= <-]. exact Hn'. }
    repeat split; auto. }
  destruct force_refresh; cbn [negb].
  - destruct (Hfetch st eq_refl eq_refl) as [info [st' H]].
    exists info, st'. intuition.
  - destruct (_component_cache st !! Str.lower name) as [cached|] eqn:Ec.
    + destruct (is_minimal name cached && has_rag).
      * destruct (Hfetch (set_cache (delete (Str.lower name) (_component_cache st)) st)
                    eq_refl eq_refl) as [info [st' H]].
        exists info, st'. intuition; discriminate.
      * exists (cached_copy service cached), st.
        split; [reflexivity|]. split; [exact (Hinv cached Ec)|].
        split; [exact Hinv|]. split; [lia|]. split; [auto | discriminate].
    + destruct (Hfetch st eq_refl eq_refl) as [info [st' H]].
      exists info, st'. intuition.
Qed.
End TextAnswers.

Lemma adapter_pod_key pod info err :
  key_and_list (mk_result (adapter_pod pod) (Some info) err)
  = Some ("adapterservice", related_services info).
Proof. reflexivity. Qed.

(** The batch analysis of the three pods: three descriptions named after
    the adapter, the first of which owns the list at location 0, still
    empty at the end. *)
Lemma three_adapter_pods_analysed rag has_rag force_refresh :
  has_rag = false \/ answers_are_text rag ->
  exists ia ib ic st,
    analyze_services rag has_rag true force_refresh three_adapter_pods initial_state
    = ([ mk_result (adapter_pod "pod-a") (Some ia) None;
         mk_result (adapter_pod "pod-b") (Some ib) None;
         mk_result (adapter_pod "pod-c") (Some ic) None ], st)
    /\ component_name ia = "Adapter Microservice"
    /\ related_services ia = 0
    /\ heap st !! 0 = Some [].
Proof.
  intros Htext. unfold analyze_services.
  assert (Hpot : filter (fun s => _is_potential_temenos_component s = true)
                   three_adapter_pods = three_adapter_pods) by (vm_compute; reflexivity).
  assert (Hskip : filter (fun s => _is_potential_temenos_component s = false)
                    three_adapter_pods = []) by (vm_compute; reflexivity).
  rewrite Hpot, Hskip. unfold three_adapter_pods at 1.
  rewrite analyze_batches_flat by (simpl; lia).
  unfold three_adapter_pods. cbn [analyze_batch map]. unfold analyze_one.
  assert (Hinit : cache_names "Adapter Microservice" initial_state).
  { intros c Hc. simpl in Hc. rewrite lookup_empty in Hc. discriminate. }
  destruct (identify_component_named rag has_rag Htext (adapter_pod "pod-a")
              (adapter_extracted "pod-a") "Adapter Microservice" force_refresh
              initial_state) as [ia [st1 [E1 [Hn1 [Hc1 [Hle1 [Hh1 Hfresh1]]]]]]];
    [vm_compute; reflexivity | vm_compute; reflexivity | reflexivity | exact Hinit |].
  destruct (Hfresh1 (lookup_empty _)) as [Hl1 [Hz1 Hnext1]].
  destruct (identify_component_named rag has_rag Htext (adapter_pod "pod-b")
              (adapter_extracted "pod-b") "Adapter Microservice" force_refresh
              st1) as [ib [st2 [E2 [Hn2 [Hc2 [Hle2 [Hh2 _]]]]]]];
    [vm_compute; reflexivity | vm_compute; reflexivity | reflexivity | exact Hc1 |].
  destruct (identify_component_named rag has_rag Htext (adapter_pod "pod-c")
              (adapter_extracted "pod-c") "Adapter Microservice" force_refresh
              st2) as [ic [st3 [E3 [Hn3 [Hc3 [Hle3 [Hh3 _]]]]]]];
    [vm_compute; reflexivity | vm_compute; reflexivity | reflexivity | exact Hc2 |].
  rewrite E1, E2, E3. exists ia, ib, ic, st3.
  split; [reflexivity|]. split; [exact Hn1|]. split; [exact Hl1|].
  simpl in Hnext1, Hz1.
  rewrite Hh3 by lia. rewrite Hh2 by lia. exact Hz1.
Qed.

(** No cluster is found among pods, so nothing is added to them. *)
Lemma no_pods_for_three_adapter_pods env sub sel :
  fst (discover_for_analysis env sub three_adapter_pods sel) = [].
Proof.
  destruct (discover_for_analysis_pods env sub three_adapter_pods sel) as [H|H];
    [exact H | rewrite H; reflexivity].
Qed.

(** C2 (in the form that holds): the analyze operation applied to the three pods
    pod-a, pod-b and pod-c of the namespace adapterservice, as the pod
    adapter builds them, and nothing else, answers with exactly one
    result: the resource of pod-a with the canonical name "Adapter
    Microservice" and the related services "adapterservice/pod-b" and
    "adapterservice/pod-c", the display names of the two later pods (the
    adapter names a pod resource namespace/pod).  This holds for every
    request identifier, selection and refresh flag, whenever the knowledge
    service is not usable or its answers are text. *)
Theorem three_adapter_pods_give_one_component
    (env : analyze_env) (aid : option string) (sel : option (list string))
    (refresh : option bool)
    (Htext : knowledge_service_usable env = false
             \/ answers_are_text (knowledge_service env)) :
  exists response,
    fst (_analyze_services_impl env (mk_request three_adapter_pods aid sel refresh))
      = Ret response
    /\ map summary (Json.data response)
       = [ ("adapterservice/pod-a",
            Some ("Adapter Microservice",
                  ["adapterservice/pod-b"; "adapterservice/pod-c"])) ]
    /\ Json.count response = 1.
Proof.
  unfold _analyze_services_impl, _analyze_services_body.
  cbn [services selected_namespaces].
  assert (Hsub : subscription_of three_adapter_pods = Ret (Some "rg-temenos"))
    by (vm_compute; reflexivity).
  unfold three_adapter_pods at 1. fold three_adapter_pods.
  rewrite Hsub. cbn [Str.nonempty fst snd].
  rewrite no_pods_for_three_adapter_pods, app_nil_r.
  eexists. split; [reflexivity|].
  unfold respond. cbn [force_refresh].
  destruct (three_adapter_pods_analysed (knowledge_service env)
              (knowledge_service_usable env) (default false refresh) Htext)
    as [ia [ib [ic [st [Erun [Hname [Hloc Hempty]]]]]]].
  rewrite Erun.
  set (results := [mk_result (adapter_pod "pod-a") (Some ia) None;
                   mk_result (adapter_pod "pod-b") (Some ib) None;
                   mk_result (adapter_pod "pod-c") (Some ic) None]).
  pose proof (deduplicate_components_store results (heap st) 0) as Hheap.
  pose proof (f_equal fst (deduplicate_components_eq results (heap st))) as Hout.
  destruct (_deduplicate_components results (heap st)) as [out h'].
  cbn [fst snd] in Hout, Hheap.
  assert (Hreps : representatives results = [mk_result (adapter_pod "pod-a") (Some ia) None])
    by reflexivity.
  assert (Hrest : reported_set_aside results = []) by reflexivity.
  rewrite Hreps, Hrest in Hout. subst out.
  assert (Hmerged : merged_names [] 0 results
                    = ["adapterservice/pod-b"; "adapterservice/pod-c"]).
  { unfold results. cbn [merged_names]. rewrite !adapter_pod_key. cbn [list_of_key app].
    rewrite String.eqb_refl, Hloc. reflexivity. }
  assert (Hold : read_list (heap st) 0 = [])
    by exact (f_equal (default []) Hempty).
  rewrite Hmerged, Hold in Hheap. cbn in Hheap.
  cbn [map app Json.data Json.count length result_to_dict summary component_info
       option_map Json.componentInfo Json.service service component_to_dict
       Json.componentName Json.relatedServices].
  unfold summary, result_to_dict, component_to_dict.
  cbn [Json.service Json.componentInfo service component_info option_map
       Json.componentName Json.relatedServices].
  rewrite Hname, Hloc, Hheap. split; reflexivity.
Qed.

Lemma three_adapter_pods_give_one_component_witness :
  exists response,
    fst (_analyze_services_impl online_env (mk_request three_adapter_pods None None None))
      = Ret response
    /\ map summary (Json.data response)
       = [ ("adapterservice/pod-a",
            Some ("Adapter Microservice",
                  ["adapterservice/pod-b"; "adapterservice/pod-c"])) ]
    /\ Json.count response = 1.
Proof.
  apply (three_adapter_pods_give_one_component online_env None None None).
  right. intros [|n] q H; discriminate H.
Defined.

(** The claim fails as stated: the related services of the one result are
    not the bare pod names. *)
Lemma related_services_are_not_bare_pod_names :
  ~ exists response,
      fst (_analyze_services_impl offline_env
             (mk_request three_adapter_pods None None None)) = Ret response
      /\ map (fun r => snd (summary r)) (Json.data response)
         = [ Some ("Adapter Microservice", ["pod-b"; "pod-c"]) ].
Proof.
  intros [response [H1 H2]]. vm_compute in H1. injection H1 as <-.
  vm_compute in H2. discriminate H2.
Qed.

(** Pod resources written by hand under their bare pod names would give
    the bare names. *)
Example bare_pod_names_are_kept :
  map summary (aggregated rag_times_out false false
                 [bare_adapter_pod "pod-a"; bare_adapter_pod "pod-b"; bare_adapter_pod "pod-c"])
  = [ ("pod-a", Some ("Adapter Microservice", ["pod-b"; "pod-c"])) ].
Proof. vm_compute. reflexivity. Qed.

(** The exception left open by the statement on infrastructure is real: a
    tagged resource whose type string also holds the pod type is
    reported as a component. *)
Example tagged_infrastructure_pod_is_reported :
  matches_infrastructure tagged_storage_pod = true
  /\ map summary (aggregated rag_times_out false false [tagged_storage_pod])
     = [ ("stlogs/p", Some ("Transact", [])) ].
Proof. split; vm_compute; reflexivity. Qed.

(** * Further properties *)

(** ** Candidate check and pod resources *)

Lemma lower_ascii_idem (c : ascii) :
  Str.lower_ascii (Str.lower_ascii c) = Str.lower_ascii c.
Proof. destruct c as [[] [] [] [] [] [] [] []]; reflexivity. Qed.

Lemma lower_idem (s : string) : Str.lower (Str.lower s) = Str.lower s.
Proof.
  induction s as [|c s IH]; [reflexivity|].
  simpl. rewrite lower_ascii_idem, IH. reflexivity.
Qed.

(** X1: the candidate check accepts exactly the resources with a truthy
    [temenosComponent] or [component] tag and, among the others, those whose
    lower-cased type is off the deny-list and that are pods or have a
    lower-cased name containing a platform pattern.  Neither the list of
    relevant types nor the namespace of a pod changes the answer. *)
Theorem candidate_check_characterised (s : AzureResource.t) :
  _is_potential_temenos_component s
  = has_component_tag s
    || (negb (matches_infrastructure s)
        && (is_pod_type s
            || Str.contains_any temenos_patterns (Str.lower (AzureResource.name s)))).
Proof.
  unfold _is_potential_temenos_component, matches_infrastructure, is_pod_type.
  rewrite lower_idem.
  destruct (has_component_tag s); [reflexivity|].
  destruct (Str.contains_any infrastructure_types _); [reflexivity|].
  destruct (Str.contains "managedclusters/pods" _).
  - destruct (_ && _); reflexivity.
  - destruct (Str.contains_any temenos_patterns _);
      destruct (Str.contains_any relevant_types _); reflexivity.
Qed.





(** ** Names and categories *)

Lemma lstrip_no_leading_space (s : string) : starts_with_space (Str.lstrip s) = false.
Proof.
  induction s as [|c s IH]; [reflexivity|].
  simpl. destruct (Str.is_space c) eqn:E; [exact IH|]. simpl. exact E.
Qed.

Lemma lstrip_fixed (s : string) : starts_with_space s = false -> Str.lstrip s = s.
Proof. destruct s as [|c s]; [reflexivity|]. simpl. intros ->. reflexivity. Qed.

Lemma rstrip_no_leading_space (s : string) :
  starts_with_space s = false -> starts_with_space (Str.rstrip s) = false.
Proof.
  destruct s as [|c s]; [reflexivity|]. simpl. intros Hc.
  destruct (Str.rstrip s); [rewrite Hc|]; simpl; exact Hc.
Qed.

Lemma rstrip_idem (s : string) : Str.rstrip (Str.rstrip s) = Str.rstrip s.
Proof.
  induction s as [|c s IH]; [reflexivity|].
  cbn [Str.rstrip]. destruct (Str.rstrip s) as [|d u] eqn:E.
  - destruct (Str.is_space c) eqn:Hc; [reflexivity|].
    cbn [Str.rstrip]. rewrite Hc. reflexivity.
  - change (Str.rstrip (String c (String d u)))
      with (match Str.rstrip (String d u) with
            | EmptyString => if Str.is_space c then EmptyString else String c EmptyString
            | t' => String c t'
            end).
    rewrite IH. reflexivity.
Qed.

(** Stripping a stripped string changes nothing. *)
Lemma strip_idem (s : string) : Str.strip (Str.strip s) = Str.strip s.
Proof.
  unfold Str.strip.
  rewrite (lstrip_fixed (Str.rstrip (Str.lstrip s))).
  - apply rstrip_idem.
  - apply rstrip_no_leading_space, lstrip_no_leading_space.
Qed.

Lemma length_lstrip (s : string) : String.length (Str.lstrip s) <= String.length s.
Proof.
  induction s as [|c s IH]; [reflexivity|].
  simpl. destruct (Str.is_space c); simpl; lia.
Qed.

Lemma length_rstrip (s : string) : String.length (Str.rstrip s) <= String.length s.
Proof.
  induction s as [|c s IH]; [reflexivity|].
  cbn [Str.rstrip]. destruct (Str.rstrip s) as [|d u].
  - destruct (Str.is_space c); simpl; lia.
  - simpl in *. lia.
Qed.

Lemma length_strip (s : string) : String.length (Str.strip s) <= String.length s.
Proof.
  unfold Str.strip. pose proof (length_rstrip (Str.lstrip s)). pose proof (length_lstrip s). lia.
Qed.

(** X3: [_normalize_component_name] never returns the empty string, and its
    result has no leading or trailing white space. *)
Theorem normalized_name_is_clean (name : string) :
  Str.nonempty (_normalize_component_name name) = true
  /\ Str.strip (_normalize_component_name name) = _normalize_component_name name.
Proof.
  unfold _normalize_component_name.
  destruct (Str.nonempty (Str.strip _)) eqn:E.
  - split; [exact E | apply strip_idem].
  - split; reflexivity.
Qed.

Lemma normalize_nonempty (name : string) :
  Str.nonempty (_normalize_component_name name) = true.
Proof.
  unfold _normalize_component_name.
  destruct (Str.nonempty (Str.strip _)) eqn:E; [exact E | reflexivity].
Qed.

Lemma first_rule_usable table name r :
  forallb (fun r => Str.nonempty (rule_name r)
                    && (String.eqb (rule_category r) "core"
                        || String.eqb (rule_category r) "microservice")) table = true ->
  first_rule table name = Some r ->
  Str.nonempty (rule_name r) = true
  /\ (rule_category r = "core" \/ rule_category r = "microservice").
Proof.
  intros Hall Hf. unfold first_rule in Hf. apply find_some in Hf.
  rewrite forallb_forall in Hall. destruct Hf as [Hin _].
  specialize (Hall r Hin).
  rewrite andb_true_iff, orb_true_iff, !String.eqb_eq in Hall. exact Hall.
Qed.

Lemma namespace_pattern_match_nonempty ns n :
  namespace_pattern_match ns = Some n -> Str.nonempty n = true.
Proof.
  unfold namespace_pattern_match.
  repeat match goal with
         | |- context [if ?b then _ else _] => destruct b
         end;
    intros [= <-]; reflexivity.
Qed.

(** The classification a name leads to when no tag and no namespace
    decides. *)
Lemma by_name_usable display ty name e :
  match first_rule microservice_patterns name with
  | Some r => Some (mk_extracted display (rule_name r) (rule_category r))
  | None =>
      match first_rule component_patterns name with
      | Some r => Some (mk_extracted display (rule_name r) (rule_category r))
      | None =>
          if Str.contains "temenos" (Str.lower ty) || Str.contains "transact" (Str.lower ty)
          then Some (mk_extracted display (_normalize_component_name ty) "core")
          else None
      end
  end = Some e ->
  Str.nonempty (normalizedName e) = true
  /\ (componentCategory e = "core" \/ componentCategory e = "microservice").
Proof.
  destruct (first_rule microservice_patterns name) as [r|] eqn:E1.
  - intros [= <-]. simpl. apply (first_rule_usable microservice_patterns name r); [reflexivity | exact E1].
  - destruct (first_rule component_patterns name) as [r|] eqn:E2.
    + intros [= <-]. simpl. apply (first_rule_usable component_patterns name r); [reflexivity | exact E2].
    + destruct (_ || _); [|discriminate].
      intros [= <-]. simpl. split; [apply normalize_nonempty | left; reflexivity].
Qed.

Lemma categorize_cases name :
  _categorize_component name = "core" \/ _categorize_component name = "microservice".
Proof. unfold _categorize_component. destruct (Str.contains_any _ _); auto. Qed.

(** X4: whenever [_extract_component_name] classifies a resource, the
    canonical name is not empty and the category is [core] or
    [microservice]. *)
Theorem extracted_name_and_category (s : AzureResource.t) (e : extracted_info) :
  _extract_component_name s = Some e ->
  Str.nonempty (normalizedName e) = true
  /\ (componentCategory e = "core" \/ componentCategory e = "microservice").
Proof.
  unfold _extract_component_name.
  destruct (has_truthy (AzureResource.tags s) "temenosComponent").
  { intros [= <-]. simpl. split; [apply normalize_nonempty | apply categorize_cases]. }
  destruct (has_truthy (AzureResource.tags s) "component").
  { intros [= <-]. simpl. split; [apply normalize_nonempty | apply categorize_cases]. }
  cbv zeta.
  destruct (Str.contains "managedclusters/pods" _); [|apply by_name_usable].
  destruct (pod_namespace_and_name s) as [namespace pod_name].
  assert (Hns : forall n,
            Str.nonempty n = true ->
            Some (mk_extracted pod_name n
                    (if Str.contains "Microservice" n then "microservice" else "core")) = Some e ->
            Str.nonempty (normalizedName e) = true
            /\ (componentCategory e = "core" \/ componentCategory e = "microservice")).
  { intros n Hn [= <-]. simpl. split; [exact Hn|].
    destruct (Str.contains "Microservice" n); auto. }
  destruct (Str.nonempty namespace); [|apply by_name_usable].
  destruct (temenos_namespaces !! Str.lower namespace) as [n|].
  - destruct (Str.nonempty n) eqn:Hn; [apply Hns; exact Hn|].
    destruct (namespace_pattern_match (Str.lower namespace)) as [n'|] eqn:Hp;
      [|apply by_name_usable].
    apply Hns. eapply namespace_pattern_match_nonempty; exact Hp.
  - destruct (namespace_pattern_match (Str.lower namespace)) as [n'|] eqn:Hp;
      [|apply by_name_usable].
    apply Hns. eapply namespace_pattern_match_nonempty; exact Hp.
Qed.

Lemma extracted_name_and_category_witness :
  Str.nonempty (normalizedName (adapter_extracted "pod-a")) = true
  /\ (componentCategory (adapter_extracted "pod-a") = "core"
      \/ componentCategory (adapter_extracted "pod-a") = "microservice").
Proof.
  apply (extracted_name_and_category (adapter_pod "pod-a") (adapter_extracted "pod-a")).
  vm_compute. reflexivity.
Defined.

(** ** Answer texts and batches *)

Lemma length_flush_run (repl run : string) :
  String.length repl <= 3 ->
  String.length (Text.flush_run repl run) <= String.length run.
Proof.
  intros H. unfold Text.flush_run.
  destruct (Nat.leb_spec 3 (String.length run)); lia.
Qed.

Lemma length_collapse_from cls repl (s : string) :
  String.length repl <= 3 ->
  forall run, String.length (Text.collapse_from cls repl run s)
              <= String.length run + String.length s.
Proof.
  intros Hrepl. induction s as [|c s IH]; intros run; cbn [Text.collapse_from].
  - pose proof (length_flush_run repl run Hrepl). simpl. lia.
  - destruct (cls c).
    + pose proof (IH (run +:+ String c EmptyString)) as H.
      rewrite length_append in H. simpl in *. lia.
    + rewrite length_append. pose proof (length_flush_run repl run Hrepl).
      pose proof (IH EmptyString). simpl in *. lia.
Qed.

Lemma length_collapse cls repl (s : string) :
  String.length repl <= 3 ->
  String.length (Text.collapse cls repl s) <= String.length s.
Proof. intros H. apply (length_collapse_from cls repl s H EmptyString). Qed.

(** X5: [_format_rag_response] never returns a text longer than its input,
    and what it returns has no leading or trailing white space (the
    placeholders it passes through included). *)
Theorem formatted_answer_is_stripped_and_no_longer (text : string) :
  String.length (_format_rag_response text) <= String.length text
  /\ Str.strip (_format_rag_response text) = _format_rag_response text.
Proof.
  unfold _format_rag_response.
  destruct (Str.nonempty text) eqn:Hne; cbn [negb orb].
  - destruct (is_one_of text [not_available_timeout; not_available]) eqn:Hp.
    + split; [lia|].
      unfold is_one_of in Hp. cbn [existsb] in Hp.
      rewrite orb_false_r, orb_true_iff, !String.eqb_eq in Hp.
      destruct Hp as [->| ->]; reflexivity.
    + split; [|apply strip_idem].
      etransitivity; [apply length_strip|].
      etransitivity; [apply length_collapse; simpl; lia|].
      apply length_collapse. simpl; lia.
  - destruct text; [|discriminate]. split; reflexivity.
Qed.






Lemma batches_spec {A : Type} (fuel : nat) :
  forall l : list A, length l <= fuel ->
    List.concat (batches fuel l) = l
    /\ Forall (fun b => 1 <= length b <= 3) (batches fuel l).
Proof.
  induction fuel as [|fuel IH]; intros l Hlen.
  - destruct l; [split; [reflexivity | constructor] | simpl in Hlen; lia].
  - destruct l as [|a l]; [split; [reflexivity | constructor]|].
    cbn [batches].
    destruct (IH (drop 3 (a :: l))) as [Hc Hf].
    { rewrite length_drop. simpl in *. lia. }
    split.
    + cbn [List.concat]. rewrite Hc. apply take_drop.
    + constructor; [|exact Hf].
      rewrite length_take. cbn [length]. lia.
Qed.

(** X7: the slices [analyze_services] cuts its candidates into, put together
    again, are the list of candidates, and every slice has one, two or three
    elements. *)
Theorem batches_partition {A : Type} (l : list A) :
  List.concat (batches (length l) l) = l
  /\ Forall (fun b => 1 <= length b <= 3) (batches (length l) l).
Proof. apply batches_spec. lia. Qed.

(** ** Effects of the enrichment stage *)

Section EnrichmentEffects.
Variable rag : rag_service.
Variable has_rag : bool.

(** What one call of [identify_component] does to the state. *)
Lemma identify_component_effect s use_cache force_refresh st r st' :
  identify_component rag has_rag s use_cache force_refresh st = (r, st') ->
  length (rag_log st') <= length (rag_log st) + 2
  /\ (has_rag = false -> rag_log st' = rag_log st)
  /\ next_loc st <= next_loc st'
  /\ (forall l, l < next_loc st -> heap st' !! l = heap st !! l)
  /\ (use_cache = false ->
        _component_cache st' = _component_cache st
        /\ forall info, r = Some info ->
             related_services info = next_loc st /\ next_loc st' = S (next_loc st)).
Proof.
  unfold identify_component, identify_component_body.
  destruct (_is_potential_temenos_component s); cbn [negb];
    [|intros [= <- <-]; repeat split; try lia; discriminate].
  destruct (_extract_component_name s) as [e|];
    [|intros [= <- <-]; repeat split; try lia; discriminate].
  assert (Hfetch : forall st0,
    rag_log st0 = rag_log st -> next_loc st0 = next_loc st -> heap st0 = heap st ->
    (use_cache = false -> _component_cache st0 = _component_cache st) ->
    match fetch_component rag has_rag s (normalizedName e) (componentCategory e)
            (Str.lower (normalizedName e)) use_cache st0 with
    | (Ret component_info, st1) => (Ret (Some component_info), st1)
    | (Raise e0, st1) => (Raise e0, st1)
    end = (match r with Some i => Ret (Some i) | None => Ret None end, st')
    \/ (exists e0, match fetch_component rag has_rag s (normalizedName e) (componentCategory e)
            (Str.lower (normalizedName e)) use_cache st0 with
    | (Ret component_info, st1) => (Ret (Some component_info), st1)
    | (Raise e0, st1) => (Raise e0, st1)
    end = (Raise e0, st') /\ r = None) ->
    length (rag_log st') <= length (rag_log st) + 2
    /\ (has_rag = false -> rag_log st' = rag_log st)
    /\ next_loc st <= next_loc st'
    /\ (forall l, l < next_loc st -> heap st' !! l = heap st !! l)
    /\ (use_cache = false ->
          _component_cache st' = _component_cache st
          /\ forall info, r = Some info ->
               related_services info = next_loc st /\ next_loc st' = S (next_loc st))).
  { intros st0 Hlog Hloc Hheap Hcache Hres.
    destruct (fetch_component rag has_rag s _ _ _ use_cache st0) as [res st1] eqn:Ef.
    destruct (fetch_component_effect _ _ _ _ _ _ _ _ _ _ Ef) as [H1 [H2 [H3 [H4 H5]]]].
    rewrite Hlog, Hloc, Hheap in *.
    assert (Hst : st1 = st').
    { destruct Hres as [Hres|[e0 [Hres _]]]; destruct res; congruence. }
    subst st1.
    split; [exact H1|]. split; [exact H2|]. split; [exact H3|]. split; [exact H4|].
    intros ->. destruct res as [info|e0].
    - destruct H5 as [_ [Hrel [_ [Hnext Hc]]]].
      split; [rewrite Hc; apply Hcache; reflexivity|].
      intros info' ->.
      destruct Hres as [Hres|[e0 [Hres _]]]; [|discriminate].
      injection Hres as <-. auto.
    - destruct H5 as [Hc _]. split; [rewrite Hc; apply Hcache; reflexivity|].
      intros info' ->. destruct Hres as [Hres|[e1 [_ Hres]]]; discriminate. }
  destruct (if use_cache && negb force_refresh
            then _component_cache st !! Str.lower (normalizedName e) else None)
    as [cached|] eqn:Ec.
  - destruct use_cache; [|discriminate].
    destruct (is_minimal (normalizedName e) cached && has_rag) eqn:Em.
    + intros Hid. apply (Hfetch (set_cache (delete (Str.lower (normalizedName e))
                                              (_component_cache st)) st));
        try reflexivity; [discriminate|].
      destruct (fetch_component _ _ _ _ _ _ _ _) as [[info|e0] st1].
      * left. injection Hid as <- <-. reflexivity.
      * right. injection Hid as <- <-. exists e0. auto.
    + intros [= <- <-]. repeat split; try lia; try discriminate.
  - intros Hid. apply (Hfetch st); try reflexivity.
    destruct (fetch_component _ _ _ _ _ _ _ _) as [[info|e0] st1].
    + left. injection Hid as <- <-. reflexivity.
    + right. injection Hid as <- <-. exists e0. auto.
Qed.

Section BatchEffects.
Variables use_cache force_refresh : bool.

Lemma analyze_batch_effect l :
  forall st,
    length (rag_log (snd (analyze_batch rag has_rag use_cache force_refresh l st)))
      <= length (rag_log st) + 2 * length l
    /\ (has_rag = false ->
          rag_log (snd (analyze_batch rag has_rag use_cache force_refresh l st)) = rag_log st)
    /\ Forall (fun r => error r = match component_info r with
                                  | Some _ => None
                                  | None => Some "Could not identify Temenos component"
                                  end)
         (fst (analyze_batch rag has_rag use_cache force_refresh l st)).
Proof.
  induction l as [|s l IH]; intros st.
  - simpl. split; [lia|]. split; [reflexivity | constructor].
  - cbn [analyze_batch]. unfold analyze_one.
    destruct (identify_component rag has_rag s use_cache force_refresh st) as [ci st1] eqn:E.
    destruct (identify_component_effect _ _ _ _ _ _ E) as [H1 [H2 _]].
    destruct (IH st1) as [H3 [H4 H5]].
    destruct (analyze_batch rag has_rag use_cache force_refresh l st1) as [rs st2].
    cbn [fst snd length] in *.
    split; [lia|]. split.
    + intros Hn. rewrite (H4 Hn). apply H2. exact Hn.
    + constructor; [|exact H5]. simpl. destruct ci; reflexivity.
Qed.

(** X8: a run of [analyze_services] sends at most two queries for every
    resource that passes the candidate check, and none when the knowledge
    service is not usable. *)
Theorem analyze_services_query_budget (services : list AzureResource.t) (st : state) :
  length (rag_log (snd (analyze_services rag has_rag use_cache force_refresh services st)))
    <= length (rag_log st)
       + 2 * length (filter (fun s => _is_potential_temenos_component s = true) services)
  /\ (has_rag = false ->
        rag_log (snd (analyze_services rag has_rag use_cache force_refresh services st))
        = rag_log st).
Proof.
  unfold analyze_services.
  destruct (filter (fun s => _is_potential_temenos_component s = true) services)
    as [|p ps] eqn:E; [simpl; split; [lia | reflexivity]|].
  rewrite analyze_batches_flat by lia.
  destruct (analyze_batch_effect (p :: ps) st) as [H1 [H2 _]].
  destruct (analyze_batch rag has_rag use_cache force_refresh (p :: ps) st) as [rs st1].
  cbn [fst snd] in *. split; assumption.
Qed.

(** X9: every result of [analyze_services] belongs to a resource of the
    input.  For a resource that passed the candidate check it has either a
    description and no error, or no description and the error [Could not
    identify Temenos component]; for a rejected resource it has neither. *)
Theorem analyze_services_result_shape (services : list AzureResource.t) (st : state)
    (r : TemenosAnalysisResult) :
  In r (fst (analyze_services rag has_rag use_cache force_refresh services st)) ->
  In (service r) services
  /\ if _is_potential_temenos_component (service r)
     then error r = match component_info r with
                    | Some _ => None
                    | None => Some "Could not identify Temenos component"
                    end
     else component_info r = None /\ error r = None.
Proof.
  unfold analyze_services.
  destruct (filter (fun s => _is_potential_temenos_component s = true) services)
    as [|p ps] eqn:E; [intros []|].
  rewrite analyze_batches_flat by lia.
  destruct (analyze_batch_effect (p :: ps) st) as [_ [_ Hshape]].
  pose proof (analyze_batch_services rag has_rag use_cache force_refresh (p :: ps) st) as Hsv.
  destruct (analyze_batch rag has_rag use_cache force_refresh (p :: ps) st) as [rs st1].
  cbn [fst] in *. intros Hin. apply in_app_or in Hin. destruct Hin as [Hin|Hin].
  - assert (Hs : In (service r) (p :: ps)) by (rewrite <- Hsv; apply in_map; exact Hin).
    rewrite <- E in Hs. apply list_elem_of_In, list_elem_of_filter in Hs.
    destruct Hs as [Hpot Hs]. split; [apply list_elem_of_In; exact Hs|].
    rewrite Hpot. rewrite Forall_forall in Hshape. apply Hshape.
    apply list_elem_of_In. exact Hin.
  - apply in_map_iff in Hin. destruct Hin as [x [<- Hx]].
    apply list_elem_of_In, list_elem_of_filter in Hx. destruct Hx as [Hpot Hx].
    cbn [service component_info error]. rewrite Hpot.
    split; [apply list_elem_of_In; exact Hx | auto].
Qed.
End BatchEffects.

(** The list objects of the descriptions of a result list. *)
Lemma analyze_batch_without_cache force_refresh l :
  forall st,
    let out := analyze_batch rag has_rag false force_refresh l st in
    _component_cache (snd out) = _component_cache st
    /\ next_loc st <= next_loc (snd out)
    /\ List.NoDup (omap (fun r => option_map related_services (component_info r)) (fst out))
    /\ forall x, In x (omap (fun r => option_map related_services (component_info r)) (fst out)) ->
         next_loc st <= x < next_loc (snd out).
Proof.
  induction l as [|s l IH]; intros st; cbn zeta.
  - simpl. split; [reflexivity|]. split; [lia|]. split; [constructor | intros x []].
  - cbn [analyze_batch]. unfold analyze_one.
    destruct (identify_component rag has_rag s false force_refresh st) as [ci st1] eqn:E.
    destruct (identify_component_effect _ _ _ _ _ _ E) as [_ [_ [Hn [_ Hc]]]].
    destruct (Hc eq_refl) as [Hcache Hfresh].
    specialize (IH st1). cbn zeta in IH. destruct IH as [IH1 [IH2 [IH3 IH4]]].
    destruct (analyze_batch rag has_rag false force_refresh l st1) as [rs st2].
    cbn [fst snd] in *.
    split; [congruence|]. split; [lia|].
    destruct ci as [info|]; cbn [omap component_info option_map].
    + destruct (Hfresh info eq_refl) as [Hrel Hnext].
      split.
      * constructor; [|exact IH3]. intros Hin. apply IH4 in Hin. lia.
      * intros x [<-|Hin]; [lia|]. apply IH4 in Hin. lia.
    + split; [exact IH3|]. intros x Hin. apply IH4 in Hin. lia.
Qed.

(** X10: with [use_cache] off, [analyze_services] leaves the cache as it was
    and no two descriptions it returns refer to the same [related_services]
    list. *)
Theorem without_cache_no_list_is_shared (force_refresh : bool)
    (services : list AzureResource.t) (st : state) :
  _component_cache (snd (analyze_services rag has_rag false force_refresh services st))
    = _component_cache st
  /\ List.NoDup (omap (fun r => option_map related_services (component_info r))
                   (fst (analyze_services rag has_rag false force_refresh services st))).
Proof.
  unfold analyze_services.
  destruct (filter (fun s => _is_potential_temenos_component s = true) services)
    as [|p ps] eqn:E; [split; [reflexivity | constructor]|].
  rewrite analyze_batches_flat by lia.
  pose proof (analyze_batch_without_cache force_refresh (p :: ps) st) as H.
  cbn zeta in H. destruct H as [H1 [_ [H3 _]]].
  destruct (analyze_batch rag has_rag false force_refresh (p :: ps) st) as [rs st1].
  cbn [fst snd] in *. split; [exact H1|].
  rewrite omap_app.
  assert (Hnil : omap (fun r => option_map related_services (component_info r))
                   (map (fun skipped => mk_result skipped None None)
                      (filter (fun s => _is_potential_temenos_component s = false) services))
                 = []).
  { induction (filter (fun s => _is_potential_temenos_component s = false) services);
      [reflexivity | simpl; assumption]. }
  rewrite Hnil, app_nil_r. exact H3.
Qed.

(** X11: with [force_refresh] on, the description that [identify_component]
    returns and the queries it has sent do not depend on what the cache
    holds. *)
Theorem forced_refresh_ignores_cache (s : AzureResource.t) (use_cache : bool)
    (st : state) (c : gmap string TemenosComponentInfo) :
  fst (identify_component rag has_rag s use_cache true (set_cache c st))
    = fst (identify_component rag has_rag s use_cache true st)
  /\ rag_log (snd (identify_component rag has_rag s use_cache true (set_cache c st)))
    = rag_log (snd (identify_component rag has_rag s use_cache true st)).
Proof.
  unfold identify_component, identify_component_body.
  destruct (_is_potential_temenos_component s); [|split; reflexivity].
  destruct (_extract_component_name s) as [e|]; [|split; reflexivity].
  cbn [negb]. rewrite andb_false_r.
  unfold fetch_component. destruct has_rag; cbn [negb].
  - unfold query_rag. cbn [rag_log set_cache _component_cache heap next_loc].
    destruct (answer_text (guarded_response (rag (length (rag_log st)) _)));
      [|split; reflexivity].
    destruct (answer_text (guarded_response (rag (length (_ :: rag_log st)) _)));
      [|split; reflexivity].
    unfold alloc_list, remember. cbn [next_loc].
    destruct use_cache; split; reflexivity.
  - unfold alloc_list, remember. cbn [set_cache next_loc].
    destruct use_cache; split; reflexivity.
Qed.
End EnrichmentEffects.

Lemma analyze_services_result_shape_witness :
  In (service (mk_result storage_account None None)) [adapter_pod "pod-a"; storage_account]
  /\ if _is_potential_temenos_component (service (mk_result storage_account None None))
     then error (mk_result storage_account None None)
          = match component_info (mk_result storage_account None None) with
            | Some _ => None
            | None => Some "Could not identify Temenos component"
            end
     else component_info (mk_result storage_account None None) = None
          /\ error (mk_result storage_account None None) = None.
Proof.
  apply (analyze_services_result_shape rag_times_out false true false
           [adapter_pod "pod-a"; storage_account] initial_state).
  vm_compute. right. left. reflexivity.
Defined.

(** ** Forced refresh *)

Section ForcedRefresh.
Variable rag : rag_service.

Lemma fetch_component_queries s name category key use_cache st :
  length (rag_log (snd (fetch_component rag true s name category key use_cache st)))
  = length (rag_log st) + 2.
Proof.
  unfold fetch_component. cbn [negb]. unfold query_rag.
  cbn [rag_log _component_cache heap next_loc].
  destruct (answer_text (guarded_response (rag (length (rag_log st)) _)));
    [|simpl; lia].
  destruct (answer_text (guarded_response (rag (length (_ :: rag_log st)) _)));
    [|simpl; lia].
  unfold alloc_list, remember, set_cache. destruct use_cache; simpl; lia.
Qed.

Lemma identify_component_forced s use_cache st :
  length (rag_log (snd (identify_component rag true s use_cache true st)))
  = length (rag_log st)
    + (if decide (_is_potential_temenos_component s = true
                  /\ is_Some (_extract_component_name s)) then 2 else 0).
Proof.
  unfold identify_component, identify_component_body.
  destruct (_is_potential_temenos_component s); cbn [negb].
  - destruct (_extract_component_name s) as [e|].
    + rewrite andb_false_r.
      rewrite decide_True by (split; [reflexivity | eexists; reflexivity]).
      pose proof (fetch_component_queries s (normalizedName e) (componentCategory e)
                    (Str.lower (normalizedName e)) use_cache st) as H.
      destruct (fetch_component rag true s _ _ _ use_cache st) as [[info|e0] st1];
        exact H.
    + rewrite decide_False by (intros [_ [x Hx]]; discriminate). simpl. lia.
  - rewrite decide_False by (intros [Hc _]; discriminate). simpl. lia.
Qed.

Lemma analyze_batch_forced use_cache l :
  forall st,
    length (rag_log (snd (analyze_batch rag true use_cache true l st)))
    = length (rag_log st)
      + 2 * length (filter (fun s => _is_potential_temenos_component s = true
                                     /\ is_Some (_extract_component_name s)) l).
Proof.
  induction l as [|s l IH]; intros st; [simpl; lia|].
  cbn [analyze_batch]. unfold analyze_one.
  pose proof (identify_component_forced s use_cache st) as H.
  destruct (identify_component rag true s use_cache true st) as [ci st1].
  specialize (IH st1).
  destruct (analyze_batch rag true use_cache true l st1) as [rs st2].
  cbn [snd] in *. rewrite IH, H.
  destruct (decide (_is_potential_temenos_component s = true
                    /\ is_Some (_extract_component_name s))) as [Hd|Hd].
  - rewrite filter_cons_True by exact Hd. simpl. lia.
  - rewrite filter_cons_False by exact Hd. lia.
Qed.

(** X12: with [force_refresh] on and a usable knowledge service,
    [analyze_services] sends exactly two queries for every resource that
    passes the candidate check and has a canonical name, also when an
    earlier resource had the same name. *)
Theorem forced_refresh_queries_every_classified_candidate (use_cache : bool)
    (services : list AzureResource.t) (st : state) :
  length (rag_log (snd (analyze_services rag true use_cache true services st)))
  = length (rag_log st)
    + 2 * length (filter (fun s => _is_potential_temenos_component s = true
                                   /\ is_Some (_extract_component_name s)) services).
Proof.
  assert (Hf : forall l : list AzureResource.t,
            filter (fun s => _is_potential_temenos_component s = true
                             /\ is_Some (_extract_component_name s))
              (filter (fun s => _is_potential_temenos_component s = true) l)
            = filter (fun s => _is_potential_temenos_component s = true
                               /\ is_Some (_extract_component_name s)) l).
  { induction l as [|a l IH]; [reflexivity|].
    destruct (_is_potential_temenos_component a) eqn:E.
    - rewrite (filter_cons_True (fun s => _is_potential_temenos_component s = true)) by exact E.
      destruct (decide (is_Some (_extract_component_name a))) as [Hs|Hs].
      + rewrite !(filter_cons_True (fun s => _ /\ _)) by (split; assumption).
        rewrite IH. reflexivity.
      + rewrite !(filter_cons_False (fun s => _ /\ _)) by (intros [_ H]; exact (Hs H)).
        exact IH.
    - rewrite (filter_cons_False (fun s => _is_potential_temenos_component s = true))
        by (rewrite E; discriminate).
      rewrite (filter_cons_False (fun s => _ /\ _)) by (rewrite E; intros [H _]; discriminate).
      exact IH. }
  unfold analyze_services. rewrite <- Hf.
  destruct (filter (fun s => _is_potential_temenos_component s = true) services)
    as [|p ps] eqn:E; [simpl; lia|].
  rewrite analyze_batches_flat by lia.
  pose proof (analyze_batch_forced use_cache (p :: ps) st) as H.
  destruct (analyze_batch rag true use_cache true (p :: ps) st) as [rs st1].
  exact H.
Qed.
End ForcedRefresh.

(** ** The aggregator on its own output *)

Lemma in_omap {A B : Type} (f : A -> option B) (l : list A) (y : B) :
  In y (omap f l) <-> exists x, In x l /\ f x = Some y.
Proof.
  rewrite <- list_elem_of_In, list_elem_of_omap.
  split; intros [x [Hx Hf]]; exists x; split; auto; apply list_elem_of_In; exact Hx.
Qed.

(** When no two results have the same key, the loop of the aggregator
    files every keyed result under its key, sets the others aside and
    leaves the store alone. *)
Lemma dedup_fold_distinct rs :
  forall d,
    List.NoDup (omap key_of rs) ->
    (forall k, In k (omap key_of rs) -> ~ In k (map fst (component_map d))) ->
    fold_left dedup_step rs d
    = mk_dedup
        (component_map d ++ omap (fun r => option_map (fun k => (k, r)) (key_of r)) rs)
        (unidentified d ++ filter (fun r => key_of r = None) rs)
        (dedup_heap d).
Proof.
  induction rs as [|r rs IH]; intros d Hnd Hfresh.
  - simpl. rewrite !app_nil_r. destruct d; reflexivity.
  - cbn [fold_left]. rewrite dedup_step_alt. cbn [omap list_omap] in *.
    destruct (key_and_list r) as [[k l]|] eqn:Hkl.
    + assert (Hk : key_of r = Some k) by (apply key_of_Some; eauto).
      rewrite Hk in *. cbn [option_map].
      rewrite filter_cons_False by (rewrite Hk; intros [=]).
      inversion Hnd as [|? ? Hnotin Hnd']; subst.
      assert (Hget : map_get (component_map d) k = None).
      { apply map_get_seen, key_seen_false, Hfresh. left. reflexivity. }
      rewrite Hget, IH; cbn [component_map unidentified dedup_heap].
      * rewrite <- app_assoc. reflexivity.
      * exact Hnd'.
      * intros k' Hk' Hin. rewrite map_app in Hin. apply in_app_or in Hin.
        destruct Hin as [Hin|[<-|[]]].
        -- apply (Hfresh k'); [right; exact Hk' | exact Hin].
        -- apply Hnotin. exact Hk'.
    + assert (Hk : key_of r = None) by (apply key_of_None; exact Hkl).
      rewrite Hk in *. cbn [option_map].
      rewrite filter_cons_True by exact Hk.
      rewrite IH; cbn [component_map unidentified dedup_heap].
      * rewrite <- app_assoc. reflexivity.
      * exact Hnd.
      * exact Hfresh.
Qed.

Lemma filter_all {A : Type} (P : A -> Prop) `{forall x, Decision (P x)} (l : list A) :
  (forall x, In x l -> P x) -> filter P l = l.
Proof.
  induction l as [|a l IH]; intros Hall; [reflexivity|].
  rewrite filter_cons_True by (apply Hall; left; reflexivity).
  rewrite IH; [reflexivity|]. intros x Hx. apply Hall. right. exact Hx.
Qed.

Lemma filter_none {A : Type} (P : A -> Prop) `{forall x, Decision (P x)} (l : list A) :
  (forall x, In x l -> ~ P x) -> filter P l = [].
Proof.
  induction l as [|a l IH]; intros Hall; [reflexivity|].
  rewrite filter_cons_False by (apply Hall; left; reflexivity).
  apply IH. intros x Hx. apply Hall. right. exact Hx.
Qed.

Lemma omap_entries (es : list (string * TemenosAnalysisResult)) :
  (forall k r, In (k, r) es -> key_of r = Some k) ->
  omap (fun r => option_map (fun k => (k, r)) (key_of r)) (map snd es) = es
  /\ omap key_of (map snd es) = map fst es.
Proof.
  induction es as [|[k r] es IH]; intros Hall; [split; reflexivity|].
  cbn [map omap list_omap snd fst]. rewrite (Hall k r) by (left; reflexivity). cbn [option_map].
  destruct IH as [IH1 IH2]; [intros k' r' Hin; apply Hall; right; exact Hin|].
  rewrite IH1, IH2. split; reflexivity.
Qed.

Lemma omap_none {A B : Type} (f : A -> option B) (l : list A) :
  (forall x, In x l -> f x = None) -> omap f l = [].
Proof.
  induction l as [|a l IH]; intros Hall; [reflexivity|].
  cbn [omap list_omap]. rewrite (Hall a) by (left; reflexivity).
  apply IH. intros x Hx. apply Hall. right. exact Hx.
Qed.

(** X13: running [_deduplicate_components] on its own output returns the
    same list and leaves every [related_services] list as it is. *)
Theorem deduplication_is_idempotent
    (results : list TemenosAnalysisResult) (h : gmap loc (list string)) :
  _deduplicate_components (fst (_deduplicate_components results h))
                          (snd (_deduplicate_components results h))
  = _deduplicate_components results h.
Proof.
  rewrite (deduplicate_components_eq results h). cbn [fst snd].
  set (h' := dedup_heap (fold_left dedup_step results (mk_dedup [] [] h))).
  set (es := representative_entries [] results).
  assert (Hes : forall k r, In (k, r) es -> key_of r = Some k).
  { intros k r Hin. apply (representative_entries_sound results [] k r Hin). }
  destruct (omap_entries es Hes) as [Hentries Hkeys].
  assert (Haside : forall r, In r (reported_set_aside results) ->
                     key_of r = None /\ is_noise r = false).
  { intros r Hin. unfold reported_set_aside, set_aside in Hin.
    apply list_elem_of_In, list_elem_of_filter in Hin. destruct Hin as [Hn Hin].
    apply list_elem_of_filter in Hin. destruct Hin as [Hk _]. auto. }
  unfold _deduplicate_components, representatives. fold es.
  rewrite dedup_fold_distinct; cbn [component_map unidentified dedup_heap app map].
  - rewrite omap_app, Hentries, filter_app.
    rewrite (omap_none _ (reported_set_aside results)) by
      (intros r Hr; destruct (Haside r Hr) as [-> _]; reflexivity).
    rewrite (filter_none _ (map snd es)).
    + rewrite (filter_all _ (reported_set_aside results)) by (intros r Hr; apply Haside; exact Hr).
      rewrite app_nil_r. cbn [app].
      rewrite (filter_all _ (reported_set_aside results)) by (intros r Hr; apply Haside; exact Hr).
      reflexivity.
    + intros r Hr. apply in_map_iff in Hr. destruct Hr as [[k r'] [<- Hin]].
      simpl. rewrite (Hes _ _ Hin). discriminate.
  - rewrite omap_app, Hkeys.
    rewrite (omap_none key_of (reported_set_aside results)) by
      (intros r Hr; apply Haside; exact Hr).
    rewrite app_nil_r. apply representative_entries_nodup.
  - intros k _ [].
Qed.

(** ** Parts of an id and the pod adapter *)

Lemma split_nonempty (sep : ascii) (s : string) : Str.split sep s <> [].
Proof.
  destruct s as [|c s]; [discriminate|].
  simpl. destruct (Ascii.eqb c sep); [discriminate|].
  destruct (Str.split sep s); discriminate.
Qed.

(** [(a + sep + b).split(sep) == a.split(sep) + b.split(sep)] *)
Lemma split_app (sep : ascii) (a b : string) :
  Str.split sep (a +:+ String sep b) = Str.split sep a ++ Str.split sep b.
Proof.
  induction a as [|c a IH].
  - rewrite append_nil_l. simpl. rewrite Ascii.eqb_refl. reflexivity.
  - rewrite append_cons. cbn [Str.split]. rewrite IH.
    destruct (Ascii.eqb c sep); [reflexivity|].
    pose proof (split_nonempty sep a) as Hne.
    destruct (Str.split sep a) as [|w ws]; [contradiction | reflexivity].
Qed.

Lemma contains_sep_cons (sep c : ascii) (s : string) :
  Str.contains (String sep EmptyString) (String c s) = false ->
  Ascii.eqb c sep = false /\ Str.contains (String sep EmptyString) s = false.
Proof.
  cbn [Str.contains String.prefix]. intros H. apply orb_false_iff in H.
  destruct H as [H1 H2]. split; [|exact H2].
  destruct (Ascii.ascii_dec sep c) as [->|Hne].
  - destruct s; discriminate.
  - apply Ascii.eqb_neq. congruence.
Qed.

(** A string without the separator is one part. *)
Lemma split_without_sep (sep : ascii) (s : string) :
  Str.contains (String sep EmptyString) s = false -> Str.split sep s = [s].
Proof.
  induction s as [|c s IH]; intros H; [reflexivity|].
  apply contains_sep_cons in H. destruct H as [Hc Hs].
  cbn [Str.split]. rewrite Hc, (IH Hs). reflexivity.
Qed.

Lemma contains_sep_app (sep : ascii) (a b : string) :
  Str.contains (String sep EmptyString) (a +:+ String sep b) = true.
Proof.
  apply contains_iff. exists a, b. reflexivity.
Qed.

Lemma last_app_nonempty {A : Type} (l1 l2 : list A) (d : A) :
  l2 <> [] -> List.last (l1 ++ l2) d = List.last l2 d.
Proof.
  intros Hne. induction l1 as [|x l1 IH]; [reflexivity|].
  simpl. destruct (l1 ++ l2) eqn:E; [|exact IH].
  apply app_eq_nil in E. destruct E as [_ E]. contradiction.
Qed.

(** What the classifier reads back from the resource of a pod. *)
Lemma pod_resource_read_back (p : AKSPod.t) :
  Str.contains "/" (AKSPod.name p) = false ->
  pod_namespace_and_name (AKSPod.to_azure_resource p)
  = (AKSPod.namespace p, AKSPod.name p).
Proof.
  intros Hname. unfold pod_namespace_and_name.
  cbn [AKSPod.to_azure_resource AzureResource.name AzureResource.properties AzureResource.tags].
  change (AKSPod.namespace p +:+ "/" +:+ AKSPod.name p)
    with (AKSPod.namespace p +:+ String "/"%char (AKSPod.name p)).
  rewrite (contains_sep_app "/"%char).
  rewrite (split_app "/"%char), (split_without_sep "/"%char _ Hname).
  unfold last_part. rewrite last_app_nonempty by discriminate. cbn [List.last].
  rewrite lookup_insert_eq.
  unfold Str.or_else at 1. cbn [Str.truthy].
  destruct (AKSPod.namespace p) as [|c ns] eqn:Ens; cbn [Str.nonempty default negb].
  - rewrite lookup_insert_ne by discriminate.
    rewrite lookup_insert_ne by discriminate.
    rewrite lookup_insert_ne by discriminate.
    rewrite lookup_insert_ne by discriminate.
    rewrite lookup_insert_eq.
    unfold Str.or_else at 1. cbn [Str.truthy Str.nonempty].
    rewrite lookup_insert_ne by discriminate.
    rewrite lookup_insert_ne by discriminate.
    rewrite lookup_insert_eq.
    unfold Str.or_else. cbn [Str.truthy Str.nonempty default negb].
    reflexivity.
  - reflexivity.
Qed.

(** X14: for a pod whose name has no slash, the later stages read back from
    the resource built by [AKSPod.to_azure_resource] what the pod had: the
    classifier its namespace and its name, the type label and the aggregator
    its namespace (under [properties]), and the resource group is that of
    the cluster. *)
Theorem pod_namespace_and_name_round_trip (p : AKSPod.t) :
  Str.contains "/" (AKSPod.name p) = false ->
  pod_namespace_and_name (AKSPod.to_azure_resource p)
    = (AKSPod.namespace p, AKSPod.name p)
  /\ get_or_empty (AzureResource.properties (AKSPod.to_azure_resource p)) "namespace"
     = AKSPod.namespace p
  /\ AzureResource.resource_group (AKSPod.to_azure_resource p)
     = AKSPod.cluster_resource_group p.
Proof.
  intros Hname. split; [apply pod_resource_read_back; exact Hname|].
  split; [|reflexivity].
  unfold get_or_empty. cbn [AKSPod.to_azure_resource AzureResource.properties].
  rewrite lookup_insert_eq. reflexivity.
Qed.

Lemma pod_namespace_and_name_round_trip_witness :
  pod_namespace_and_name (AKSPod.to_azure_resource eventstore_pod)
    = (AKSPod.namespace eventstore_pod, AKSPod.name eventstore_pod)
  /\ get_or_empty (AzureResource.properties (AKSPod.to_azure_resource eventstore_pod))
       "namespace"
     = AKSPod.namespace eventstore_pod
  /\ AzureResource.resource_group (AKSPod.to_azure_resource eventstore_pod)
     = AKSPod.cluster_resource_group eventstore_pod.
Proof. apply (pod_namespace_and_name_round_trip eventstore_pod). reflexivity. Defined.

Lemma dict_literal_lookup (items : list (string * string)) (k v : string) :
  dict_literal items !! k = Some v -> In (k, v) items.
Proof.
  unfold dict_literal.
  assert (H : forall m : gmap string string,
            fold_left (fun m kv => <[kv.1 := kv.2]> m) items m !! k = Some v ->
            In (k, v) items \/ m !! k = Some v).
  { induction items as [|[k' v'] items IH]; intros m Hm; [right; exact Hm|].
    simpl in Hm. destruct (IH _ Hm) as [Hin|Hl]; [left; right; exact Hin|].
    simpl in Hl. destruct (decide (k' = k)) as [->|Hne].
    - rewrite lookup_insert_eq in Hl. injection Hl as ->. left. left. reflexivity.
    - rewrite lookup_insert_ne in Hl by exact Hne. right. exact Hl. }
  intros Hl. destruct (H ∅ Hl) as [Hin|He]; [exact Hin|].
  rewrite lookup_empty in He. discriminate.
Qed.

Lemma temenos_namespaces_values (k n : string) :
  temenos_namespaces !! k = Some n -> Str.nonempty k = true /\ Str.nonempty n = true.
Proof.
  intros H. unfold temenos_namespaces in H. apply dict_literal_lookup in H.
  match type of H with
  | In _ ?l =>
      assert (Hall : forallb (fun kv : string * string =>
                                Str.nonempty kv.1 && Str.nonempty kv.2) l = true)
        by reflexivity
  end.
  rewrite forallb_forall in Hall. specialize (Hall _ H).
  apply andb_true_iff in Hall. exact Hall.
Qed.

Lemma lower_nonempty (s : string) : Str.nonempty (Str.lower s) = Str.nonempty s.
Proof. destruct s; reflexivity. Qed.

(** X15: a resource built by [AKSPod.to_azure_resource] from a pod without a
    truthy [temenosComponent] or [component] label, whose name has no slash
    and whose lower-cased namespace is a key of the namespace table, is
    classified under the name the table gives for the namespace, as a
    microservice if that name contains [Microservice] and as core otherwise,
    whatever the pod is called. *)
Theorem discovered_pod_is_named_after_its_namespace (p : AKSPod.t) (n : string) :
  has_component_tag (AKSPod.to_azure_resource p) = false ->
  Str.contains "/" (AKSPod.name p) = false ->
  temenos_namespaces !! Str.lower (AKSPod.namespace p) = Some n ->
  _extract_component_name (AKSPod.to_azure_resource p)
  = Some (mk_extracted (AKSPod.name p) n
            (if Str.contains "Microservice" n then "microservice" else "core")).
Proof.
  intros Htag Hname Hns.
  destruct (temenos_namespaces_values _ _ Hns) as [Hk Hn].
  rewrite lower_nonempty in Hk.
  unfold _extract_component_name.
  unfold has_component_tag in Htag. apply orb_false_iff in Htag.
  destruct Htag as [-> ->].
  change (Str.contains "managedclusters/pods"
            (Str.lower (AzureResource.type (AKSPod.to_azure_resource p)))) with true.
  cbv zeta iota.
  rewrite (pod_resource_read_back p Hname).
  rewrite Hk, Hns, Hn. reflexivity.
Qed.

Lemma discovered_pod_is_named_after_its_namespace_witness :
  _extract_component_name (AKSPod.to_azure_resource eventstore_pod)
  = Some (mk_extracted (AKSPod.name eventstore_pod) "Event Store Microservice"
            (if Str.contains "Microservice" "Event Store Microservice"
             then "microservice" else "core")).
Proof.
  apply (discovered_pod_is_named_after_its_namespace eventstore_pod "Event Store Microservice");
    vm_compute; reflexivity.
Defined.

(** ** Outcome of the analyze operation *)




Lemma length_filter_le {A : Type} (P : A -> Prop) `{forall x, Decision (P x)} (l : list A) :
  length (filter P l) <= length l.
Proof.
  induction l as [|a l IH]; [reflexivity|].
  destruct (decide (P a)).
  - rewrite filter_cons_True by assumption. simpl. lia.
  - rewrite filter_cons_False by assumption. simpl. lia.
Qed.

Lemma length_filter_split (l : list AzureResource.t) :
  length (filter (fun s => _is_potential_temenos_component s = true) l)
  + length (filter (fun s => _is_potential_temenos_component s = false) l)
  = length l.
Proof.
  induction l as [|a l IH]; [reflexivity|].
  destruct (_is_potential_temenos_component a) eqn:E.
  - rewrite filter_cons_True, filter_cons_False by (rewrite ?E; congruence). simpl. lia.
  - rewrite filter_cons_False, filter_cons_True by (rewrite ?E; congruence). simpl. lia.
Qed.

Lemma length_analyze_services rag has_rag use_cache force_refresh services st :
  length (fst (analyze_services rag has_rag use_cache force_refresh services st))
  <= length services.
Proof.
  destruct (filter (fun s => _is_potential_temenos_component s = true) services)
    as [|p ps] eqn:E.
  - unfold analyze_services. rewrite E. simpl. lia.
  - pose proof (analyze_services_complete rag has_rag use_cache force_refresh services st) as H.
    rewrite E in H. specialize (H ltac:(discriminate)).
    apply (f_equal (@length _)) in H. rewrite length_map, length_app in H.
    pose proof (length_filter_split services) as Hs. rewrite E in Hs. lia.
Qed.

Lemma length_representative_entries results :
  forall seen,
    length (representative_entries seen results) + length (set_aside results)
    <= length results.
Proof.
  unfold set_aside.
  induction results as [|r rest IH]; intros seen; [reflexivity|].
  cbn [representative_entries]. destruct (key_of r) as [k|] eqn:Hk.
  - rewrite filter_cons_False by (rewrite Hk; discriminate).
    destruct (key_seen seen k); [specialize (IH seen) | specialize (IH (seen ++ [k]))];
      simpl in *; lia.
  - rewrite filter_cons_True by exact Hk. specialize (IH seen). simpl. lia.
Qed.

Lemma length_deduplicate_components results h :
  length (fst (_deduplicate_components results h)) <= length results.
Proof.
  rewrite deduplicate_components_eq. cbn [fst].
  unfold representatives, reported_set_aside.
  rewrite length_app, length_map.
  pose proof (length_representative_entries results []).
  pose proof (length_filter_le (fun r => is_noise r = false) (set_aside results)).
  lia.
Qed.

(** X17: in a successful answer of the analyze operation, [count] is the
    number of entries of [data], it is at most [processed], and [processed]
    is at least the number of resources of the request. *)
Theorem response_counts (env : analyze_env) (request : AnalyzeRequest)
    (response : Json.response) :
  fst (_analyze_services_impl env request) = Ret response ->
  Json.count response = length (Json.data response)
  /\ Json.count response <= Json.processed response
  /\ length (services request) <= Json.processed response.
Proof.
  unfold _analyze_services_impl, _analyze_services_body.
  destruct (services request) as [|first rest] eqn:Es; [discriminate|].
  destruct (subscription_of (first :: rest)) as [sub|e]; [|discriminate].
  cbn [fst]. intros [= <-].
  match goal with
  | |- context [respond env request ?x] => remember x as all eqn:Hall
  end.
  unfold respond.
  pose proof (length_analyze_services (knowledge_service env) (knowledge_service_usable env)
                true (default false (force_refresh request)) all initial_state) as H1.
  destruct (analyze_services _ _ _ _ all initial_state) as [results st]. cbn [fst] in H1.
  pose proof (length_deduplicate_components results (heap st)) as H2.
  destruct (_deduplicate_components results (heap st)) as [dedup h]. cbn [fst] in H2.
  cbn [Json.count Json.data Json.processed].
  rewrite length_map. split; [reflexivity|]. split; [lia|].
  subst all. simpl. rewrite ?length_app. lia.
Qed.

Lemma response_counts_witness :
  Json.count (respond offline_env adapter_request three_adapter_pods)
    = length (Json.data (respond offline_env adapter_request three_adapter_pods))
  /\ Json.count (respond offline_env adapter_request three_adapter_pods)
     <= Json.processed (respond offline_env adapter_request three_adapter_pods)
  /\ length (services adapter_request)
     <= Json.processed (respond offline_env adapter_request three_adapter_pods).
Proof.
  apply (response_counts offline_env adapter_request).
  vm_compute. reflexivity.
Defined.

(** X18: when the id of the first resource is [/subscriptions/<sub>/<rest>]
    with no slash in [<sub>], the analyze operation takes [<sub>] for the
    subscription. *)
Theorem subscription_of_resource_id (first : AzureResource.t) (rest : list AzureResource.t)
    (sub tail : string) :
  AzureResource.id first = "/subscriptions/" +:+ sub +:+ "/" +:+ tail ->
  Str.contains "/" sub = false ->
  subscription_of (first :: rest) = Ret (Some sub).
Proof.
  intros Hid Hsub. unfold subscription_of. rewrite Hid.
  assert (Hsplit : Str.split "/"%char ("/subscriptions/" +:+ sub +:+ "/" +:+ tail)
                   = "" :: "subscriptions" :: sub :: Str.split "/"%char tail).
  { change ("/subscriptions/" +:+ sub +:+ "/" +:+ tail)
      with ("" +:+ String "/"%char
              ("subscriptions" +:+ String "/"%char (sub +:+ String "/"%char tail))).
    rewrite !(split_app "/"%char), (split_without_sep "/"%char sub Hsub). reflexivity. }
  rewrite Hsplit. reflexivity.
Qed.

Lemma subscription_of_resource_id_witness :
  subscription_of [storage_account; build_vm] = Ret (Some "sub-1").
Proof.
  apply (subscription_of_resource_id storage_account [build_vm] "sub-1"
           "resourceGroups/rg-temenos/providers/Microsoft.Storage/storageAccounts/stlogs");
    reflexivity.
Defined.

(** ** Tables printed by kubectl *)

Lemma word_and_rest_clean (s : string) :
  all_chars (fun c => negb (Str.is_space c)) (fst (Str.word_and_rest s)) = true
  /\ Forall (fun w => is_field w = true) (snd (Str.word_and_rest s)).
Proof.
  induction s as [|c s [IH1 IH2]]; [split; [reflexivity | constructor]|].
  cbn [Str.word_and_rest]. destruct (Str.word_and_rest s) as [w ws]. cbn [fst snd] in *.
  destruct (Str.is_space c) eqn:Hc; cbn [fst snd].
  - split; [reflexivity|].
    destruct (Str.nonempty w) eqn:Hw; [|exact IH2].
    constructor; [|exact IH2]. unfold is_field. rewrite Hw, IH1. reflexivity.
  - split; [|exact IH2]. cbn [all_chars]. rewrite Hc, IH1. reflexivity.
Qed.

(** Every field is a word. *)
Lemma fields_clean (s : string) : Forall (fun w => is_field w = true) (Str.fields s).
Proof.
  unfold Str.fields. destruct (word_and_rest_clean s) as [H1 H2].
  destruct (Str.word_and_rest s) as [w ws]. cbn [fst snd] in *.
  destruct (Str.nonempty w) eqn:Hw; [|exact H2].
  constructor; [|exact H2]. unfold is_field. rewrite Hw, H1. reflexivity.
Qed.

Lemma word_and_rest_app (a b : string) (c : ascii) :
  Str.is_space c = true ->
  Str.word_and_rest (a +:+ String c b)
  = (fst (Str.word_and_rest a), snd (Str.word_and_rest a) ++ Str.fields b).
Proof.
  intros Hc. induction a as [|x a IH].
  - rewrite append_nil_l. cbn [Str.word_and_rest]. rewrite Hc. unfold Str.fields.
    destruct (Str.word_and_rest b) as [w ws]. reflexivity.
  - rewrite append_cons. cbn [Str.word_and_rest]. rewrite IH.
    destruct (Str.word_and_rest a) as [w ws]. cbn [fst snd].
    destruct (Str.is_space x); [|reflexivity].
    destruct (Str.nonempty w); reflexivity.
Qed.

(** [(a + c + b).split() == a.split() + b.split()] for a white space
    character [c]. *)
Lemma fields_app (a b : string) (c : ascii) :
  Str.is_space c = true -> Str.fields (a +:+ String c b) = Str.fields a ++ Str.fields b.
Proof.
  intros Hc. unfold Str.fields at 1 2. rewrite (word_and_rest_app a b c Hc).
  destruct (Str.word_and_rest a) as [w ws]. cbn [fst snd].
  destruct (Str.nonempty w); reflexivity.
Qed.

Lemma fields_gap (g b : string) :
  all_chars Str.is_space g = true -> Str.fields (g +:+ b) = Str.fields b.
Proof.
  induction g as [|c g IH]; intros H; [reflexivity|].
  cbn [all_chars] in H. apply andb_true_iff in H. destruct H as [Hc Hg].
  rewrite append_cons.
  change (String c (g +:+ b)) with ("" +:+ String c (g +:+ b)).
  rewrite (fields_app "" (g +:+ b) c Hc). simpl. apply IH. exact Hg.
Qed.

Lemma word_and_rest_word (w : string) :
  all_chars (fun c => negb (Str.is_space c)) w = true -> Str.word_and_rest w = (w, []).
Proof.
  induction w as [|c w IH]; intros H; [reflexivity|].
  cbn [all_chars] in H. apply andb_true_iff in H. destruct H as [Hc Hw].
  cbn [Str.word_and_rest]. rewrite (IH Hw).
  apply negb_true_iff in Hc. rewrite Hc. reflexivity.
Qed.

(** A word is its own single field. *)
Lemma fields_word (w : string) : is_field w = true -> Str.fields w = [w].
Proof.
  unfold is_field. intros H. apply andb_true_iff in H. destruct H as [Hne Hw].
  unfold Str.fields. rewrite (word_and_rest_word w Hw), Hne. reflexivity.
Qed.

Lemma rstrip_word (w : string) :
  all_chars (fun c => negb (Str.is_space c)) w = true -> Str.rstrip w = w.
Proof.
  induction w as [|c w IH]; intros H; [reflexivity|].
  cbn [all_chars] in H. apply andb_true_iff in H. destruct H as [Hc Hw].
  cbn [Str.rstrip]. rewrite (IH Hw). apply negb_true_iff in Hc. rewrite Hc.
  destruct w; reflexivity.
Qed.

(** Stripping a word changes nothing. *)
Lemma strip_word (w : string) : is_field w = true -> Str.strip w = w.
Proof.
  unfold is_field. intros H. apply andb_true_iff in H. destruct H as [Hne Hw].
  unfold Str.strip. rewrite lstrip_fixed.
  - apply rstrip_word. exact Hw.
  - destruct w as [|c w]; [reflexivity|]. cbn [all_chars] in Hw.
    apply andb_true_iff in Hw. destruct Hw as [Hc _].
    apply negb_true_iff in Hc. exact Hc.
Qed.

Lemma pod_of_table_line_spec namespace cluster_name resource_group line pod :
  pod_of_table_line namespace cluster_name resource_group line = Some pod ->
  exists first columns,
    Str.fields line = first :: columns
    /\ pod = AKSPod.mk first namespace cluster_name resource_group
               (match columns with _ :: status :: _ => status | _ => "Unknown" end) ∅ [].
Proof.
  unfold pod_of_table_line. pose proof (fields_clean line) as Hc.
  destruct (Str.fields line) as [|first columns]; [discriminate|].
  inversion Hc as [|? ? Hf _]; subst.
  rewrite (strip_word first Hf).
  unfold is_field in Hf. apply andb_true_iff in Hf. destruct Hf as [-> _].
  intros [= <-]. exists first, columns. split; reflexivity.
Qed.

(** X19: a pod read from the table that [kubectl get pods] prints is named
    by the first field of a line after the header, a non-empty name without
    white space; its status is the third field of the line, or [Unknown]
    when there are fewer than three; it has the namespace, cluster and
    resource group asked for, no labels and no containers. *)
Theorem table_pods_are_named_by_first_column
    (namespace cluster_name resource_group stdout : string) (pod : AKSPod.t) :
  In pod (pods_of_table namespace cluster_name resource_group stdout) ->
  is_field (AKSPod.name pod) = true
  /\ AKSPod.namespace pod = namespace
  /\ AKSPod.cluster_name pod = cluster_name
  /\ AKSPod.cluster_resource_group pod = resource_group
  /\ AKSPod.labels pod = ∅ /\ AKSPod.containers pod = []
  /\ exists line,
       In line (tail (Str.split "010"%char (Str.strip stdout)))
       /\ head (Str.fields line) = Some (AKSPod.name pod)
       /\ AKSPod.status pod = default "Unknown" (Str.fields line !! 2%nat).
Proof.
  unfold pods_of_table. destruct (1 <? _)%nat; [|intros []].
  intros Hin. apply in_omap in Hin. destruct Hin as [line [Hline Hpod]].
  apply pod_of_table_line_spec in Hpod. destruct Hpod as [first [columns [Hf ->]]].
  cbn [AKSPod.name AKSPod.namespace AKSPod.cluster_name AKSPod.cluster_resource_group
       AKSPod.labels AKSPod.containers AKSPod.status].
  pose proof (fields_clean line) as Hc. rewrite Hf in Hc.
  inversion Hc as [|? ? Hfirst _]; subst.
  split; [exact Hfirst|]. repeat (split; [reflexivity|]).
  exists line. split; [exact Hline|]. rewrite Hf. split; [reflexivity|].
  destruct columns as [|c1 [|c2 cs]]; reflexivity.
Qed.

Lemma table_pods_are_named_by_first_column_witness :
  is_field (AKSPod.name eventstore_pod) = true
  /\ AKSPod.namespace eventstore_pod = "eventstore"
  /\ AKSPod.cluster_name eventstore_pod = "aks-temenos"
  /\ AKSPod.cluster_resource_group eventstore_pod = "rg-temenos"
  /\ AKSPod.labels eventstore_pod = ∅ /\ AKSPod.containers eventstore_pod = []
  /\ exists line,
       In line (tail (Str.split "010"%char (Str.strip eventstore_table)))
       /\ head (Str.fields line) = Some (AKSPod.name eventstore_pod)
       /\ AKSPod.status eventstore_pod = default "Unknown" (Str.fields line !! 2%nat).
Proof.
  apply (table_pods_are_named_by_first_column "eventstore" "aks-temenos" "rg-temenos"
           eventstore_table).
  vm_compute. left. reflexivity.
Defined.

(** X20: a line of the table made of a name, a ready column and a status
    column, separated by white space, gives the pod of that name with that
    status, whatever follows the status. *)
Theorem table_row_gives_name_and_status
    (namespace cluster_name resource_group name ready status gap1 gap2 rest : string)
    (c1 c2 c3 : ascii) :
  is_field name = true -> is_field ready = true -> is_field status = true ->
  Str.is_space c1 = true -> Str.is_space c2 = true -> Str.is_space c3 = true ->
  all_chars Str.is_space gap1 = true -> all_chars Str.is_space gap2 = true ->
  pod_of_table_line namespace cluster_name resource_group
    (name +:+ String c1 (gap1 +:+ ready +:+ String c2 (gap2 +:+ status +:+ String c3 rest)))
  = Some (AKSPod.mk name namespace cluster_name resource_group status ∅ []).
Proof.
  intros Hn Hr Hs H1 H2 H3 Hg1 Hg2. unfold pod_of_table_line.
  rewrite (fields_app name _ c1 H1), (fields_word name Hn).
  rewrite (fields_gap gap1 _ Hg1), (fields_app ready _ c2 H2), (fields_word ready Hr).
  rewrite (fields_gap gap2 _ Hg2), (fields_app status _ c3 H3), (fields_word status Hs).
  cbn [app]. rewrite (strip_word name Hn).
  unfold is_field in Hn. apply andb_true_iff in Hn. destruct Hn as [-> _].
  reflexivity.
Qed.

Lemma table_row_gives_name_and_status_witness :
  pod_of_table_line "eventstore" "aks-temenos" "rg-temenos"
    "eventstore-0   1/1     Running   0          5d"
  = Some eventstore_pod.
Proof.
  apply (table_row_gives_name_and_status "eventstore" "aks-temenos" "rg-temenos"
           "eventstore-0" "1/1" "Running" "  " "    " "  0          5d"
           " "%char " "%char " "%char);
    reflexivity.
Defined.

(** ** Pods of a cluster and credentials *)

Lemma pods_of_table_origin namespace cluster_name resource_group stdout pod :
  In pod (pods_of_table namespace cluster_name resource_group stdout) ->
  AKSPod.namespace pod = namespace
  /\ AKSPod.cluster_name pod = cluster_name
  /\ AKSPod.cluster_resource_group pod = resource_group.
Proof.
  unfold pods_of_table. destruct (1 <? _)%nat; [|intros []].
  intros Hin. apply in_omap in Hin. destruct Hin as [line [_ Hpod]].
  apply pod_of_table_line_spec in Hpod. destruct Hpod as [first [columns [_ ->]]].
  repeat split.
Qed.

Lemma pods_of_namespace_origin env kubeconfig cluster_name resource_group namespace pod :
  In pod (pods_of_namespace env kubeconfig cluster_name resource_group namespace) ->
  AKSPod.namespace pod = namespace
  /\ AKSPod.cluster_name pod = cluster_name
  /\ AKSPod.cluster_resource_group pod = resource_group.
Proof.
  unfold pods_of_namespace.
  destruct (run_kubectl_get_pods_json env kubeconfig namespace) as [result|e]; [|intros []].
  destruct (if (returncode result =? 0)%Z then _ else None) as [items|].
  - unfold pods_of_items. intros Hin. apply in_map_iff in Hin.
    destruct Hin as [item [<- _]]. repeat split.
  - destruct (run_kubectl_get_pods_table env kubeconfig namespace) as [table|e]; [|intros []].
    destruct (_ && _); [|intros []]. apply pods_of_table_origin.
Qed.

Lemma relevant_is_no_system_namespace temenos_namespaces ns_name :
  namespace_is_relevant temenos_namespaces ns_name = true ->
  ~ In ns_name system_namespaces.
Proof.
  unfold namespace_is_relevant.
  destruct (is_one_of ns_name system_namespaces) eqn:E; [discriminate|].
  intros _ Hin. unfold is_one_of in E.
  assert (existsb (String.eqb ns_name) system_namespaces = true); [|congruence].
  apply existsb_exists. exists ns_name. split; [exact Hin | apply String.eqb_refl].
Qed.

(** X21: every pod returned by [get_pods_from_cluster] lies in a namespace
    that the relevance filter keeps, so in none of the four system
    namespaces; it carries the name of the cluster and the resource group
    read from the cluster id (the segment after [resourceGroups], else the
    resource group of the cluster); and it was found after a kubeconfig was
    obtained and [kubectl get namespaces] exited with 0 and printed a
    document that lists the namespace. *)
Theorem pods_come_from_relevant_namespaces (env : kubectl_env)
    (cluster : AzureResource.t) (temenos_namespaces : option (list string))
    (pod : AKSPod.t) :
  In pod (get_pods_from_cluster env cluster temenos_namespaces) ->
  namespace_is_relevant temenos_namespaces (AKSPod.namespace pod) = true
  /\ ~ In (AKSPod.namespace pod) system_namespaces
  /\ AKSPod.cluster_name pod = AzureResource.name cluster
  /\ part_after "resourceGroups" (Str.split "/"%char (AzureResource.id cluster))
       (AzureResource.resource_group cluster)
     = Ret (AKSPod.cluster_resource_group pod)
  /\ exists kubeconfig result items,
       kubeconfig_for env (AKSPod.cluster_resource_group pod) (AzureResource.name cluster)
         = Ret (Some kubeconfig)
       /\ run_kubectl_get_namespaces env kubeconfig = Ret result
       /\ returncode result = 0%Z
       /\ loads_items (loads_namespaces env) (stdout result) = Some items
       /\ In (AKSPod.namespace pod)
            (map (fun ns => default "" (K8s.namespace_name ns)) items).
Proof.
  unfold get_pods_from_cluster, get_pods_from_cluster_body.
  destruct (part_after "resourceGroups" _ _) as [resource_group|e]; [|intros []].
  destruct (kubeconfig_for env resource_group (AzureResource.name cluster))
    as [[kubeconfig|]|e] eqn:Ek; try (intros []).
  destruct (run_kubectl_get_namespaces env kubeconfig) as [result|e] eqn:Er; [|intros []].
  destruct (returncode result =? 0)%Z eqn:Erc; cbn [negb]; [|intros []].
  destruct (loads_items (loads_namespaces env) (stdout result)) as [items|] eqn:Ei;
    [|intros []].
  intros Hin. apply in_flat_map in Hin. destruct Hin as [ns [Hns Hin]].
  apply pods_of_namespace_origin in Hin. destruct Hin as [Hn [Hc Hr]].
  unfold relevant_namespaces in Hns.
  apply list_elem_of_In, list_elem_of_filter in Hns. destruct Hns as [Hrel Hns].
  rewrite Hn.
  split; [exact Hrel|].
  split; [apply (relevant_is_no_system_namespace temenos_namespaces); exact Hrel|].
  split; [exact Hc|]. split; [rewrite Hr; reflexivity|].
  exists kubeconfig, result, items. rewrite Hr.
  split; [exact Ek|]. split; [exact Er|]. split; [apply Z.eqb_eq; exact Erc|].
  split; [exact Ei|].
  apply list_elem_of_In. exact Hns.
Qed.

Lemma pods_come_from_relevant_namespaces_witness :
  namespace_is_relevant None (AKSPod.namespace eventstore_pod) = true
  /\ ~ In (AKSPod.namespace eventstore_pod) system_namespaces
  /\ AKSPod.cluster_name eventstore_pod = AzureResource.name cluster_resource
  /\ part_after "resourceGroups" (Str.split "/"%char (AzureResource.id cluster_resource))
       (AzureResource.resource_group cluster_resource)
     = Ret (AKSPod.cluster_resource_group eventstore_pod)
  /\ exists kubeconfig result items,
       kubeconfig_for rancher_desktop (AKSPod.cluster_resource_group eventstore_pod)
         (AzureResource.name cluster_resource) = Ret (Some kubeconfig)
       /\ run_kubectl_get_namespaces rancher_desktop kubeconfig = Ret result
       /\ returncode result = 0%Z
       /\ loads_items (loads_namespaces rancher_desktop) (stdout result) = Some items
       /\ In (AKSPod.namespace eventstore_pod)
            (map (fun ns => default "" (K8s.namespace_name ns)) items).
Proof.
  apply (pods_come_from_relevant_namespaces rancher_desktop cluster_resource None).
  vm_compute. left. reflexivity.
Defined.

(** The outcome of the credential resolution, case by case. *)
Lemma get_cluster_credentials_cases (env : credential_env) (resource_group cluster : string) :
  get_cluster_credentials env resource_group cluster
  = match run_az_get_credentials env, run_kubectl_version env with
    | Ret az, Ret kubectl =>
        if (kubeconfig_created env
            || ((returncode az =? 0)%Z && default_kubeconfig_exists env))
           && (returncode kubectl =? 0)%Z
        then Some (mk_credentials
                     (if kubeconfig_created env
                      then temp_dir env +:+ "/" +:+ cluster +:+ "_kubeconfig.yaml"
                      else default_kubeconfig env)
                     cluster false)
        else None
    | _, _ => None
    end.
Proof.
  unfold get_cluster_credentials, get_cluster_credentials_body,
    _get_credentials, _check_default_config, _check_kubectl, Scope.using_shutil.
  change (Scope.resolves "shutil"
            [Scope._get_credentials; Scope.get_cluster_credentials; Scope.aks_service_module])
    with true.
  change (Scope.resolves "shutil"
            [Scope._check_default_config; Scope.get_cluster_credentials;
             Scope.aks_service_module])
    with false.
  change (Scope.resolves "shutil"
            [Scope._check_kubectl; Scope.get_cluster_credentials; Scope.aks_service_module])
    with true.
  cbv iota.
  destruct (run_az_get_credentials env) as [az|e]; [|reflexivity].
  destruct (returncode az =? 0)%Z; destruct (kubeconfig_created env);
    destruct (default_kubeconfig_exists env); cbn [negb andb orb];
    destruct (run_kubectl_version env) as [k|e]; try reflexivity;
    destruct (returncode k =? 0)%Z; reflexivity.
Qed.

(** X22: [get_cluster_credentials] returns a bundle exactly when the Azure
    CLI ran, [kubectl version --client] ran and exited with 0, and either
    the kubeconfig of the cluster was written or the Azure CLI exited with 0
    and the default kubeconfig exists.  The bundle names the written file if
    there is one and the default kubeconfig otherwise, and it never says
    [use_default]. *)
Theorem credentials_need_a_file_and_kubectl
    (env : credential_env) (resource_group cluster : string) (creds : credentials) :
  get_cluster_credentials env resource_group cluster = Some creds
  <-> exists az kubectl,
        run_az_get_credentials env = Ret az
        /\ run_kubectl_version env = Ret kubectl
        /\ returncode kubectl = 0%Z
        /\ (kubeconfig_created env = true
            \/ (returncode az = 0%Z /\ default_kubeconfig_exists env = true))
        /\ creds = mk_credentials
                     (if kubeconfig_created env
                      then temp_dir env +:+ "/" +:+ cluster +:+ "_kubeconfig.yaml"
                      else default_kubeconfig env)
                     cluster false.
Proof.
  rewrite get_cluster_credentials_cases. split.
  - destruct (run_az_get_credentials env) as [az|e]; [|discriminate].
    destruct (run_kubectl_version env) as [k|e]; [|discriminate].
    destruct (_ && (returncode k =? 0)%Z) eqn:E; [|discriminate].
    intros [= <-]. apply andb_true_iff in E. destruct E as [E1 E2].
    exists az, k. split; [reflexivity|]. split; [reflexivity|].
    split; [apply Z.eqb_eq; exact E2|]. split; [|reflexivity].
    apply orb_true_iff in E1. destruct E1 as [E1|E1]; [left; exact E1|].
    apply andb_true_iff in E1. destruct E1 as [E1 E3].
    right. split; [apply Z.eqb_eq; exact E1 | exact E3].
  - intros [az [k [-> [-> [Hk [Hfile ->]]]]]].
    apply Z.eqb_eq in Hk. rewrite Hk, andb_true_r.
    destruct Hfile as [->|[Haz ->]]; [reflexivity|].
    apply Z.eqb_eq in Haz. rewrite Haz, orb_true_r. reflexivity.
Qed.

(** X23: the kubeconfig that [get_pods_from_cluster] runs [kubectl] with is
    the file written for the cluster, which then exists, or the default
    kubeconfig, which then exists; when neither file exists no pod is
    returned. *)
Theorem pods_are_listed_through_an_existing_kubeconfig (env : kubectl_env)
    (cluster : AzureResource.t) (temenos_namespaces : option (list string)) :
  (forall resource_group kubeconfig,
     kubeconfig_for env resource_group (AzureResource.name cluster) = Ret (Some kubeconfig) ->
     (kubeconfig_created (machine env) = true
      /\ kubeconfig = temp_dir (machine env) +:+ "/" +:+ AzureResource.name cluster
                        +:+ "_kubeconfig.yaml")
     \/ (default_kubeconfig_exists (machine env) = true
         /\ kubeconfig = default_kubeconfig (machine env)))
  /\ (kubeconfig_created (machine env) = false ->
      default_kubeconfig_exists (machine env) = false ->
      get_pods_from_cluster env cluster temenos_namespaces = []).
Proof.
  split.
  - intros resource_group kubeconfig. unfold kubeconfig_for.
    rewrite get_cluster_credentials_cases.
    destruct (run_az_get_credentials (machine env)) as [az|e].
    + destruct (run_kubectl_version (machine env)) as [k|e].
      * destruct (_ && (returncode k =? 0)%Z) eqn:E.
        -- cbn [kubeconfig_path]. apply andb_true_iff in E. destruct E as [E _].
           destruct (kubeconfig_created (machine env)).
           ++ destruct (Str.nonempty _); [intros [= <-]; left; auto|].
              destruct (default_kubeconfig_exists (machine env)) eqn:Hd; cbn [andb];
                [|discriminate].
              destruct (Str.nonempty _); [intros [= <-]; right; auto | discriminate].
           ++ cbn [orb] in E. apply andb_true_iff in E. destruct E as [_ Hd]. rewrite Hd.
              destruct (Str.nonempty (default_kubeconfig (machine env)));
                cbn [andb]; [intros [= <-]; right; auto | discriminate].
        -- destruct (default_kubeconfig_exists (machine env)); [|discriminate].
           destruct (run_kubectl_use_context env _); [|discriminate].
           intros [= <-]. right. auto.
      * destruct (default_kubeconfig_exists (machine env)); [|discriminate].
        destruct (run_kubectl_use_context env _); [|discriminate].
        intros [= <-]. right. auto.
    + destruct (default_kubeconfig_exists (machine env)); [|discriminate].
      destruct (run_kubectl_use_context env _); [|discriminate].
      intros [= <-]. right. auto.
  - intros Hc Hd. unfold get_pods_from_cluster, get_pods_from_cluster_body.
    destruct (part_after "resourceGroups" _ _) as [resource_group|e]; [|reflexivity].
    unfold kubeconfig_for. rewrite get_cluster_credentials_cases, Hc, Hd.
    destruct (run_az_get_credentials (machine env)) as [az|e]; [|reflexivity].
    destruct (run_kubectl_version (machine env)) as [k|e]; [|reflexivity].
    rewrite andb_false_r. reflexivity.
Qed.

(** ** Listing resources *)

Lemma discover_pods_app f (a b : list AzureResource.t) ns :
  discover_pods_from_resources f (a ++ b) ns
  = discover_pods_from_resources f a ns ++ discover_pods_from_resources f b ns.
Proof.
  unfold discover_pods_from_resources. rewrite filter_app, flat_map_app. reflexivity.
Qed.

Lemma discovered_pods_are_no_clusters f resources ns r :
  In r (discover_pods_from_resources f resources ns) -> _is_aks_cluster r = false.
Proof.
  unfold discover_pods_from_resources. intros Hin.
  apply in_flat_map in Hin. destruct Hin as [cluster [_ Hin]].
  destruct (f cluster ns) as [pods|e]; [|destruct Hin].
  apply in_map_iff in Hin. destruct Hin as [p [<- _]]. reflexivity.
Qed.

Lemma discover_nothing_without_clusters f (l : list AzureResource.t) ns :
  (forall r, In r l -> _is_aks_cluster r = false) ->
  discover_pods_from_resources f l ns = [].
Proof.
  intros H. unfold discover_pods_from_resources.
  rewrite (filter_none _ l); [reflexivity|].
  intros r Hr. rewrite (H r Hr). discriminate.
Qed.

(** Discovery run on its own output finds the same pods again. *)
Lemma discover_again f resources ns :
  discover_pods_from_resources f
    (resources ++ discover_pods_from_resources f resources ns) ns
  = discover_pods_from_resources f resources ns.
Proof.
  rewrite discover_pods_app.
  rewrite (discover_nothing_without_clusters f (discover_pods_from_resources f resources ns)).
  - apply app_nil_r.
  - intros r Hr. eapply discovered_pods_are_no_clusters. exact Hr.
Qed.

Lemma cluster_type_contains (r : AzureResource.t) :
  _is_aks_cluster r = true ->
  Str.contains "microsoft.containerservice/managedclusters"
    (Str.lower (AzureResource.type r)) = true.
Proof.
  unfold _is_aks_cluster. intros H. apply String.eqb_eq in H. rewrite H. reflexivity.
Qed.


(** X25: when the list that [get_resources] answered (resources, then
    discovered pods) is submitted to the analyze operation in the same
    surroundings, and the subscription read from the first resource is the
    one [get_resources] was asked for, the operation discovers the same
    pods again and analyses the submitted list followed by these pods: every
    discovered pod is processed twice. *)
Theorem resubmitted_pods_are_analysed_twice list_by_resource_group get_azure_service env
    (subscription_id : string) (resource_group_names : list string)
    (response : ResourcesResponse) (request : AnalyzeRequest) :
  get_resources list_by_resource_group get_azure_service env
    subscription_id resource_group_names = Ret response ->
  services request = resources_data response ->
  subscription_of (resources_data response) = Ret (Some subscription_id) ->
  exists pods,
    resources_data response
    = get_resources_by_resource_groups list_by_resource_group resource_group_names ++ pods
    /\ fst (_analyze_services_impl env request)
       = Ret (respond env request (resources_data response ++ pods)).
Proof.
  unfold get_resources, get_resources_body.
  destruct (Str.nonempty subscription_id) eqn:Hsub; cbn [negb]; [|discriminate].
  destruct resource_group_names as [|g gs] eqn:Hg; [discriminate|]. rewrite <- Hg.
  destruct (get_azure_service subscription_id) as [[]|e']; [|discriminate].
  set (resources := get_resources_by_resource_groups list_by_resource_group
                      resource_group_names).
  intros [= <-] Hservices Hsubscription.
  cbn [resources_data] in *.
  set (pods := match aks_service_init env subscription_id with
               | Ret _ => discover_pods_from_resources (pods_of_cluster env) resources None
               | Raise _ => []
               end) in *.
  exists pods. split; [reflexivity|].
  unfold _analyze_services_impl, _analyze_services_body.
  rewrite Hservices.
  destruct (resources ++ pods) as [|first rest] eqn:Hall.
  { unfold subscription_of in Hsubscription. discriminate. }
  rewrite Hsubscription, Hsub. cbn [fst].
  f_equal. f_equal. f_equal. rewrite <- Hall.
  unfold discover_for_analysis.
  assert (Hpods : forall r, In r pods -> _is_aks_cluster r = false).
  { intros r Hr. subst pods.
    destruct (aks_service_init env subscription_id); [|destruct Hr].
    eapply discovered_pods_are_no_clusters. exact Hr. }
  assert (Hagain : discover_pods_from_resources (pods_of_cluster env) (resources ++ pods) None
                   = discover_pods_from_resources (pods_of_cluster env) resources None).
  { rewrite discover_pods_app,
      (discover_nothing_without_clusters _ pods None Hpods).
    apply app_nil_r. }
  destruct (filter _ (resources ++ pods)) as [|c cs] eqn:Hclusters.
  - (* no resource looks like a cluster: nothing was discovered either *)
    cbn [fst].
    assert (Hnone : discover_pods_from_resources (pods_of_cluster env) resources None = []).
    { apply discover_nothing_without_clusters. intros r Hr.
      destruct (_is_aks_cluster r) eqn:Hc; [|reflexivity].
      assert (Hin : r ∈ filter (fun s => Str.contains "microsoft.containerservice/managedclusters"
                                  (Str.lower (AzureResource.type s)) = true)
                          (resources ++ pods)).
      { apply list_elem_of_filter. split; [apply cluster_type_contains; exact Hc|].
        apply list_elem_of_In, in_or_app. left. exact Hr. }
      rewrite Hclusters in Hin. inversion Hin. }
    subst pods. rewrite Hnone.
    destruct (aks_service_init env subscription_id); reflexivity.
  - rewrite Hagain. subst pods.
    destruct (aks_service_init env subscription_id); [|reflexivity].
    destruct (discover_pods_from_resources (pods_of_cluster env) resources None);
      reflexivity.
Qed.

Lemma resubmitted_pods_are_analysed_twice_witness :
  exists pods,
    resources_data cluster_and_pod
    = get_resources_by_resource_groups (fun _ => Ret [sdk_cluster]) ["rg-temenos"] ++ pods
    /\ fst (_analyze_services_impl cluster_env
              (mk_request (resources_data cluster_and_pod) None None None))
       = Ret (respond cluster_env
                (mk_request (resources_data cluster_and_pod) None None None)
                (resources_data cluster_and_pod ++ pods)).
Proof.
  apply (resubmitted_pods_are_analysed_twice (fun _ => Ret [sdk_cluster]) (fun _ => Ret tt)
           cluster_env "sub-1" ["rg-temenos"] cluster_and_pod);
    vm_compute; reflexivity.
Defined.

(** ** Namespaces by cluster *)

Lemma dict_set_keys {V : Type} (k : string) (v : V) (d : list (string * V)) :
  map fst (dict_set k v d)
  = if existsb (String.eqb k) (map fst d) then map fst d else map fst d ++ [k].
Proof.
  induction d as [|[k' v'] d IH]; [reflexivity|].
  cbn [dict_set map fst existsb]. rewrite (String.eqb_sym k k').
  destruct (String.eqb_spec k' k) as [->|Hne]; [reflexivity|].
  cbn [orb map fst]. rewrite IH.
  destruct (existsb (String.eqb k) (map fst d)); reflexivity.
Qed.

Lemma dict_set_keys_nodup {V : Type} (k : string) (v : V) (d : list (string * V)) :
  List.NoDup (map fst d) -> List.NoDup (map fst (dict_set k v d)).
Proof.
  intros Hnd. rewrite dict_set_keys.
  destruct (existsb (String.eqb k) (map fst d)) eqn:E; [exact Hnd|].
  apply NoDup_ListNoDup, NoDup_app. split; [apply NoDup_ListNoDup; exact Hnd|].
  split; [|apply NoDup_ListNoDup; constructor; [intros []|constructor]].
  intros x Hx Hx'. apply list_elem_of_In in Hx, Hx'. destruct Hx' as [<-|[]].
  assert (existsb (String.eqb k) (map fst d) = true); [|congruence].
  apply existsb_exists. exists k. split; [exact Hx | apply String.eqb_refl].
Qed.

Lemma dict_set_in {V : Type} (k : string) (v : V) (d : list (string * V)) k' v' :
  List.NoDup (map fst d) ->
  In (k', v') (dict_set k v d) ->
  (k' = k /\ v' = v) \/ (k' <> k /\ In (k', v') d).
Proof.
  induction d as [|[k0 v0] d IH]; intros Hnd Hin.
  - destruct Hin as [[= <- <-]|[]]. left. auto.
  - cbn [dict_set] in Hin. inversion Hnd as [|? ? Hnotin Hnd']; subst.
    destruct (String.eqb_spec k0 k) as [->|Hne].
    + destruct Hin as [[= <- <-]|Hin]; [left; auto|].
      right. split; [|right; exact Hin].
      intros ->. apply Hnotin. apply in_map_iff. exists (k, v'). auto.
    + destruct Hin as [[= <- <-]|Hin].
      * right. split; [exact Hne | left; reflexivity].
      * destruct (IH Hnd' Hin) as [H|[H1 H2]]; [left; exact H|].
        right. split; [exact H1 | right; exact H2].
Qed.

Lemma dict_set_has_key {V : Type} (k : string) (v : V) (d : list (string * V)) k' :
  In k' (map fst d) \/ k' = k -> In k' (map fst (dict_set k v d)).
Proof.
  rewrite dict_set_keys. intros [H| ->].
  - destruct (existsb _ _); [exact H | apply in_or_app; left; exact H].
  - destruct (existsb (String.eqb k) (map fst d)) eqn:E.
    + apply existsb_exists in E. destruct E as [x [Hx He]].
      apply String.eqb_eq in He. subst x. exact Hx.
    + apply in_or_app. right. left. reflexivity.
Qed.

(** The dict built by the loop over the clusters. *)
Lemma cluster_namespaces_spec (entry : AzureResource.t -> ClusterNamespaces)
    (clusters : list AzureResource.t) :
  let d := fold_left (fun d cluster => dict_set (AzureResource.name cluster) (entry cluster) d)
             clusters [] in
  List.NoDup (map fst d)
  /\ (forall c, In c clusters -> In (AzureResource.name c) (map fst d))
  /\ (forall k v, In (k, v) d ->
        exists pre c post,
          clusters = pre ++ c :: post /\ AzureResource.name c = k /\ v = entry c
          /\ forall c', In c' post -> AzureResource.name c' <> k).
Proof.
  cbv zeta. induction clusters as [|c clusters IH] using rev_ind.
  - simpl. split; [constructor|]. split; [intros c []| intros k v []].
  - rewrite fold_left_app. cbn [fold_left].
    destruct IH as [Hnd [Hall Hlast]].
    split; [apply dict_set_keys_nodup; exact Hnd|]. split.
    + intros c0 Hc0. apply dict_set_has_key. apply in_app_or in Hc0.
      destruct Hc0 as [Hc0|[<-|[]]]; [left; apply Hall; exact Hc0 | right; reflexivity].
    + intros k v Hin. apply dict_set_in in Hin; [|exact Hnd].
      destruct Hin as [[-> ->]|[Hne Hin]].
      * exists clusters, c, []. split; [reflexivity|]. split; [reflexivity|].
        split; [reflexivity | intros c' []].
      * destruct (Hlast k v Hin) as [pre [c0 [post [-> [Hk [Hv Hpost]]]]]].
        exists pre, c0, (post ++ [c]). split; [rewrite <- app_assoc; reflexivity|].
        split; [exact Hk|]. split; [exact Hv|].
        intros c' Hc'. apply in_app_or in Hc'. destruct Hc' as [Hc'|[<-|[]]].
        -- apply Hpost. exact Hc'.
        -- congruence.
Qed.

(** X26: a successful answer of [get_aks_namespaces] has at most one entry
    for a cluster name and no more entries than clusters; the name of every
    cluster has an entry; an entry is the one computed for the last cluster
    of its name; and with at least one cluster [count] is the number of
    entries. *)
Theorem one_entry_per_cluster_name
    list_by_resource_group get_azure_service aks_service_init list_cluster_namespaces str_of_exception
    (subscription_id : string) (resource_group_names : list string)
    (response : NamespacesResponse) :
  get_aks_namespaces list_by_resource_group get_azure_service aks_service_init
    list_cluster_namespaces str_of_exception subscription_id resource_group_names = Ret response ->
  let clusters :=
    filter (fun r => Str.contains "microsoft.containerservice/managedclusters"
                       (Str.lower (AzureResource.type r)) = true)
      (get_resources_by_resource_groups list_by_resource_group resource_group_names) in
  namespaces_status response = "success"
  /\ List.NoDup (map entry_cluster_name (namespaces_data response))
  /\ length (namespaces_data response) <= length clusters
  /\ (clusters <> [] -> namespaces_count response = Some (length (namespaces_data response)))
  /\ (forall c, In c clusters ->
        In (AzureResource.name c) (map entry_cluster_name (namespaces_data response)))
  /\ (forall entry, In entry (namespaces_data response) ->
        exists pre c post,
          clusters = pre ++ c :: post
          /\ entry = namespaces_entry list_cluster_namespaces str_of_exception c
          /\ forall c', In c' post -> AzureResource.name c' <> AzureResource.name c).
Proof.
  unfold get_aks_namespaces, get_aks_namespaces_body.
  destruct (Str.nonempty subscription_id); cbn [negb]; [|discriminate].
  destruct resource_group_names as [|g gs] eqn:Hg; [discriminate|]. rewrite <- Hg.
  destruct (get_azure_service subscription_id) as [[]|e]; [|discriminate].
  cbv zeta.
  set (clusters := filter _ (get_resources_by_resource_groups _ _)).
  destruct clusters as [|c0 cs] eqn:Hc.
  { intros [= <-]. cbn [namespaces_status namespaces_data namespaces_count map length].
    split; [reflexivity|]. split; [constructor|]. split; [lia|].
    split; [intros H; contradiction|]. split; [intros c []|intros entry []]. }
  rewrite <- Hc. clear Hc.
  destruct (aks_service_init subscription_id) as [[]|e]; [|discriminate].
  intros [= <-]. cbn [namespaces_status namespaces_data namespaces_count].
  destruct (cluster_namespaces_spec (namespaces_entry list_cluster_namespaces str_of_exception) clusters)
    as [Hnd [Hall Hlast]].
  set (d := fold_left _ clusters []) in *.
  assert (Hnames : map entry_cluster_name (map snd d) = map fst d).
  { rewrite map_map. apply map_ext_in. intros [k v] Hin.
    destruct (Hlast k v Hin) as [pre [c [post [_ [Hk [-> _]]]]]].
    cbn [snd fst]. unfold namespaces_entry.
    destruct (list_cluster_namespaces c); exact Hk. }
  split; [reflexivity|]. rewrite Hnames.
  split; [exact Hnd|]. split.
  { rewrite length_map.
    assert (Hlen : forall (l : list AzureResource.t) (d0 : list (string * ClusterNamespaces)),
              length (fold_left (fun d cluster =>
                        dict_set (AzureResource.name cluster)
                          (namespaces_entry list_cluster_namespaces str_of_exception cluster) d) l d0)
              <= length d0 + length l).
    { induction l as [|c l IH]; intros d0; [simpl; lia|].
      cbn [fold_left]. etransitivity; [apply IH|].
      rewrite <- (length_map fst (dict_set _ _ d0)), dict_set_keys.
      destruct (existsb _ _); rewrite ?length_app, !length_map; simpl; lia. }
    specialize (Hlen clusters []). simpl in Hlen. exact Hlen. }
  split; [intros _; rewrite length_map; reflexivity|].
  split; [exact Hall|].
  intros entry Hin. apply in_map_iff in Hin. destruct Hin as [[k v] [<- Hin]].
  destruct (Hlast k v Hin) as [pre [c [post [Heq [Hk [-> Hpost]]]]]].
  exists pre, c, post. split; [exact Heq|]. split; [reflexivity|].
  intros c' Hc'. rewrite Hk. apply Hpost. exact Hc'.
Qed.

Lemma one_entry_per_cluster_name_witness :
  let clusters :=
    filter (fun r => Str.contains "microsoft.containerservice/managedclusters"
                       (Str.lower (AzureResource.type r)) = true)
      (get_resources_by_resource_groups (fun _ => Ret [sdk_cluster]) ["rg-temenos"]) in
  namespaces_status cluster_with_eventstore = "success"
  /\ List.NoDup (map entry_cluster_name (namespaces_data cluster_with_eventstore))
  /\ length (namespaces_data cluster_with_eventstore) <= length clusters
  /\ (clusters <> [] ->
      namespaces_count cluster_with_eventstore
      = Some (length (namespaces_data cluster_with_eventstore)))
  /\ (forall c, In c clusters ->
        In (AzureResource.name c)
          (map entry_cluster_name (namespaces_data cluster_with_eventstore)))
  /\ (forall entry, In entry (namespaces_data cluster_with_eventstore) ->
        exists pre c post,
          clusters = pre ++ c :: post
          /\ entry = namespaces_entry (fun _ => Ret ["eventstore"]) (fun _ => "") c
          /\ forall c', In c' post -> AzureResource.name c' <> AzureResource.name c).
Proof.
  apply (one_entry_per_cluster_name (fun _ => Ret [sdk_cluster]) (fun _ => Ret tt)
           (fun _ => Ret tt) (fun _ => Ret ["eventstore"]) (fun _ => "")
           "sub-1" ["rg-temenos"] cluster_with_eventstore).
  vm_compute. reflexivity.
Defined.

(** ** Connecting to a subscription *)

Lemma lower_app (a b : string) : Str.lower (a +:+ b) = Str.lower a +:+ Str.lower b.
Proof.
  induction a as [|c a IH]; [reflexivity|].
  rewrite append_cons. simpl. rewrite IH. reflexivity.
Qed.

Lemma contains_app_l (p a b : string) :
  Str.contains p a = true -> Str.contains p (a +:+ b) = true.
Proof.
  rewrite !contains_iff. intros [x [y ->]]. exists x, (y +:+ b).
  rewrite !append_assoc. reflexivity.
Qed.

Lemma contains_app_r (p a b : string) :
  Str.contains p b = true -> Str.contains p (a +:+ b) = true.
Proof.
  rewrite !contains_iff. intros [x [y ->]]. exists (a +:+ x), y.
  rewrite !append_assoc. reflexivity.
Qed.

(** The error type of a response. *)
Lemma connect_runtime_error_type app sub msg :
  exists steps,
    connect_runtime_error app sub msg
    = ConnectFailed 500 msg
        (if Str.contains "authentication" (Str.lower msg)
            || Str.contains "credential" (Str.lower msg) then "authentication"
         else if Str.contains "permission" (Str.lower msg)
                 || Str.contains "authorization" (Str.lower msg) then "permission"
         else if Str.contains "not found" (Str.lower msg)
                 || Str.contains "subscription" (Str.lower msg) then "subscription"
         else "unknown")
        steps.
Proof.
  unfold connect_runtime_error.
  destruct (_ || _); [eexists; reflexivity|].
  destruct (_ || _); [eexists; reflexivity|].
  destruct (_ || _); eexists; reflexivity.
Qed.

Ltac found_in_prefix :=
  rewrite lower_app; apply contains_app_l; vm_compute; reflexivity.
Ltac found_in_suffix :=
  rewrite !lower_app; repeat (first [ apply contains_app_l; vm_compute; reflexivity
                                    | apply contains_app_r ]).

(** A message that mentions the subscription is never classified as
    unknown. *)
Lemma classified_when_subscription_is_mentioned (msg : string) :
  Str.contains "subscription" (Str.lower msg) = true ->
  let errorType :=
    if Str.contains "authentication" (Str.lower msg)
       || Str.contains "credential" (Str.lower msg) then "authentication"
    else if Str.contains "permission" (Str.lower msg)
            || Str.contains "authorization" (Str.lower msg) then "permission"
    else if Str.contains "not found" (Str.lower msg)
            || Str.contains "subscription" (Str.lower msg) then "subscription"
    else "unknown" in
  errorType = "authentication" \/ errorType = "permission" \/ errorType = "subscription".
Proof.
  intros H. cbv zeta. rewrite H, orb_true_r.
  destruct (_ || _); [auto|]. destruct (_ || _); auto.
Qed.

(** What the keyword branches of [test_connection] raise is classified. *)
Lemma keyword_branches_are_classified (app : bool) (sub error_msg error_type : string) :
  let msg :=
    if Str.contains "credential" (Str.lower error_msg)
       || Str.contains "authentication" (Str.lower error_msg)
       || Str.contains "unauthorized" (Str.lower error_msg) then
      if app then
        "Azure authentication failed in Azure App Service. Please ensure:
1. Managed Identity is enabled for the App Service
2. The Managed Identity has 'Reader' role on the subscription
3. OR configure Service Principal credentials via App Settings:
   - AZURE_CLIENT_ID
   - AZURE_CLIENT_SECRET
   - AZURE_TENANT_ID
4. Verify subscription ID is correct"
      else
        "Azure authentication failed. Please ensure:
1. Azure CLI is installed: https://aka.ms/installazurecliwindows
2. For interactive login: Run 'az login'
3. For non-interactive environments: Run 'az login --use-device-code'
4. Verify subscription ID is correct
5. Run: az account set --subscription <subscription-id>"
    else if Str.contains "permission" (Str.lower error_msg)
            || Str.contains "authorization" (Str.lower error_msg)
            || Str.contains "forbidden" (Str.lower error_msg) then
      "Insufficient permissions. Please ensure your Azure account has 'Reader' role on the subscription."
    else if Str.contains "not found" (Str.lower error_msg)
            || Str.contains "subscription" (Str.lower error_msg)
            || Str.contains "does not exist" (Str.lower error_msg) then
      "Subscription '" +:+ sub +:+ "' not found or you don't have access to it. Please verify:
1. The subscription ID is correct
2. You have access to this subscription
3. The subscription is active (not disabled)"
    else
      "Failed to connect to Azure: " +:+ error_msg +:+ "
Error type: " +:+ error_type +:+ "
Subscription ID: " +:+ sub +:+ "

Please check:
1. Azure CLI is installed and logged in (run: az login)
2. Subscription ID is correct
3. You have access to the subscription" in
  Str.contains "subscription" (Str.lower msg) = true.
Proof.
  cbv zeta.
  destruct (_ || _ || _); [destruct app; vm_compute; reflexivity|].
  destruct (_ || _ || _); [vm_compute; reflexivity|].
  destruct (_ || _ || _); [found_in_prefix | found_in_suffix].
Qed.

(** What [test_connection] raises, by status code. *)
Lemma test_connection_error_cases (app : bool) (sub : string) (e : azure_error) :
  (error_status_code e = Some 401%Z
   /\ Str.contains "authentication"
        (Str.lower (test_connection_error app sub e)) = true)
  \/ (error_status_code e = Some 403%Z
      /\ test_connection_error app sub e
         = "Insufficient permissions (403 Forbidden). Please ensure your Azure account has 'Reader' role on the subscription. Check Azure Portal → Subscriptions → Access control (IAM)")
  \/ (error_status_code e <> Some 401%Z /\ error_status_code e <> Some 403%Z
      /\ Str.contains "subscription"
           (Str.lower (test_connection_error app sub e)) = true).
Proof.
  pose proof (keyword_branches_are_classified app sub (error_msg e) (error_type e)) as Hkey.
  cbv zeta in Hkey.
  unfold test_connection_error.
  destruct (error_status_code e) as [code|].
  - destruct (code =? 401)%Z eqn:E401.
    { left. apply Z.eqb_eq in E401. subst code. split; [reflexivity | found_in_prefix]. }
    destruct (code =? 403)%Z eqn:E403.
    { right. left. apply Z.eqb_eq in E403. subst code. split; reflexivity. }
    right. right.
    split; [intros [= ->]; discriminate|]. split; [intros [= ->]; discriminate|].
    destruct (code =? 404)%Z; [found_in_prefix | exact Hkey].
  - right. right. split; [discriminate|]. split; [discriminate | exact Hkey].
Qed.

(** X27: when listing the resource groups fails, [connect_azure_subscription]
    answers with status 500 and the error type [authentication],
    [permission] or [subscription], never [unknown]; a failure with status
    code 401 is typed [authentication], one with 403 [permission]. *)
Theorem connection_failures_are_classified (env : connect_env)
    (subscription_id : string) (e : azure_error) :
  Str.nonempty subscription_id = true ->
  client_failure env = None ->
  listing_failure env = Some e ->
  exists error errorType recoverySteps,
    connect_azure_subscription env subscription_id
      = ConnectFailed 500 error errorType recoverySteps
    /\ (errorType = "authentication" \/ errorType = "permission"
        \/ errorType = "subscription")
    /\ (error_status_code e = Some 401%Z -> errorType = "authentication")
    /\ (error_status_code e = Some 403%Z -> errorType = "permission").
Proof.
  intros Hsub Hclient Hlisting. unfold connect_azure_subscription.
  rewrite Hsub, Hclient, Hlisting. cbn [negb].
  destruct (connect_runtime_error_type (is_azure_app_service env) subscription_id
              (test_connection_error (is_azure_app_service env) subscription_id e))
    as [steps ->].
  eexists _, _, _. split; [reflexivity|].
  destruct (test_connection_error_cases (is_azure_app_service env) subscription_id e)
    as [[Hcode Hm]|[[Hcode Hm]|[H401 [H403 Hm]]]].
  - rewrite Hm. cbn [orb]. split; [auto|]. split; [reflexivity|].
    rewrite Hcode. discriminate.
  - rewrite Hm. split; [right; left; reflexivity|]. split; [|reflexivity].
    rewrite Hcode. discriminate.
  - split; [|split; intros H; contradiction].
    apply classified_when_subscription_is_mentioned. exact Hm.
Qed.

Lemma connection_failures_are_classified_witness :
  exists error errorType recoverySteps,
    connect_azure_subscription forbidden_env "sub-1"
      = ConnectFailed 500 error errorType recoverySteps
    /\ (errorType = "authentication" \/ errorType = "permission"
        \/ errorType = "subscription")
    /\ (error_status_code
          (mk_azure_error (Some 403%Z)
             "(AuthorizationFailed) The client does not have authorization"
             "HttpResponseError") = Some 401%Z -> errorType = "authentication")
    /\ (error_status_code
          (mk_azure_error (Some 403%Z)
             "(AuthorizationFailed) The client does not have authorization"
             "HttpResponseError") = Some 403%Z -> errorType = "permission").
Proof.
  apply (connection_failures_are_classified forbidden_env "sub-1"); reflexivity.
Defined.

(** X28: [connect_azure_subscription] reports success only for a non-empty
    subscription id when nothing failed.  Every failure has status 500: an
    empty subscription id is reported with the error type [HTTPException]
    (the 400 raised for it never leaves the function), and in Azure App
    Service a failure to create the client is always typed
    [authentication]. *)
Theorem connect_outcomes (env : connect_env) (subscription_id : string) :
  match connect_azure_subscription env subscription_id with
  | Connected subscriptionId =>
      subscriptionId = subscription_id /\ Str.nonempty subscription_id = true
      /\ client_failure env = None /\ listing_failure env = None
  | ConnectFailed status_code _ errorType _ =>
      status_code = 500
      /\ (Str.nonempty subscription_id = false -> errorType = "HTTPException")
      /\ (Str.nonempty subscription_id = true -> is_azure_app_service env = true ->
          client_failure env <> None -> errorType = "authentication")
  end.
Proof.
  unfold connect_azure_subscription.
  destruct (Str.nonempty subscription_id) eqn:Hsub; cbn [negb].
  - destruct (client_failure env) as [e|] eqn:Hc.
    + destruct (connect_runtime_error_type (is_azure_app_service env) subscription_id
                  (azure_init_error (is_azure_app_service env) subscription_id e))
        as [steps ->].
      split; [reflexivity|]. split; [discriminate|].
      intros _ Happ _. rewrite Happ. unfold azure_init_error.
      destruct (Str.contains "CredentialUnavailableError" (error_type e) || _); cbv iota.
      * replace (Str.contains "authentication" _) with true by (symmetry; found_in_prefix).
        reflexivity.
      * replace (Str.contains "credential" _) with true by (symmetry; found_in_suffix).
        rewrite orb_true_r. reflexivity.
    + destruct (listing_failure env) as [e|] eqn:Hl.
      * destruct (connect_runtime_error_type (is_azure_app_service env) subscription_id
                    (test_connection_error (is_azure_app_service env) subscription_id e))
          as [steps ->].
        split; [reflexivity|]. split; [discriminate|].
        intros _ _ H. contradiction.
      * auto.
  - unfold connect_other_error. split; [reflexivity|]. split; [reflexivity|].
    discriminate.
Qed.

(** ** Health *)

(** X29: [temenos_health] raises [HTTPException] with status 500 whatever
    token is configured: a [TemenosService] instance has no attribute
    [jwt_token], so reading it raises [AttributeError] before success can be
    reported. *)
Theorem temenos_health_always_fails (jwt_token : string) :
  temenos_health jwt_token = Raise (HTTPException 500).
Proof. reflexivity. Qed.
